(** * zipdist: saving and rebuilding the attributes of a Python object

    A shallow embedding of [zipdist/zip.py] (class [Zipdist]) and the
    properties of its save / build / reload protocol.

    Modelling choices, all taken from the source:
    - the host object is its [__dict__], a finite map from attribute names
      to Python values.  The two manifests are ordinary attributes of the
      host ([_complex_attributes], [_simple_attributes]), exactly as in the
      code, so that an assignment to one of these names changes the
      manifest the next statement reads;
    - Python values are finite trees; a [dict] value is an association list
      in insertion order.  Dict keys are compared structurally (Python
      also identifies [1], [1.0] and [True] as keys; no dict built by this
      program mixes them);
    - the file system is a finite map from path strings to file contents,
      plus a set of directories.  Failures of the operating system other
      than a missing file or a name already in use are outside the model;
    - every method runs in a state-and-exception monad: an exception
      leaves the state as it was when it was raised, as in Python;
    - writes to [sys.stdout] are not modelled ([verbose] only controls
      them). *)

From Stdlib Require Import ZArith String Ascii List.
From stdpp Require Import base option list strings gmap fin_maps pretty.

Open Scope string_scope.

(** ** Python values *)

(** A float is carried by its shortest [repr], which [float()] reads back
    to the same float. *)
Definition pyfloat := string.

(** [numpy.ndarray]: shape and flat contents. *)
Record ndarray := Ndarray { nd_shape : list nat; nd_data : list pyfloat }.

(** [pandas.DataFrame]: column names and rows of cells. *)
Record dataframe := DataFrame { df_columns : list string; df_rows : list (list pyfloat) }.

#[local] Unset Elimination Schemes.
Inductive pyval :=
| VNone
| VBool (b : bool)
| VInt (z : Z)
| VFloat (f : pyfloat)
| VStr (s : string)
| VList (l : list pyval)
| VTuple (l : list pyval)
| VDict (d : list (pyval * pyval))
| VNdarray (a : ndarray)
| VDataFrame (df : dataframe)
| VObject (cls : string).   (* an instance of any other class: hashable, no JSON encoding *)

#[local] Set Elimination Schemes.

Section pyval_induction.
Variable P : pyval → Prop.
Hypothesis HNone : P VNone.
Hypothesis HBool : ∀ b, P (VBool b).
Hypothesis HInt : ∀ z, P (VInt z).
Hypothesis HFloat : ∀ f, P (VFloat f).
Hypothesis HStr : ∀ s, P (VStr s).
Hypothesis HList : ∀ l, Forall P l → P (VList l).
Hypothesis HTuple : ∀ l, Forall P l → P (VTuple l).
Hypothesis HDict : ∀ d, Forall (λ kv, P kv.1 ∧ P kv.2) d → P (VDict d).
Hypothesis HNdarray : ∀ a, P (VNdarray a).
Hypothesis HDataFrame : ∀ df, P (VDataFrame df).
Hypothesis HObject : ∀ c, P (VObject c).

Fixpoint pyval_nested_ind (v : pyval) : P v :=
  match v with
  | VNone => HNone
  | VBool b => HBool b
  | VInt z => HInt z
  | VFloat f => HFloat f
  | VStr s => HStr s
  | VList l =>
      HList l ((fix go l : Forall P l :=
                  match l with
                  | [] => Forall_nil_2 P
                  | x :: r => Forall_cons_2 P x r (pyval_nested_ind x) (go r)
                  end) l)
  | VTuple l =>
      HTuple l ((fix go l : Forall P l :=
                   match l with
                   | [] => Forall_nil_2 P
                   | x :: r => Forall_cons_2 P x r (pyval_nested_ind x) (go r)
                   end) l)
  | VDict d =>
      HDict d ((fix go d : Forall (λ kv, P kv.1 ∧ P kv.2) d :=
                  match d with
                  | [] => Forall_nil_2 _
                  | (k, x) :: r =>
                      Forall_cons_2 (λ kv, P kv.1 ∧ P kv.2) (k, x) r
                        (conj (pyval_nested_ind k) (pyval_nested_ind x)) (go r)
                  end) d)
  | VNdarray a => HNdarray a
  | VDataFrame df => HDataFrame df
  | VObject c => HObject c
  end.
End pyval_induction.

#[global] Instance ndarray_eq_dec : EqDecision ndarray.
Proof. solve_decision. Defined.
#[global] Instance dataframe_eq_dec : EqDecision dataframe.
Proof. solve_decision. Defined.

#[global] Instance pyval_eq_dec : EqDecision pyval.
Proof.
  refine (fix go (x y : pyval) {struct x} : Decision (x = y) :=
    let _ : EqDecision pyval := go in
    match x, y with
    | VNone, VNone => left eq_refl
    | VBool a, VBool b => cast_if (decide (a = b))
    | VInt a, VInt b => cast_if (decide (a = b))
    | VFloat a, VFloat b => cast_if (decide (a = b))
    | VStr a, VStr b => cast_if (decide (a = b))
    | VList a, VList b => cast_if (decide (a = b))
    | VTuple a, VTuple b => cast_if (decide (a = b))
    | VDict a, VDict b => cast_if (decide (a = b))
    | VNdarray a, VNdarray b => cast_if (decide (a = b))
    | VDataFrame a, VDataFrame b => cast_if (decide (a = b))
    | VObject a, VObject b => cast_if (decide (a = b))
    | _, _ => right _
    end); congruence.
Defined.

(** ** Python dicts: association lists in insertion order *)

Section dict.
Context {K V : Type} `{EqDecision K}.

(** [d[k]] on a dict, without the exception: the first binding of [k]. *)
Fixpoint dict_get (k : K) (d : list (K * V)) : option V :=
  match d with
  | [] => None
  | (k', v) :: r => if decide (k' = k) then Some v else dict_get k r
  end.

(** [d[k] = v]: an existing key keeps its position, a new one goes last. *)
Fixpoint dict_set (k : K) (v : V) (d : list (K * V)) : list (K * V) :=
  match d with
  | [] => [(k, v)]
  | (k', v') :: r => if decide (k' = k) then (k, v) :: r else (k', v') :: dict_set k v r
  end.
End dict.


(** ** JSON documents *)

#[local] Unset Elimination Schemes.
Inductive json :=
| JNull
| JBool (b : bool)
| JInt (z : Z)
| JFloat (f : pyfloat)
| JStr (s : string)
| JArr (l : list json)
| JObj (members : list (string * json)).
#[local] Set Elimination Schemes.

(** ** Exceptions and results *)

Inductive exn :=
| AttributeError
| KeyError
| TypeError
| ValueError        (* also json.JSONDecodeError, UnicodeDecodeError *)
| IndexError
| AssertionError
| OSError           (* also FileNotFoundError, FileExistsError *)
| ReadError         (* tarfile.ReadError *)
| OtherError (name : string).

#[global] Instance exn_eq_dec : EqDecision exn.
Proof. solve_decision. Defined.

Definition result (A : Type) : Type := exn + A.

Definition rbind {A B} (r : result A) (f : A → result B) : result B :=
  match r with
  | inl e => inl e
  | inr a => f a
  end.

(** ** [json.dump]

    [has_default] tells whether the call passes [default = lambda x : None]
    ([_save_simple_attributes] does, [_save_complex_attributes] does not).
    The encoder follows [json.encoder]: the key of a dict member is coerced
    to a string when it is a str, float, bool, None or int, and is a
    [TypeError] otherwise ([skipkeys] is off and [default] is never asked
    about keys); an object the encoder does not know is handed to
    [default], whose result [None] is encoded in its place. *)

Definition json_key (k : pyval) : result string :=
  match k with
  | VStr s => inr s
  | VFloat f => inr f
  | VBool true => inr "true"
  | VBool false => inr "false"
  | VNone => inr "null"
  | VInt z => inr (pretty z)
  | _ => inl TypeError
  end.

Fixpoint json_dump (has_default : bool) (v : pyval) : result json :=
  match v with
  | VNone => inr JNull
  | VBool b => inr (JBool b)
  | VInt z => inr (JInt z)
  | VFloat f => inr (JFloat f)
  | VStr s => inr (JStr s)
  | VList l | VTuple l =>
      rbind ((fix items (l : list pyval) : result (list json) :=
                match l with
                | [] => inr []
                | x :: r =>
                    rbind (json_dump has_default x) (λ j,
                    rbind (items r) (λ js, inr (j :: js)))
                end) l)
            (λ js, inr (JArr js))
  | VDict d =>
      rbind ((fix members (d : list (pyval * pyval)) : result (list (string * json)) :=
                match d with
                | [] => inr []
                | (k, x) :: r =>
                    rbind (json_key k) (λ s,
                    rbind (json_dump has_default x) (λ j,
                    rbind (members r) (λ js, inr ((s, j) :: js))))
                end) d)
            (λ ms, inr (JObj ms))
  | VNdarray _ | VDataFrame _ | VObject _ =>
      if has_default then inr JNull else inl TypeError
  end.

(** ** [json.load]: a later member of an object replaces an earlier one of
    the same name, in the earlier one's position. *)

Fixpoint json_load (j : json) : pyval :=
  match j with
  | JNull => VNone
  | JBool b => VBool b
  | JInt z => VInt z
  | JFloat f => VFloat f
  | JStr s => VStr s
  | JArr l => VList (map json_load l)
  | JObj ms =>
      VDict ((fix members (ms : list (string * json)) (acc : list (pyval * pyval)) :=
                match ms with
                | [] => acc
                | (s, x) :: r => members r (dict_set (VStr s) (json_load x) acc)
                end) ms [])
  end.

(** The named forms of the two local fixpoints. *)
Fixpoint json_dump_items (has_default : bool) (l : list pyval) : result (list json) :=
  match l with
  | [] => inr []
  | x :: r =>
      rbind (json_dump has_default x) (λ j,
      rbind (json_dump_items has_default r) (λ js, inr (j :: js)))
  end.

Fixpoint json_dump_members (has_default : bool) (d : list (pyval * pyval))
  : result (list (string * json)) :=
  match d with
  | [] => inr []
  | (k, x) :: r =>
      rbind (json_key k) (λ s,
      rbind (json_dump has_default x) (λ j,
      rbind (json_dump_members has_default r) (λ js, inr ((s, j) :: js))))
  end.

Fixpoint json_load_members (ms : list (string * json)) (acc : list (pyval * pyval))
  : list (pyval * pyval) :=
  match ms with
  | [] => acc
  | (s, x) :: r => json_load_members r (dict_set (VStr s) (json_load x) acc)
  end.

(** ** Paths ([posixpath]) *)

Definition sep : ascii := "/"%char.

Definition startswith_sep (s : string) : bool :=
  match s with
  | String c _ => bool_decide (c = sep)
  | EmptyString => false
  end.

Fixpoint endswith_sep (s : string) : bool :=
  match s with
  | EmptyString => false
  | String c EmptyString => bool_decide (c = sep)
  | String _ r => endswith_sep r
  end.

Fixpoint contains_sep (s : string) : bool :=
  match s with
  | EmptyString => false
  | String c r => bool_decide (c = sep) || contains_sep r
  end.

(** [os.path.join(a, b)]. *)
Definition os_path_join (a b : string) : string :=
  if startswith_sep b then b
  else if bool_decide (a = "") || endswith_sep a then a ++ b
  else a ++ String sep b.

(** [os.path.basename(p)]: what follows the last separator. *)
Fixpoint os_path_basename (p : string) : string :=
  match p with
  | EmptyString => EmptyString
  | String c r =>
      if contains_sep r then os_path_basename r
      else if bool_decide (c = sep) then r
      else p
  end.

Fixpoint strip_prefix (pre s : string) : option string :=
  match pre, s with
  | EmptyString, _ => Some s
  | String a p, String b r => if decide (a = b) then strip_prefix p r else None
  | String _ _, EmptyString => None
  end.

(** The path of [p] relative to the directory [d], when [p] lies in [d]:
    the inverse of [os_path_join d]. *)
Definition relative_to (d p : string) : option string :=
  let d' := if bool_decide (d = "") || endswith_sep d then d else d ++ String sep "" in
  match strip_prefix d' p with
  | Some rel => if bool_decide (rel = "") || startswith_sep rel then None else Some rel
  | None => None
  end.

(** ** Files *)

#[local] Unset Elimination Schemes.
Inductive file :=
| FJson (j : json)                 (* written by json.dump *)
| FNumpy (a : ndarray)             (* written by a.tofile(file = f, sep = ",") *)
| FPandas (df : dataframe)         (* written by df.to_csv(f, sep = ",", index = False) *)
| FTar (tdirs : list string) (tfiles : list (string * file))   (* a .tar.gz archive *)
| FTruncated                       (* opened for writing, writer raised before the end *)
| FBytes (content : string).       (* anything else *)
#[local] Set Elimination Schemes.

(** ** What the model takes from the Python runtime and the libraries

    The behaviour of built-ins on values of a shape the program itself
    never builds, and the two decoders of numpy and pandas, are left
    open: every theorem holds whatever they do. *)

Class PyRuntime := {
  (** [str(v)] for [v] that is not a [str] *)
  py_repr : pyval → string;
  (** [numpy.genfromtxt(fn, delimiter = ",")], given the files on disk *)
  np_genfromtxt : pyval → gmap string file → result pyval;
  (** [pandas.read_csv(fn, sep = ",")], given the files on disk *)
  pd_read_csv : pyval → gmap string file → result pyval;
  (** [json.load] on a file that [json.dump] did not write *)
  json_load_raw : file → result pyval;
  (** [v.items()], [v.keys()], [v[k]] and [v[k] = x] for [v] that is not a dict *)
  py_items : pyval → result (list (pyval * pyval));
  py_keys : pyval → result (list pyval);
  py_getitem : pyval → pyval → result pyval;
  py_setitem : pyval → pyval → pyval → result pyval;
}.

(** ** State of the world and the monad of methods *)

Record state := State {
  attrs : gmap string pyval;      (* self.__dict__ *)
  files : gmap string file;       (* regular files, by path *)
  dirs : gset string;             (* directories, by path *)
  warnings : list string;         (* messages given to warnings.warn, oldest first *)
}.

Definition M (A : Type) : Type := state → result A * state.

#[global] Instance M_ret : MRet M := λ A x s, (inr x, s).
#[global] Instance M_bind : MBind M := λ A B f m s,
  match m s with
  | (inr a, s') => f a s'
  | (inl e, s') => (inl e, s')
  end.

Definition raise {A} (e : exn) : M A := λ s, (inl e, s).

Definition lift {A} (r : result A) : M A := λ s, (r, s).

(** [try: body except KeyError: handler] *)
Definition try_except_KeyError {A} (body handler : M A) : M A := λ s,
  match body s with
  | (inl KeyError, s') => handler s'
  | r => r
  end.

Fixpoint for_each {A} (l : list A) (body : A → M unit) : M unit :=
  match l with
  | [] => mret tt
  | x :: r => body x;; for_each r body
  end.

(** [self.k] *)
Definition getattr_ (k : string) : M pyval := λ s,
  match attrs s !! k with
  | Some v => (inr v, s)
  | None => (inl AttributeError, s)
  end.

Definition with_attrs (f : gmap string pyval → gmap string pyval) (s : state) : state :=
  State (f (attrs s)) (files s) (dirs s) (warnings s).

(** [self.k = v] *)
Definition set_attr (k : string) (v : pyval) : M unit := λ s,
  (inr tt, with_attrs (insert k v) s).

(** [setattr(self, k, v)]: the name must be a [str]. *)
Definition setattr_ (k v : pyval) : M unit :=
  match k with
  | VStr n => set_attr n v
  | _ => raise TypeError
  end.

(** [warnings.warn(msg)] *)
Definition warn (msg : string) : M unit := λ s,
  (inr tt, State (attrs s) (files s) (dirs s) (warnings s ++ [msg])).

(** [open(f, 'w')] followed by a complete write of [c]. *)
Definition write_file (f : string) (c : file) : M unit := λ s,
  (inr tt, State (attrs s) (<[f := c]> (files s)) (dirs s) (warnings s)).

Fixpoint hashable (v : pyval) : bool :=
  match v with
  | VList _ | VDict _ | VNdarray _ | VDataFrame _ => false
  | VTuple l => forallb hashable l
  | _ => true
  end.

Section zipdist.
Context `{PyRuntime}.

(** [str(v)] *)
Definition py_str (v : pyval) : string :=
  match v with
  | VStr s => s
  | _ => py_repr v
  end.

(** [v[k]] *)
Definition getitem (v k : pyval) : result pyval :=
  match v with
  | VDict d =>
      if hashable k then
        match dict_get k d with
        | Some x => inr x
        | None => inl KeyError
        end
      else inl TypeError
  | _ => py_getitem v k
  end.

(** [v[k] = x]; the result is the object after the assignment. *)
Definition setitem (v k x : pyval) : result pyval :=
  match v with
  | VDict d => if hashable k then inr (VDict (dict_set k x d)) else inl TypeError
  | _ => py_setitem v k x
  end.

Definition items (v : pyval) : result (list (pyval * pyval)) :=
  match v with
  | VDict d => inr d
  | _ => py_items v
  end.

Definition keys (v : pyval) : result (list pyval) :=
  match v with
  | VDict d => inr d.*1
  | _ => py_keys v
  end.

(** [json.load(fp)] on an open file. *)
Definition json_load_file (c : file) : result pyval :=
  match c with
  | FJson j => inr (json_load j)
  | _ => json_load_raw c
  end.

(** [self.__dict__] as a Python value. *)
Definition attrs_dict (a : gmap string pyval) : pyval :=
  VDict ((λ kv : string * pyval, (VStr kv.1, kv.2)) <$> map_to_list a).

Definition self_dict (s : state) : pyval := attrs_dict (attrs s).

(** *** The class *)

(** [Zipdist(name)] *)
Definition init (name : pyval) : gmap string pyval := {[ "name" := name ]}.

Definition _get_attributes : M (list string) := λ s,
  (inr (map_to_list (attrs s)).*1, s).

Definition _make_dest_directory (dest : string) : M unit := λ s,
  if bool_decide (dest ∈ dirs s) then (inr tt, s)
  else (inr tt, State (attrs s) (files s) ({[dest]} ∪ dirs s) (warnings s)).

Definition numpy_entry (f : string) : pyval :=
  VDict [(VStr "filename", VStr f); (VStr "filetype", VStr "np.ndarray");
         (VStr "fileformat", VStr "csv")].

Definition pandas_entry (f : string) : pyval :=
  VDict [(VStr "filename", VStr f); (VStr "filetype", VStr "pd.DataFrame");
         (VStr "fileformat", VStr "csv")].

(** [self._complex_attributes[k] = entry] *)
Definition record_complex (k : string) (entry : pyval) : M unit :=
  c ← getattr_ "_complex_attributes";
  c' ← lift (setitem c (VStr k) entry);
  set_attr "_complex_attributes" c'.

Definition _save_numpy_attributes (dest : string) : M unit :=
  _get_attributes;;
  ks ← _get_attributes;
  for_each ks (λ k,
    v ← getattr_ k;
    match v with
    | VNdarray a =>
        let f := os_path_join dest (k ++ ".cs") in
        write_file f (FNumpy a);;
        record_complex k (numpy_entry f)
    | _ => mret tt
    end).

Definition _save_pandas_attributes (dest : string) : M unit :=
  ks ← _get_attributes;
  for_each ks (λ k,
    v ← getattr_ k;
    match v with
    | VDataFrame df =>
        let f := os_path_join dest (k ++ ".csv") in
        write_file f (FPandas df);;
        record_complex k (pandas_entry f)
    | _ => mret tt
    end).

(** [with open(f, 'w') as fp: json.dump(v, fp, ...)]: the file is
    created before the encoder runs and is left incomplete when the
    encoder raises. *)
Definition dump_to (f : string) (has_default : bool) (v : pyval) : M unit :=
  match json_dump has_default v with
  | inr j => write_file f (FJson j)
  | inl e => write_file f FTruncated;; raise e
  end.

Definition _save_simple_attributes (dest : string) : M unit :=
  let f := os_path_join dest "simple_attributes.json" in
  d ← (λ s, (inr (self_dict s), s));
  dump_to f true d.

Definition _save_complex_attributes (dest : string) : M unit :=
  let f := os_path_join dest "complex_attributes.json" in
  (* the file is opened before the attribute is read *)
  write_file f FTruncated;;
  c ← getattr_ "_complex_attributes";
  dump_to f false c.
(** The members [tar.add(dest, arcname)] collects: [dest] itself and,
    recursively, what lies in it, each under [arcname] joined with its
    path relative to [dest].  [tarfile] leaves out the archive being
    written. *)
Definition tar_file_members (dest arcname dest_tar : string) (fs : gmap string file)
  : list (string * file) :=
  omap (λ pc : string * file,
          match relative_to dest pc.1 with
          | Some rel =>
              if bool_decide (pc.1 = dest_tar) then None
              else Some (os_path_join arcname rel, pc.2)
          | None => None
          end) (map_to_list fs).

Definition tar_dir_members (dest arcname : string) (ds : gset string) : list string :=
  arcname :: omap (λ q, os_path_join arcname <$> relative_to dest q) (elements ds).

Definition _save_as_tar_gz (dest dest_tar : string) : M unit :=
  (* tarfile.open(dest_tar, "w:gz") *)
  write_file dest_tar FTruncated;;
  (* tar.add(dest, arcname = os.path.basename(dest)) *)
  s ← (λ s, (inr s, s));
  let arcname := os_path_basename dest in
  if bool_decide (dest ∈ dirs s) then
    write_file dest_tar
      (FTar (tar_dir_members dest arcname (dirs s))
            (tar_file_members dest arcname dest_tar (files s)))
  else
    match files s !! dest with
    | Some c =>
        if bool_decide (dest = dest_tar) then write_file dest_tar (FTar [] [])
        else write_file dest_tar (FTar [] [(arcname, c)])
    | None => raise OSError
    end.

(** [tar.extractall()] into the working directory. *)
Definition extractall (tdirs : list string) (tfiles : list (string * file)) : M unit := λ s,
  (inr tt,
   State (attrs s)
         (foldl (λ fs pc, <[pc.1 := pc.2]> fs) (files s) tfiles)
         (list_to_set tdirs ∪ dirs s)
         (warnings s)).

Definition _extract_tarfile (dest_tar : string) : M unit := λ s,
  match files s !! dest_tar with
  | None => (inl OSError, s)
  | Some (FTar tdirs tfiles) => extractall tdirs tfiles s
  | Some _ => (inl ReadError, s)
  end.

(** [assert os.path.isfile(p)] then [json.load] of the file. *)
Definition load_definitions (p : string) : M pyval := λ s,
  match files s !! p with
  | None => (inl AssertionError, s)
  | Some c => (json_load_file c, s)
  end.

Definition _get_complex_attribute_definitions (dest : string) : M unit :=
  complex_attributes ← load_definitions (os_path_join dest "complex_attributes.json");
  set_attr "_complex_attributes" complex_attributes.

Definition _get_simple_attribute_definitions (dest : string) : M unit :=
  simple_attributes ← load_definitions (os_path_join dest "simple_attributes.json");
  set_attr "_simple_attributes" simple_attributes.

(** [if dest is None: dest = str(self.name)] *)
Definition default_dest (dest : option string) : M string :=
  match dest with
  | Some d => mret d
  | None => n ← getattr_ "name"; mret (py_str n)
  end.

(** [if dest_tar is None: dest_tar = f"{dest}.tar.gz"] *)
Definition default_dest_tar (dest : string) (dest_tar : option string) : string :=
  match dest_tar with
  | Some t => t
  | None => dest ++ ".tar.gz"
  end.

Definition _save (dest dest_tar : option string) : M unit :=
  dest ← default_dest dest;
  let dest_tar := default_dest_tar dest dest_tar in
  set_attr "_complex_attributes" (VDict []);;
  set_attr "_simple_attributes" (VDict []);;
  _make_dest_directory dest;;
  _save_numpy_attributes dest;;
  _save_pandas_attributes dest;;
  _save_complex_attributes dest;;
  _save_simple_attributes dest;;
  _save_as_tar_gz dest dest_tar.

Definition reserved : list pyval :=
  [VStr "_complex_attributes"; VStr "_simple_attributes"].

(** The body of the loop of [_reload_simple_all]. *)
Definition simple_step (kv : pyval * pyval) : M unit :=
  let '(k, v) := kv in
  if bool_decide (k ∈ reserved) then mret tt
  else if bool_decide (v = VNone) then mret tt
  else setattr_ k v.

Definition _reload_simple_all : M unit :=
  m ← getattr_ "_simple_attributes";
  kvs ← lift (items m);
  for_each kvs simple_step.

(** The table of decoders of [_reload_complex], looked up by [filetype]. *)
Definition decoder (filetype : pyval) : result (pyval → gmap string file → result pyval) :=
  if hashable filetype then
    if bool_decide (filetype = VStr "np.ndarray") then inr np_genfromtxt
    else if bool_decide (filetype = VStr "pd.DataFrame") then inr pd_read_csv
    else inl KeyError
  else inl TypeError.

Definition unrecognized_warning (k filename filetype : pyval) : string :=
  "Could not reload " ++ py_str k ++ ", " ++ py_str filename
    ++ " had unrecognized " ++ py_str filetype.

Definition _reload_complex (k : pyval) : M unit :=
  m ← getattr_ "_complex_attributes";
  v ← lift (getitem m k);
  filename ← lift (getitem v (VStr "filename"));
  filetype ← lift (getitem v (VStr "filetype"));
  fileformat ← lift (getitem v (VStr "fileformat"));
  try_except_KeyError
    (func ← lift (decoder filetype);
     x ← (λ s, (func filename (files s), s));
     setattr_ k x)
    (warn (unrecognized_warning k filename filetype)).

Definition _reload_complex_all : M unit :=
  m ← getattr_ "_complex_attributes";
  ks ← lift (keys m);
  for_each ks _reload_complex.

Definition _reload : M unit :=
  _reload_simple_all;;
  _reload_complex_all.

Definition simple_warning (k : pyval) : string :=
  "Could not reload simple attribute " ++ py_str k.

Definition _reload_simple (k : pyval) : M unit :=
  try_except_KeyError
    (m ← getattr_ "_simple_attributes";
     v ← lift (getitem m k);
     setattr_ k v)
    (warn (simple_warning k)).

Definition _build (dest dest_tar : option string) (reload : bool) : M unit :=
  set_attr "_complex_attributes" (VDict []);;
  set_attr "_simple_attributes" (VDict []);;
  dest ← default_dest dest;
  let dest_tar := default_dest_tar dest dest_tar in
  set_attr "dest" (VStr dest);;
  set_attr "dest_tar" (VStr dest_tar);;
  _extract_tarfile dest_tar;;
  _get_complex_attribute_definitions dest;;
  _get_simple_attribute_definitions dest;;
  if reload then _reload else mret tt.

(** *** The effect of the loops, as folds

    [a] is the attribute map the loop starts from. *)

(** What [dest] becomes at the head of [_save] and [_build]. *)
Definition resolve_dest (s : state) (dest : option string) : option string :=
match dest with
| Some d => Some d
| None => py_str <$> attrs s !! "name"
end.

Definition np_record (d : string) (a : gmap string pyval)
  (c : list (pyval * pyval)) (k : string) : list (pyval * pyval) :=
match a !! k with
| Some (VNdarray _) => dict_set (VStr k) (numpy_entry (os_path_join d (k ++ ".cs"))) c
| _ => c
end.

Definition np_write (d : string) (a : gmap string pyval)
  (fs : gmap string file) (k : string) : gmap string file :=
match a !! k with
| Some (VNdarray x) => <[os_path_join d (k ++ ".cs") := FNumpy x]> fs
| _ => fs
end.

Definition pd_record (d : string) (a : gmap string pyval)
  (c : list (pyval * pyval)) (k : string) : list (pyval * pyval) :=
match a !! k with
| Some (VDataFrame _) => dict_set (VStr k) (pandas_entry (os_path_join d (k ++ ".csv"))) c
| _ => c
end.

Definition pd_write (d : string) (a : gmap string pyval)
  (fs : gmap string file) (k : string) : gmap string file :=
match a !! k with
| Some (VDataFrame x) => <[os_path_join d (k ++ ".csv") := FPandas x]> fs
| _ => fs
end.

(** The attribute map once [_save] has reset the two manifests. *)
Definition reset_manifests (a : gmap string pyval) : gmap string pyval :=
<["_simple_attributes" := VDict []]> (<["_complex_attributes" := VDict []]> a).

(** The complex manifest [_save] builds for the directory [d]. *)
Definition complex_manifest (d : string) (a : gmap string pyval) : list (pyval * pyval) :=
let a0 := reset_manifests a in
let c1 := foldl (np_record d a0) [] (map_to_list a0).*1 in
let a1 := <["_complex_attributes" := VDict c1]> a0 in
foldl (pd_record d a1) c1 (map_to_list a1).*1.

(** The attribute map [_save] leaves behind. *)
Definition saved_attrs (d : string) (a : gmap string pyval) : gmap string pyval :=
<["_complex_attributes" := VDict (complex_manifest d a)]> (reset_manifests a).

(** The names [_build] assigns before it reloads anything. *)
Definition bookkeeping : list string :=
["_complex_attributes"; "_simple_attributes"; "dest"; "dest_tar"].

(** The file [p] is neither on disk nor a member of the archive [t]. *)
Definition nowhere (s : state) (t p : string) : Prop :=
files s !! p = None ∧
∀ tdirs tfiles, files s !! t = Some (FTar tdirs tfiles) → p ∉ tfiles.*1.

(** The state in which [_build] unpacks the archive. *)
Definition build_start (s : state) (d t : string) : state :=
  with_attrs (λ a, <["dest_tar" := VStr t]> (<["dest" := VStr d]>
                 (<["_simple_attributes" := VDict []]>
                    (<["_complex_attributes" := VDict []]> a)))) s.

(** [s'] has the attributes of [s], the names of [bookkeeping] apart. *)
Definition frame (s s' : state) : Prop :=
  ∀ k, k ∉ bookkeeping → attrs s' !! k = attrs s !! k.

(** The files on disk once both loops of [_save] have run. *)
Definition encoded_files (d : string) (a : gmap string pyval) (fs : gmap string file)
  : gmap string file :=
let a0 := reset_manifests a in
let c1 := foldl (np_record d a0) [] (map_to_list a0).*1 in
let a1 := <["_complex_attributes" := VDict c1]> a0 in
foldl (pd_write d a1) (foldl (np_write d a0) fs (map_to_list a0).*1) (map_to_list a1).*1.

(** The directories once [_make_dest_directory] has run. *)
Definition save_dirs (d : string) (ds : gset string) : gset string :=
if bool_decide (d ∈ ds) then ds else {[d]} ∪ ds.

(** The files once both manifests [jc] and [js] are written. *)
Definition manifests_written (d : string) (jc js : json) (fs : gmap string file)
  : gmap string file :=
<[os_path_join d "simple_attributes.json" := FJson js]>
  (<[os_path_join d "complex_attributes.json" := FJson jc]> fs).

(** The archive [_save_as_tar_gz] writes at [t] for the directory [d]. *)
Definition archive_of (d t : string) (ds : gset string) (fs : gmap string file) : file :=
FTar (tar_dir_members d (os_path_basename d) ds)
     (tar_file_members d (os_path_basename d) t (<[t := FTruncated]> fs)).

(** *** Loaded manifests, as the data model has them *)

(** The three fields [_reload_complex] reads from an entry, when the
    entry is a dict that has them and its type tag is a string. *)
Definition entry_fields (e : pyval) : option (pyval * string * pyval) :=
match e with
| VDict f =>
    match dict_get (VStr "filename") f, dict_get (VStr "filetype") f,
          dict_get (VStr "fileformat") f with
    | Some fn, Some (VStr tag), Some ff => Some (fn, tag, ff)
    | _, _, _ => None
    end
| _ => None
end.

(** The tags with a decoder. *)
Definition recognized (tag : string) : bool :=
bool_decide (tag = "np.ndarray") || bool_decide (tag = "pd.DataFrame").

(** What the decoder of a recognised tag reads for the file name [fn]. *)
Definition decode (tag : string) (fn : pyval) (fs : gmap string file) : result pyval :=
if bool_decide (tag = "np.ndarray") then np_genfromtxt fn fs else pd_read_csv fn fs.

(** An entry of a loaded complex manifest that follows the data model:
    named by a string other than the manifest's own attribute, with its
    three fields, and, when its tag is recognised, with a file the
    decoder reads. *)
Definition entry_ok (fs : gmap string file) (kv : pyval * pyval) : Prop :=
∃ name fn tag ff,
  kv.1 = VStr name ∧ name ≠ "_complex_attributes" ∧
  entry_fields kv.2 = Some (fn, tag, ff) ∧
  (recognized tag = true → ∃ x, decode tag fn fs = inr x).
End zipdist.

(** ** Values that JSON carries unchanged *)

Definition is_str (v : pyval) : bool :=
  match v with
  | VStr _ => true
  | _ => false
  end.


(** Scalars, lists, and dicts with pairwise distinct [str] keys. *)
Fixpoint json_plain (v : pyval) : bool :=
  match v with
  | VNone | VBool _ | VInt _ | VFloat _ | VStr _ => true
  | VList l => forallb json_plain l
  | VDict d =>
      forallb (λ kv : pyval * pyval, is_str kv.1 && json_plain kv.2) d
      && bool_decide (NoDup d.*1)
  | _ => false
  end.


(** ** The complex manifest as data *)

(** The two types with a codec. *)
Definition is_complex (v : pyval) : bool :=
  match v with
  | VNdarray _ | VDataFrame _ => true
  | _ => false
  end.

(** The entry [_save] records for the attribute [k] of value [v]. *)
Definition entry_of (d k : string) (v : pyval) : option pyval :=
  match v with
  | VNdarray _ => Some (numpy_entry (os_path_join d (k ++ ".cs")))
  | VDataFrame _ => Some (pandas_entry (os_path_join d (k ++ ".csv")))
  | _ => None
  end.

(** A manifest as [_save] builds them: distinct [str] names, each with
    one of the two kinds of entry. *)
Definition manifest_wf (c : list (pyval * pyval)) : Prop :=
  Forall (λ kv : pyval * pyval,
            ∃ k f, kv.1 = VStr k ∧ (kv.2 = numpy_entry f ∨ kv.2 = pandas_entry f)) c
  ∧ NoDup c.*1.


(** ** A runtime for the worked examples

    The decoders read back what the encoders wrote ([genfromtxt] gives a
    flat array); the built-ins refuse what a list or a scalar refuses. *)

Definition example_genfromtxt (fn : pyval) (fs : gmap string file) : result pyval :=
  match fn with
  | VStr p =>
      match fs !! p with
      | Some (FNumpy a) => inr (VNdarray (Ndarray [length (nd_data a)] (nd_data a)))
      | Some _ => inl ValueError
      | None => inl OSError
      end
  | _ => inl TypeError
  end.

Definition example_read_csv (fn : pyval) (fs : gmap string file) : result pyval :=
  match fn with
  | VStr p =>
      match fs !! p with
      | Some (FPandas df) => inr (VDataFrame df)
      | Some _ => inl ValueError
      | None => inl OSError
      end
  | _ => inl TypeError
  end.

Definition example_runtime : PyRuntime := {|
  py_repr := λ _, "<object>";
  np_genfromtxt := example_genfromtxt;
  pd_read_csv := example_read_csv;
  json_load_raw := λ _, inl ValueError;
  py_items := λ _, inl AttributeError;
  py_keys := λ _, inl AttributeError;
  py_getitem := λ _ _, inl TypeError;
  py_setitem := λ _ _ _, inl TypeError;
|}.

(** A host with the given attributes, on an empty disk. *)
Definition host (l : list (string * pyval)) : state :=
  State (list_to_map l) ∅ ∅ [].

Definition zeros : pyval := VNdarray (Ndarray [2] ["0.0"; "0.0"]).

(** ** What a method may do to the attributes

    [m] relates the attribute map it starts from to the one it leaves by
    [R], whether it returns or raises. *)
Definition keeps (R : relation (gmap string pyval)) {A} (m : M A) : Prop :=
  ∀ s, R (attrs s) (attrs (m s).2).

(** No attribute is removed. *)
Definition grows : relation (gmap string pyval) :=
  λ a a', ∀ k, is_Some (a !! k) → is_Some (a' !! k).

(** Only the names in [names] are assigned. *)
Definition only_assigns (names : list string) : relation (gmap string pyval) :=
  λ a a', ∀ k, k ∉ names → a' !! k = a !! k.

(** ** Reloading as a list of assignments *)

(** The assignments [l], oldest first, and the warnings [w], made on [s]. *)
Definition assign (l : list (string * pyval)) (w : list string) (s : state) : state :=
  State (foldl (λ a kv, <[kv.1 := kv.2]> a) (attrs s) l) (files s) (dirs s)
        (warnings s ++ w).

(** [s] and [s'] have the same files and the same two loaded manifests. *)
Definition same_inputs (s s' : state) : Prop :=
  files s' = files s ∧
  attrs s' !! "_simple_attributes" = attrs s !! "_simple_attributes" ∧
  attrs s' !! "_complex_attributes" = attrs s !! "_complex_attributes".

(** [m] reads nothing but the files and the two manifests: from states
    that agree on them it raises or returns alike and makes the same
    assignments. *)
Definition reads_inputs_only {A} (m : M A) : Prop :=
  ∀ s, ∃ r l w, ∀ s', same_inputs s s' → m s' = (r, assign l w s').

(** The member named [q] of the archive at [t], if any. *)
Definition archive_member (fs : gmap string file) (t q : string) : option file :=
  match fs !! t with
  | Some (FTar _ tfiles) => dict_get q tfiles
  | _ => None
  end.

(** *** Hosts and disks of the worked examples *)

(** The host of the class docstring, with an attribute left [None]. *)
Definition simpsons : state :=
  host [("name", VStr "Simpsons"); ("year", VNone);
        ("years", VList [VInt 2020; VInt 2019])].

(** The same with an array. *)
Definition simpsons_bart : state :=
  host [("name", VStr "Simpsons"); ("bart", zeros)].

(** A fresh [Zipdist("Simpsons")] on the disk [s] leaves. *)
Definition fresh_on (s : state) : state :=
  State (init (VStr "Simpsons")) (files s) (dirs s) [].

(** A disk whose archive has the simple manifest only. *)
Definition half_archive : state :=
  State (init (VStr "Simpsons"))
        {[ "Simpsons.tar.gz" :=
             FTar ["Simpsons"] [("Simpsons/simple_attributes.json", FJson (JObj []))] ]}
        ∅ [].

(** A loaded complex manifest with an entry of a type this version has
    no decoder for. *)
Definition sparse_entry : pyval :=
  VDict [(VStr "filename", VStr "d/odd.npz"); (VStr "filetype", VStr "scipy.sparse");
         (VStr "fileformat", VStr "npz")].

Definition mixed_manifest : list (pyval * pyval) :=
  [(VStr "odd", sparse_entry); (VStr "bart", numpy_entry "d/bart.cs")].

Definition mixed_engine : state :=
  State {[ "_complex_attributes" := VDict mixed_manifest ]}
        {[ "d/bart.cs" := FNumpy (Ndarray [2] ["0.0"; "0.0"]) ]} ∅ [].

(** A built engine whose simple manifest holds a null for [year], on a
    host that has since set [year]. *)
Definition year_engine : state :=
  host [("_simple_attributes", VDict [(VStr "year", VNone)]);
        ("_complex_attributes", VDict []);
        ("year", VInt 2020)].

(** An engine built, without a reload, from the archive of the host with
    the array. *)
Definition built_engine : state :=
  (@_build example_runtime None None false
     (fresh_on (@_save example_runtime None None simpsons_bart).2)).2.

(** The names in [names] keep their values. *)
Definition leaves (names : list string) : relation (gmap string pyval) :=
  λ a a', ∀ k, k ∈ names → a' !! k = a !! k.

(** The two manifest fields of the host. *)
Definition manifest_fields : list string :=
  ["_complex_attributes"; "_simple_attributes"].

(** A runtime whose table decoder raises [KeyError] (a column it looks
    up is not in the file), all else as in [example_runtime]. *)
Definition keyerror_runtime : PyRuntime := {|
  py_repr := λ _, "<object>";
  np_genfromtxt := example_genfromtxt;
  pd_read_csv := λ _ _, inl KeyError;
  json_load_raw := λ _, inl ValueError;
  py_items := λ _, inl AttributeError;
  py_keys := λ _, inl AttributeError;
  py_getitem := λ _ _, inl TypeError;
  py_setitem := λ _ _ _, inl TypeError;
|}.

(** A host that has lost its [name]. *)
Definition nameless : state :=
  host [("_complex_attributes", VDict [(VStr "bart", numpy_entry "d/bart.cs")]);
        ("_simple_attributes", VDict [(VStr "year", VInt 2020)])].

(** A loaded manifest with a table and an array, on a disk that has the
    array's file only. *)
Definition table_then_array : list (pyval * pyval) :=
  [(VStr "bart", numpy_entry "d/bart.cs"); (VStr "lisa", pandas_entry "d/lisa.csv");
   (VStr "maggie", numpy_entry "d/maggie.cs")].

Definition lisa_missing : state :=
  State {[ "_complex_attributes" := VDict table_then_array ]}
        {[ "d/bart.cs" := FNumpy (Ndarray [2] ["0.0"; "0.0"]);
           "d/maggie.cs" := FNumpy (Ndarray [1] ["1.0"]) ]} ∅ [].

(** The last character of a string. *)
Fixpoint string_last (s : string) : option ascii :=
  match s with
  | EmptyString => None
  | String c EmptyString => Some c
  | String _ r => string_last r
  end.

(** The file [_save] writes for the attribute [k] of value [v], and what
    it holds. *)
Definition data_file (d k : string) (v : pyval) : option (string * file) :=
  match v with
  | VNdarray x => Some (os_path_join d (k ++ ".cs"), FNumpy x)
  | VDataFrame x => Some (os_path_join d (k ++ ".csv"), FPandas x)
  | _ => None
  end.

(** The type tag [_save] records for a value with a codec. *)
Definition tag_of (v : pyval) : string :=
  match v with
  | VDataFrame _ => "pd.DataFrame"
  | _ => "np.ndarray"
  end.

(** The host with the array, once saved, and a disk that holds nothing
    but the archive of that save. *)
Definition saved_bart : state := (@_save example_runtime None None simpsons_bart).2.

Definition shipped : state :=
  State (init (VStr "Simpsons"))
        (filter (λ kv : string * file, kv.1 = "Simpsons.tar.gz") (files saved_bart)) ∅ [].

(** Does the decoder of [v]'s type read the file written for [k]? *)
Definition decodes_on `{PyRuntime} (d : string) (fs : gmap string file)
    (k : string) (v : pyval) : bool :=
  match data_file d k v with
  | Some (p, _) =>
      match decode (tag_of v) (VStr p) fs with
      | inr _ => true
      | inl _ => false
      end
  | None => true
  end.

(** A built engine whose simple manifest holds a null for [year], on a
    host whose [year] is unset. *)
Definition year_unset : state :=
  host [("_simple_attributes", VDict [(VStr "year", VNone); (VStr "n", VInt 3)]);
        ("_complex_attributes", VDict []);
        ("year", VNone)].

(** * Properties *)

(** ** Dicts *)

Section dict_facts.
Context {K V : Type} `{EqDecision K}.
Implicit Types (k : K) (v : V) (d : list (K * V)).

Lemma dict_get_set_eq k v d : dict_get k (dict_set k v d) = Some v.
Proof.
  induction d as [|[k' v'] r IH]; simpl.
  - by rewrite decide_True.
  - destruct (decide (k' = k)) as [->|Hne]; simpl.
    + by rewrite decide_True.
    + by rewrite decide_False.
Qed.

Lemma dict_get_set_ne k k' v d : k ≠ k' → dict_get k' (dict_set k v d) = dict_get k' d.
Proof.
  intros Hne. induction d as [|[k0 v0] r IH]; simpl.
  - by rewrite decide_False.
  - destruct (decide (k0 = k)) as [->|Hne0]; simpl.
    + by rewrite !decide_False.
    + destruct (decide (k0 = k')); [done|apply IH].
Qed.

Lemma dict_get_set k k' v d :
  dict_get k' (dict_set k v d) = if decide (k = k') then Some v else dict_get k' d.
Proof.
  destruct (decide (k = k')) as [->|Hne];
    [apply dict_get_set_eq | by apply dict_get_set_ne].
Qed.

Lemma dict_get_Some_elem k v d : dict_get k d = Some v → (k, v) ∈ d.
Proof.
  induction d as [|[k' v'] r IH]; simpl; [done|].
  destruct (decide (k' = k)) as [->|Hne].
  - intros [= ->]. left.
  - intros H1. right. by apply IH.
Qed.

Lemma dict_get_None k d : dict_get k d = None ↔ k ∉ d.*1.
Proof.
  induction d as [|[k' v'] r IH]; simpl.
  - split; [intros _; apply not_elem_of_nil | done].
  - rewrite not_elem_of_cons. destruct (decide (k' = k)) as [->|Hne].
    + split; [done | by intros [? _]].
    + rewrite IH. split; [by intros ? | by intros [_ ?]].
Qed.

Lemma dict_get_NoDup k v d : NoDup d.*1 → (k, v) ∈ d → dict_get k d = Some v.
Proof.
  induction d as [|[k' v'] r IH]; simpl; [by intros _ ?%elem_of_nil|].
  rewrite NoDup_cons. intros [Hk Hr] [[= -> ->]|Hin]%elem_of_cons.
  - by rewrite decide_True.
  - rewrite decide_False; [by apply IH|].
    intros ->. apply Hk. apply list_elem_of_fmap. by exists (k, v).
Qed.
End dict_facts.

(** ** The JSON encoder and decoder, unfolded *)

Lemma json_dump_list hd l :
  json_dump hd (VList l) = rbind (json_dump_items hd l) (λ js, inr (JArr js)).
Proof.
  simpl. f_equal. induction l as [|x r IH]; simpl; [done|]. by rewrite IH.
Qed.


Lemma json_dump_dict hd d :
  json_dump hd (VDict d) = rbind (json_dump_members hd d) (λ ms, inr (JObj ms)).
Proof.
  simpl. f_equal. induction d as [|[k x] r IH]; simpl; [done|]. by rewrite IH.
Qed.

Lemma json_load_obj ms : json_load (JObj ms) = VDict (json_load_members ms []).
Proof.
  reflexivity.
Qed.

Example json_dump_ex :
  json_dump true (VDict [(VStr "a", VList [VInt 1; VObject "set"]); (VInt 3, VNone)])
  = inr (JObj [("a", JArr [JInt 1; JNull]); ("3", JNull)]).
Proof. reflexivity. Qed.

(** ** Running the monad *)

Lemma run_bind {A B} (m : M A) (f : A → M B) s :
  (m ≫= f) s = match m s with
               | (inr a, s') => f a s'
               | (inl e, s') => (inl e, s')
               end.
Proof. reflexivity. Qed.

Lemma run_bind_ok {A B} (m : M A) (f : A → M B) s a s' :
  m s = (inr a, s') → (m ≫= f) s = f a s'.
Proof. intros Hm. by rewrite run_bind, Hm. Qed.

Lemma run_bind_err {A B} (m : M A) (f : A → M B) s e s' :
  m s = (inl e, s') → (m ≫= f) s = (inl e, s').
Proof. intros Hm. by rewrite run_bind, Hm. Qed.

Lemma run_getattr k s v : attrs s !! k = Some v → getattr_ k s = (inr v, s).
Proof. intros Hk. unfold getattr_. by rewrite Hk. Qed.

Lemma with_attrs_id s : with_attrs id s = s.
Proof. by destruct s. Qed.

Lemma attrs_with_attrs f s : attrs (with_attrs f s) = f (attrs s).
Proof. reflexivity. Qed.

Lemma with_attrs_compose f g s : with_attrs f (with_attrs g s) = with_attrs (f ∘ g) s.
Proof. reflexivity. Qed.

(** ** Reloading one attribute by name *)

Section reload_one.
Context `{PyRuntime}.

(** A name the simple manifest does not have: a warning, and nothing else. *)
Lemma reload_simple_missing s d k :
  attrs s !! "_simple_attributes" = Some (VDict d) →
  hashable k = true →
  dict_get k d = None →
  _reload_simple k s
  = (inr tt, State (attrs s) (files s) (dirs s) (warnings s ++ [simple_warning k])).
Proof.
  intros Hm Hh Hk. unfold _reload_simple, try_except_KeyError.
  rewrite run_bind, (run_getattr _ _ _ Hm), run_bind.
  unfold lift, getitem. by rewrite Hh, Hk.
Qed.

(** C5, for [_reload_complex]: the entry is read before the [try]
    block is entered, so a name the complex manifest does not have is a
    [KeyError] for the caller, with no warning and no change of state. *)
Theorem reload_complex_missing_raises s d k :
  attrs s !! "_complex_attributes" = Some (VDict d) →
  hashable k = true →
  dict_get k d = None →
  _reload_complex k s = (inl KeyError, s).
Proof.
  intros Hm Hh Hk. unfold _reload_complex.
  rewrite run_bind, (run_getattr _ _ _ Hm), run_bind.
  unfold lift, getitem. by rewrite Hh, Hk.
Qed.

(** C6, for [_reload_simple]: the value the manifest holds under the
    name is assigned whatever it is, a null included. *)
Theorem reload_simple_writes_none s d k :
  attrs s !! "_simple_attributes" = Some (VDict d) →
  dict_get (VStr k) d = Some VNone →
  _reload_simple (VStr k) s = (inr tt, with_attrs (insert k VNone) s).
Proof.
  intros Hm Hk. unfold _reload_simple, try_except_KeyError.
  rewrite run_bind, (run_getattr _ _ _ Hm), run_bind.
  unfold lift, getitem. simpl hashable. cbv iota. by rewrite Hk.
Qed.

Lemma simple_step_no_none kv s r s' k :
  simple_step kv s = (r, s') →
  attrs s' !! k = Some VNone → attrs s !! k = Some VNone.
Proof.
  destruct kv as [k0 v0]. unfold simple_step.
  case_bool_decide; [by intros [= _ <-]|].
  case_bool_decide as Hv; [by intros [= _ <-]|].
  destruct k0; simpl; try by intros [= _ <-].
  intros [= _ <-]. rewrite attrs_with_attrs, lookup_insert.
  case_decide; [congruence | done].
Qed.

Lemma for_each_no_none kvs : ∀ s r s' k,
  for_each kvs simple_step s = (r, s') →
  attrs s' !! k = Some VNone → attrs s !! k = Some VNone.
Proof.
  induction kvs as [|kv kvs IH]; intros s r s' k; simpl.
  - by intros [= _ <-].
  - rewrite run_bind. destruct (simple_step kv s) as [[e|[]] s1] eqn:Hstep.
    + intros [= _ <-]. by eapply simple_step_no_none.
    + intros Hrest Hk. eapply simple_step_no_none; [done|]. by eapply IH.
Qed.

(** X17: the full reload never assigns a null: an attribute that is
    [None] after [_reload_simple_all], returned or raised, was [None]
    before it. *)
Lemma reload_simple_all_no_none s r s' k :
  _reload_simple_all s = (r, s') →
  attrs s' !! k = Some VNone → attrs s !! k = Some VNone.
Proof.
  unfold _reload_simple_all. rewrite run_bind.
  destruct (getattr_ "_simple_attributes" s) as [[e|m] s1] eqn:Hg.
  - unfold getattr_ in Hg. destruct (attrs s !! _); simplify_eq. by intros [= _ <-].
  - assert (s1 = s) as ->.
    { unfold getattr_ in Hg. destruct (attrs s !! _); by simplify_eq. }
    rewrite run_bind. unfold lift. destruct (items m) as [e|kvs].
    + by intros [= _ <-].
    + apply for_each_no_none.
Qed.
End reload_one.

(** ** Building from an archive *)

Section build_facts.
Context `{PyRuntime}.

Lemma run_default_dest s s' dest d :
  resolve_dest s dest = Some d →
  attrs s' !! "name" = attrs s !! "name" →
  default_dest dest s' = (inr d, s').
Proof.
  unfold resolve_dest, default_dest. destruct dest as [d'|].
  - by intros [= ->] _.
  - intros Hd Hn. rewrite run_bind. unfold getattr_. rewrite Hn.
    destruct (attrs s !! "name") as [n|]; [|done]. by injection Hd as ->.
Qed.

Lemma extract_lookup_None tfiles : ∀ (fs : gmap string file) p,
  fs !! p = None → p ∉ tfiles.*1 →
  foldl (λ fs pc, <[pc.1 := pc.2]> fs) fs tfiles !! p = None.
Proof.
  induction tfiles as [|[q c] r IH]; intros fs p Hp Hin; simpl; [done|].
  simpl in Hin. apply not_elem_of_cons in Hin as [Hq Hr].
  apply IH; [|done]. by rewrite lookup_insert_ne.
Qed.

Lemma build_unfold s dest dest_tar reload d :
  resolve_dest s dest = Some d →
  let t := default_dest_tar d dest_tar in
  _build dest dest_tar reload s
  = (_extract_tarfile t;;
     _get_complex_attribute_definitions d;;
     _get_simple_attribute_definitions d;;
     if reload then _reload else mret tt) (build_start s d t).
Proof.
  intros Hd t. unfold _build.
  rewrite run_bind. simpl. rewrite run_bind. simpl. rewrite run_bind.
  erewrite (run_default_dest s _ dest d Hd); [reflexivity|].
  simpl. by rewrite !lookup_insert_ne.
Qed.

Lemma frame_insert s s' k v :
  k ∈ bookkeeping → frame s s' → frame s (with_attrs (insert k v) s').
Proof.
  intros Hk Hf k' Hk'. rewrite attrs_with_attrs, lookup_insert_ne; [by apply Hf|].
  by intros ->.
Qed.

Lemma frame_build_start s d t : frame s (build_start s d t).
Proof.
  intros k Hk. unfold build_start. rewrite attrs_with_attrs.
  unfold bookkeeping in Hk. rewrite !not_elem_of_cons in Hk.
  destruct Hk as (?&?&?&?&_). by rewrite !lookup_insert_ne.
Qed.

Lemma load_definitions_state p s r s' : load_definitions p s = (r, s') → s' = s.
Proof. unfold load_definitions. destruct (files s !! p); by intros [= _ <-]. Qed.

(** C3: when the directory, with what the archive adds to it, has no
    [complex_attributes.json] or no [simple_attributes.json], [_build]
    raises, and the host is left with no attribute restored: apart from
    the names [_build] itself assigns first, its attributes are what they
    were. *)
Theorem build_missing_manifest s dest dest_tar reload d :
  resolve_dest s dest = Some d →
  nowhere s (default_dest_tar d dest_tar) (os_path_join d "complex_attributes.json")
  ∨ nowhere s (default_dest_tar d dest_tar) (os_path_join d "simple_attributes.json") →
  ∃ e s', _build dest dest_tar reload s = (inl e, s') ∧ frame s s'.
Proof.
  intros Hd Hlack. rewrite (build_unfold _ _ _ _ _ Hd).
  set (t := default_dest_tar d dest_tar) in *.
  pose proof (frame_build_start s d t) as Hfr.
  set (s0 := build_start s d t) in *.
  assert (files s0 = files s) as Hfs by done.
  clearbody s0 t.
  rewrite run_bind. unfold _extract_tarfile.
  destruct (files s0 !! t) as [c|] eqn:Ht; [|by eauto].
  destruct c as [| | |tdirs tfiles| |]; try by eauto.
  unfold extractall.
  set (s1 := State _ _ _ _).
  assert (frame s s1) as Hfr1 by done.
  assert (∀ p, nowhere s t p → files s1 !! p = None) as Hnone.
  { intros p [Hp Hin]. simpl. rewrite Hfs. apply extract_lookup_None; [done|].
    eapply Hin. by rewrite <-Hfs. }
  clearbody s1. clear Ht.
  rewrite run_bind. unfold _get_complex_attribute_definitions. rewrite run_bind.
  destruct (load_definitions (os_path_join d "complex_attributes.json") s1)
    as [[e|v] s2] eqn:Hc.
  { apply load_definitions_state in Hc as ->. eauto. }
  pose proof (load_definitions_state _ _ _ _ Hc) as ->.
  destruct Hlack as [Hl|Hl].
  { unfold load_definitions in Hc. by rewrite (Hnone _ Hl) in Hc. }
  unfold set_attr at 1. rewrite run_bind.
  unfold _get_simple_attribute_definitions. rewrite run_bind.
  unfold load_definitions. simpl. rewrite (Hnone _ Hl).
  eexists _, _. split; [done|]. by apply frame_insert; [set_solver|].
Qed.
End build_facts.

(** ** Saving: the two loops over the attributes *)

Section save_loops.
Context `{PyRuntime}.
Implicit Types (a : gmap string pyval) (c : list (pyval * pyval)) (fs : gmap string file).

Lemma run_record_complex a c k entry fs ds w :
  record_complex k entry (State (<["_complex_attributes" := VDict c]> a) fs ds w)
  = (inr tt, State (<["_complex_attributes" := VDict (dict_set (VStr k) entry c)]> a) fs ds w).
Proof.
  unfold record_complex. rewrite run_bind. unfold getattr_. simpl.
  rewrite lookup_insert_eq. rewrite run_bind. simpl.
  unfold set_attr, with_attrs. simpl. by rewrite insert_insert_eq.
Qed.

Lemma numpy_loop d a c0 ds w ks : ∀ c fs,
  a !! "_complex_attributes" = Some (VDict c0) →
  (∀ k, k ∈ ks → is_Some (a !! k)) →
  for_each ks (λ k,
    v ← getattr_ k;
    match v with
    | VNdarray x =>
        let f := os_path_join d (k ++ ".cs") in
        write_file f (FNumpy x);; record_complex k (numpy_entry f)
    | _ => mret tt
    end) (State (<["_complex_attributes" := VDict c]> a) fs ds w)
  = (inr tt, State (<["_complex_attributes" := VDict (foldl (np_record d a) c ks)]> a)
                   (foldl (np_write d a) fs ks) ds w).
Proof.
  induction ks as [|k ks IH]; intros c fs Hc0 Hks; [done|].
  cbn [for_each foldl]. rewrite run_bind.
  assert (is_Some (a !! k)) as [v Hv] by (apply Hks; left).
  assert (∀ k', k' ∈ ks → is_Some (a !! k')) as Hks' by (intros ??; apply Hks; by right).
  unfold np_record at 2, np_write at 2.
  destruct (decide (k = "_complex_attributes")) as [->|Hne].
  - rewrite run_bind. unfold getattr_ at 1. cbn [attrs]. rewrite lookup_insert_eq, Hc0.
    by apply IH.
  - rewrite run_bind. unfold getattr_ at 1. cbn [attrs]. rewrite lookup_insert_ne, Hv by done.
    destruct v; try by apply IH.
    rewrite run_bind. unfold write_file at 1. cbn [attrs files dirs warnings].
    rewrite run_record_complex. by apply IH.
Qed.

Lemma pandas_loop d a c0 ds w ks : ∀ c fs,
  a !! "_complex_attributes" = Some (VDict c0) →
  (∀ k, k ∈ ks → is_Some (a !! k)) →
  for_each ks (λ k,
    v ← getattr_ k;
    match v with
    | VDataFrame x =>
        let f := os_path_join d (k ++ ".csv") in
        write_file f (FPandas x);; record_complex k (pandas_entry f)
    | _ => mret tt
    end) (State (<["_complex_attributes" := VDict c]> a) fs ds w)
  = (inr tt, State (<["_complex_attributes" := VDict (foldl (pd_record d a) c ks)]> a)
                   (foldl (pd_write d a) fs ks) ds w).
Proof.
  induction ks as [|k ks IH]; intros c fs Hc0 Hks; [done|].
  cbn [for_each foldl]. rewrite run_bind.
  assert (is_Some (a !! k)) as [v Hv] by (apply Hks; left).
  assert (∀ k', k' ∈ ks → is_Some (a !! k')) as Hks' by (intros ??; apply Hks; by right).
  unfold pd_record at 2, pd_write at 2.
  destruct (decide (k = "_complex_attributes")) as [->|Hne].
  - rewrite run_bind. unfold getattr_ at 1. cbn [attrs]. rewrite lookup_insert_eq, Hc0.
    by apply IH.
  - rewrite run_bind. unfold getattr_ at 1. cbn [attrs]. rewrite lookup_insert_ne, Hv by done.
    destruct v; try by apply IH.
    rewrite run_bind. unfold write_file at 1. cbn [attrs files dirs warnings].
    rewrite run_record_complex. by apply IH.
Qed.

Lemma keys_are_attributes a k : k ∈ (map_to_list a).*1 → is_Some (a !! k).
Proof.
  intros [[k' v] [-> Hin]]%list_elem_of_fmap. apply elem_of_map_to_list in Hin. eauto.
Qed.

Lemma run_save_numpy d a c fs ds w :
  a !! "_complex_attributes" = Some (VDict c) →
  _save_numpy_attributes d (State a fs ds w)
  = (inr tt, State (<["_complex_attributes" := VDict (foldl (np_record d a) c (map_to_list a).*1)]> a)
                   (foldl (np_write d a) fs (map_to_list a).*1) ds w).
Proof.
  intros Hc. unfold _save_numpy_attributes.
  rewrite run_bind. cbn [_get_attributes]. rewrite run_bind. cbn [_get_attributes attrs].
  rewrite <-(insert_id a _ _ Hc) at 2.
  by apply (numpy_loop d a c), keys_are_attributes.
Qed.

Lemma run_save_pandas d a c fs ds w :
  a !! "_complex_attributes" = Some (VDict c) →
  _save_pandas_attributes d (State a fs ds w)
  = (inr tt, State (<["_complex_attributes" := VDict (foldl (pd_record d a) c (map_to_list a).*1)]> a)
                   (foldl (pd_write d a) fs (map_to_list a).*1) ds w).
Proof.
  intros Hc. unfold _save_pandas_attributes.
  rewrite run_bind. cbn [_get_attributes attrs].
  rewrite <-(insert_id a _ _ Hc) at 2.
  by apply (pandas_loop d a c), keys_are_attributes.
Qed.
End save_loops.

(** ** JSON round trip *)

Lemma dict_set_fresh {K V} `{EqDecision K} (k : K) (v : V) (d : list (K * V)) :
  k ∉ d.*1 → dict_set k v d = (d ++ [(k, v)])%list.
Proof.
  induction d as [|[k' v'] r IH]; simpl; [done|].
  rewrite not_elem_of_cons. intros [Hne Hr].
  rewrite decide_False by done. by rewrite IH.
Qed.


Lemma json_items_round_trip l :
  Forall (λ v, json_plain v = true →
               ∃ j, (∀ hd, json_dump hd v = inr j) ∧ json_load j = v) l →
  forallb json_plain l = true →
  ∃ js, (∀ hd, json_dump_items hd l = inr js) ∧ map json_load js = l.
Proof.
  induction 1 as [|v l Hv _ IH]; simpl.
  - intros _. by exists [].
  - intros [Hp Hl]%andb_prop. destruct (Hv Hp) as (j & Hj & Hload).
    destruct (IH Hl) as (js & Hjs & Hloads).
    exists (j :: js). split; [|simpl; congruence].
    intros hd. by rewrite Hj, Hjs.
Qed.

Lemma json_members_round_trip d :
  Forall (λ kv : pyval * pyval,
            (json_plain kv.1 = true →
             ∃ j, (∀ hd, json_dump hd kv.1 = inr j) ∧ json_load j = kv.1) ∧
            (json_plain kv.2 = true →
             ∃ j, (∀ hd, json_dump hd kv.2 = inr j) ∧ json_load j = kv.2)) d →
  forallb (λ kv : pyval * pyval, is_str kv.1 && json_plain kv.2) d = true →
  NoDup d.*1 →
  ∃ ms, (∀ hd, json_dump_members hd d = inr ms) ∧
        ∀ acc, (∀ k, k ∈ d.*1 → k ∉ acc.*1) → json_load_members ms acc = (acc ++ d)%list.
Proof.
  induction 1 as [|[k v] d [_ Hv] _ IH]; simpl.
  - intros _ _. exists []. split; [done|]. intros acc _. by rewrite app_nil_r.
  - intros [[Hk Hp]%andb_prop Hd]%andb_prop [Hnk Hnd]%NoDup_cons.
    destruct (Hv Hp) as (j & Hj & Hload).
    destruct (IH Hd Hnd) as (ms & Hms & Hloads).
    destruct k as [| | | |sk| | | | | |]; try done.
    exists ((sk, j) :: ms). split.
    + intros hd. simpl. by rewrite Hj, Hms.
    + intros acc Hacc. simpl. rewrite Hload.
      rewrite dict_set_fresh by (apply Hacc; left).
      rewrite Hloads; [by rewrite <-app_assoc|].
      intros k' Hk'. rewrite fmap_app, elem_of_app. simpl. rewrite list_elem_of_singleton.
      intros [Hin| ->]; [|done]. revert Hin. apply Hacc. by right.
Qed.

(** A plain value is encoded, with or without a [default], and read back
    as itself. *)
Lemma json_round_trip v :
  json_plain v = true →
  ∃ j, (∀ hd, json_dump hd v = inr j) ∧ json_load j = v.
Proof.
  induction v as [| | | | |l IH|l IH|d IH| | |] using pyval_nested_ind;
    simpl json_plain; try done.
  - intros _. by exists JNull.
  - intros _. by exists (JBool b).
  - intros _. by exists (JInt z).
  - intros _. by exists (JFloat f).
  - intros _. by exists (JStr s).
  - intros Hl. destruct (json_items_round_trip l IH Hl) as (js & Hjs & Hloads).
    exists (JArr js). split.
    + intros hd. by rewrite json_dump_list, Hjs.
    + simpl. by rewrite Hloads.
  - intros [Hd Hnd%bool_decide_eq_true]%andb_prop.
    destruct (json_members_round_trip d IH Hd Hnd) as (ms & Hms & Hloads).
    exists (JObj ms). split.
    + intros hd. by rewrite json_dump_dict, Hms.
    + rewrite json_load_obj, Hloads; [done|]. intros k _. apply not_elem_of_nil.
Qed.

(** ** The complex manifest [_save] builds *)

Section dict_set_facts.
Context {K V : Type} `{EqDecision K}.
Implicit Types (k : K) (v : V) (d : list (K * V)).

Lemma dict_set_keys k v d :
  (dict_set k v d).*1 = if decide (k ∈ d.*1) then d.*1 else (d.*1 ++ [k])%list.
Proof.
  induction d as [|[k' v'] r IH]; cbn [dict_set fmap list_fmap fst].
  - case_decide as Hin; [by apply elem_of_nil in Hin|done].
  - destruct (decide (k' = k)) as [->|Hne]; cbn [fmap list_fmap fst].
    + rewrite decide_True; [done|left].
    + rewrite IH. destruct (decide (k ∈ r.*1)) as [Hin|Hnin].
      * rewrite decide_True; [done|by right].
      * rewrite decide_False; [done|]. rewrite not_elem_of_cons. by split.
Qed.

Lemma dict_set_NoDup k v d : NoDup d.*1 → NoDup (dict_set k v d).*1.
Proof.
  intros Hd. rewrite dict_set_keys. case_decide; [done|].
  apply NoDup_app. split_and!; [done| |apply NoDup_singleton].
  intros x Hx ->%list_elem_of_singleton. done.
Qed.

Lemma dict_set_Forall (P : K * V → Prop) k v d :
  Forall P d → P (k, v) → Forall P (dict_set k v d).
Proof.
  intros Hd Hkv. induction Hd as [|[k' v'] r Hx Hr IH]; simpl.
  - by constructor.
  - case_decide; constructor; done.
Qed.
End dict_set_facts.

Lemma manifest_wf_nil : manifest_wf [].
Proof. split; [constructor | simpl; constructor]. Qed.

Lemma manifest_wf_set c k f e :
  e = numpy_entry f ∨ e = pandas_entry f →
  manifest_wf c → manifest_wf (dict_set (VStr k) e c).
Proof.
  intros He [Hc Hnd]. split; [|by apply dict_set_NoDup].
  apply dict_set_Forall; [done|]. by exists k, f.
Qed.

Lemma manifest_wf_np d a ks : ∀ c, manifest_wf c → manifest_wf (foldl (np_record d a) c ks).
Proof.
  induction ks as [|k ks IH]; intros c Hc; simpl; [done|].
  apply IH. unfold np_record. destruct (a !! k) as [[]|]; try done.
  eapply manifest_wf_set; [|done]. by left.
Qed.

Lemma manifest_wf_pd d a ks : ∀ c, manifest_wf c → manifest_wf (foldl (pd_record d a) c ks).
Proof.
  induction ks as [|k ks IH]; intros c Hc; simpl; [done|].
  apply IH. unfold pd_record. destruct (a !! k) as [[]|]; try done.
  eapply manifest_wf_set; [|done]. by right.
Qed.

Lemma manifest_wf_complex d a : manifest_wf (complex_manifest d a).
Proof. apply manifest_wf_pd, manifest_wf_np, manifest_wf_nil. Qed.

Lemma manifest_wf_plain c : manifest_wf c → json_plain (VDict c) = true.
Proof.
  intros [Hc Hnd]. simpl. apply andb_true_intro. split; [|by apply bool_decide_eq_true].
  apply forallb_forall. intros [k e] Hin%list_elem_of_In.
  rewrite Forall_forall in Hc. destruct (Hc _ Hin) as (sk & f & Hk & He).
  simpl in *. subst k. by destruct He as [-> | ->].
Qed.

Lemma foldl_record_get (sel : string → option pyval) k ks : ∀ c,
  dict_get (VStr k)
    (foldl (λ c k, match sel k with Some e => dict_set (VStr k) e c | None => c end) c ks)
  = match sel k with
    | Some e => if decide (k ∈ ks) then Some e else dict_get (VStr k) c
    | None => dict_get (VStr k) c
    end.
Proof.
  induction ks as [|k' ks IH]; intros c; cbn [foldl].
  - destruct (sel k); [|done]. case_decide as Hin; [by apply elem_of_nil in Hin|done].
  - rewrite IH. destruct (decide (k' = k)) as [->|Hne].
    + destruct (sel k) as [e|]; [|done]. rewrite dict_get_set_eq.
      rewrite (decide_True (P := k ∈ k :: ks)) by left. by case_decide.
    + assert (dict_get (VStr k)
                match sel k' with Some e => dict_set (VStr k') e c | None => c end
              = dict_get (VStr k) c) as ->.
      { destruct (sel k'); [|done]. rewrite dict_get_set_ne; [done|congruence]. }
      destruct (sel k) as [e|]; [|done].
      destruct (decide (k ∈ ks)) as [Hin|Hnin].
      * rewrite decide_True; [done|by right].
      * rewrite decide_False; [done|]. rewrite not_elem_of_cons. by split.
Qed.

Lemma foldl_pointwise {A B} (f g : A → B → A) l : ∀ x,
  (∀ x y, f x y = g x y) → foldl f x l = foldl g x l.
Proof.
  induction l as [|y l IH]; intros x Hfg; simpl; [done|]. rewrite Hfg. by apply IH.
Qed.

Lemma np_record_get d a k ks c :
  dict_get (VStr k) (foldl (np_record d a) c ks)
  = match a !! k with
    | Some (VNdarray _) =>
        if decide (k ∈ ks) then Some (numpy_entry (os_path_join d (k ++ ".cs")))
        else dict_get (VStr k) c
    | _ => dict_get (VStr k) c
    end.
Proof.
  rewrite (foldl_pointwise _ (λ c k,
    match (match a !! k with
           | Some (VNdarray _) => Some (numpy_entry (os_path_join d (k ++ ".cs")))
           | _ => None
           end) with
    | Some e => dict_set (VStr k) e c
    | None => c
    end)).
  - rewrite foldl_record_get. by destruct (a !! k) as [[]|].
  - intros c' k'. unfold np_record. by destruct (a !! k') as [[]|].
Qed.

Lemma pd_record_get d a k ks c :
  dict_get (VStr k) (foldl (pd_record d a) c ks)
  = match a !! k with
    | Some (VDataFrame _) =>
        if decide (k ∈ ks) then Some (pandas_entry (os_path_join d (k ++ ".csv")))
        else dict_get (VStr k) c
    | _ => dict_get (VStr k) c
    end.
Proof.
  rewrite (foldl_pointwise _ (λ c k,
    match (match a !! k with
           | Some (VDataFrame _) => Some (pandas_entry (os_path_join d (k ++ ".csv")))
           | _ => None
           end) with
    | Some e => dict_set (VStr k) e c
    | None => c
    end)).
  - rewrite foldl_record_get. by destruct (a !! k) as [[]|].
  - intros c' k'. unfold pd_record. by destruct (a !! k') as [[]|].
Qed.

Lemma elem_of_keys (a : gmap string pyval) k v :
  a !! k = Some v → k ∈ (map_to_list a).*1.
Proof.
  intros Hk. apply list_elem_of_fmap. exists (k, v). split; [done|].
  by apply elem_of_map_to_list.
Qed.

(** The manifest has an entry for exactly the attributes that are an
    ndarray or a DataFrame when [_save] runs, under their own names. *)
Lemma complex_manifest_get d a k :
  dict_get (VStr k) (complex_manifest d a) = reset_manifests a !! k ≫= entry_of d k.
Proof.
  unfold complex_manifest.
  set (a0 := reset_manifests a).
  set (c1 := foldl (np_record d a0) [] (map_to_list a0).*1).
  set (a1 := <["_complex_attributes" := VDict c1]> a0).
  assert (dict_get (VStr k) c1
          = match a0 !! k with
            | Some (VNdarray _) => Some (numpy_entry (os_path_join d (k ++ ".cs")))
            | _ => None
            end) as Hc1.
  { unfold c1. rewrite np_record_get. destruct (a0 !! k) as [v|] eqn:Hk; [|done].
    destruct v; try done. rewrite decide_True; [done|by eapply elem_of_keys]. }
  rewrite pd_record_get.
  destruct (decide (k = "_complex_attributes")) as [->|Hne].
  - unfold a1. rewrite lookup_insert_eq, Hc1. unfold a0, reset_manifests.
    rewrite lookup_insert_ne by done. by rewrite lookup_insert_eq.
  - unfold a1 at 1. rewrite lookup_insert_ne by done.
    destruct (a0 !! k) as [v|] eqn:Hk; simpl; rewrite Hc1; [|done].
    destruct v; try done. rewrite decide_True; [done|].
    eapply elem_of_keys. unfold a1. by rewrite lookup_insert_ne.
Qed.

Lemma complex_manifest_keys d a q :
  q ∈ (complex_manifest d a).*1 → ∃ k, q = VStr k.
Proof.
  destruct (manifest_wf_complex d a) as [Hc _]. rewrite Forall_forall in Hc.
  intros [[q' e] [-> Hin]]%list_elem_of_fmap.
  destruct (Hc _ Hin) as (k & _ & Hk & _). by exists k.
Qed.

(** ** Saving: the whole method *)

Section save_facts.
Context `{PyRuntime}.

Lemma save_unfold s dest dest_tar d :
  resolve_dest s dest = Some d →
  _save dest dest_tar s
  = (_save_complex_attributes d;;
     _save_simple_attributes d;;
     _save_as_tar_gz d (default_dest_tar d dest_tar))
      (State (saved_attrs d (attrs s)) (encoded_files d (attrs s) (files s))
             (save_dirs d (dirs s)) (warnings s)).
Proof.
  intros Hd. unfold _save. rewrite run_bind.
  rewrite (run_default_dest s s dest d Hd eq_refl).
  rewrite run_bind. cbn [set_attr]. rewrite run_bind. cbn [set_attr].
  rewrite run_bind.
  assert (_make_dest_directory d
            (with_attrs (insert "_simple_attributes" (VDict []))
               (with_attrs (insert "_complex_attributes" (VDict [])) s))
          = (inr tt, State (reset_manifests (attrs s)) (files s)
                           (save_dirs d (dirs s)) (warnings s))) as ->.
  { unfold _make_dest_directory, save_dirs. cbn [dirs with_attrs].
    destruct s as [a fs ds w]. cbn. by case_bool_decide. }
  rewrite run_bind.
  rewrite (run_save_numpy d _ []).
  2:{ unfold reset_manifests. rewrite lookup_insert_ne by done. by rewrite lookup_insert_eq. }
  rewrite run_bind. erewrite run_save_pandas by apply lookup_insert_eq.
  unfold saved_attrs, complex_manifest, encoded_files. cbv zeta.
  by rewrite insert_insert_eq.
Qed.

Lemma saved_attrs_complex d a :
  saved_attrs d a !! "_complex_attributes" = Some (VDict (complex_manifest d a)).
Proof. unfold saved_attrs. apply lookup_insert_eq. Qed.

Lemma saved_attrs_simple d a :
  saved_attrs d a !! "_simple_attributes" = Some (VDict []).
Proof.
  unfold saved_attrs, reset_manifests.
  rewrite lookup_insert_ne by done. apply lookup_insert_eq.
Qed.

Lemma saved_attrs_other d a k :
  k ≠ "_complex_attributes" → k ≠ "_simple_attributes" →
  saved_attrs d a !! k = a !! k.
Proof.
  intros ??. unfold saved_attrs, reset_manifests. by rewrite !lookup_insert_ne.
Qed.

(** The complex manifest is always encoded, and read back as it is. *)
Lemma complex_manifest_document d a :
  ∃ jc, (∀ hd, json_dump hd (VDict (complex_manifest d a)) = inr jc)
        ∧ json_load jc = VDict (complex_manifest d a).
Proof. apply json_round_trip, manifest_wf_plain, manifest_wf_complex. Qed.

(** [_save] returns exactly when the simple manifest is encoded, and
    then leaves this state. *)
Lemma run_save s dest dest_tar d jc :
  resolve_dest s dest = Some d →
  json_dump false (VDict (complex_manifest d (attrs s))) = inr jc →
  let t := default_dest_tar d dest_tar in
  let a' := saved_attrs d (attrs s) in
  let fs' := encoded_files d (attrs s) (files s) in
  _save dest dest_tar s
  = match json_dump true (attrs_dict a') with
    | inr js =>
        (inr tt,
         State a'
           (<[t := archive_of d t (save_dirs d (dirs s)) (manifests_written d jc js fs')]>
              (<[t := FTruncated]> (manifests_written d jc js fs')))
           (save_dirs d (dirs s)) (warnings s))
    | inl e =>
        (inl e,
         State a'
           (<[os_path_join d "simple_attributes.json" := FTruncated]>
              (<[os_path_join d "complex_attributes.json" := FJson jc]> fs'))
           (save_dirs d (dirs s)) (warnings s))
    end.
Proof.
  intros Hd Hjc t a' fs'. rewrite (save_unfold _ _ _ _ Hd). fold t a' fs'.
  rewrite run_bind. unfold _save_complex_attributes.
  rewrite run_bind. cbn [write_file]. rewrite run_bind.
  unfold getattr_ at 1. cbn [attrs]. unfold a' at 1. rewrite saved_attrs_complex.
  unfold dump_to at 1. rewrite Hjc. cbn [write_file attrs files dirs warnings].
  rewrite insert_insert_eq.
  rewrite run_bind. unfold _save_simple_attributes. rewrite run_bind.
  unfold self_dict. cbn [attrs]. unfold dump_to.
  destruct (json_dump true (attrs_dict a')) as [e|js]; [done|].
  cbn [write_file attrs files dirs warnings].
  unfold _save_as_tar_gz. rewrite run_bind. cbn [write_file]. rewrite run_bind.
  cbn [attrs files dirs warnings].
  rewrite bool_decide_eq_true_2; [done|].
  unfold save_dirs. case_bool_decide; [done|set_solver].
Qed.

Lemma save_resolves s dest dest_tar s' :
  _save dest dest_tar s = (inr tt, s') → ∃ d, resolve_dest s dest = Some d.
Proof.
  destruct (resolve_dest s dest) as [d|] eqn:Hd; [by eauto|].
  unfold resolve_dest in Hd. destruct dest as [d|]; [done|].
  unfold _save. rewrite run_bind. unfold default_dest. rewrite run_bind.
  unfold getattr_. destruct (attrs s !! "name"); done.
Qed.
End save_facts.

(** ** The simple manifest as a document *)

Lemma json_load_members_get ms : ∀ acc k,
  NoDup ms.*1 →
  dict_get (VStr k) (json_load_members ms acc)
  = match dict_get k ms with
    | Some j => Some (json_load j)
    | None => dict_get (VStr k) acc
    end.
Proof.
  induction ms as [|[s x] r IH]; intros acc k; [done|].
  cbn [json_load_members fmap list_fmap fst dict_get].
  intros [Hs Hr]%NoDup_cons. rewrite IH by done.
  destruct (decide (s = k)) as [->|Hne].
  - apply dict_get_None in Hs. by rewrite Hs, dict_get_set_eq.
  - destruct (dict_get k r); [done|]. rewrite dict_get_set_ne; [done|congruence].
Qed.

Lemma json_load_members_keys ms : ∀ acc q,
  q ∈ (json_load_members ms acc).*1 → q ∈ acc.*1 ∨ ∃ k, q = VStr k ∧ k ∈ ms.*1.
Proof.
  induction ms as [|[s x] r IH]; intros acc q; [by left|].
  cbn [json_load_members fmap list_fmap fst].
  intros [Hin|(k & -> & Hk)]%IH.
  - rewrite dict_set_keys in Hin. case_decide; [by left|].
    apply elem_of_app in Hin as [?| ->%list_elem_of_singleton]; [by left|].
    right. exists s. split; [done|left].
  - right. exists k. split; [done|by right].
Qed.

Lemma json_dump_members_attrs hd (l : list (string * pyval)) ms :
  json_dump_members hd ((λ kv : string * pyval, (VStr kv.1, kv.2)) <$> l) = inr ms →
  ms.*1 = l.*1 ∧
  ∀ k v, (k, v) ∈ l → ∃ j, json_dump hd v = inr j ∧ (k, j) ∈ ms.
Proof.
  revert ms. induction l as [|[k v] l IH]; intros ms.
  - intros [= <-]. split; [done|]. by intros ?? ?%elem_of_nil.
  - rewrite fmap_cons. cbn [json_dump_members json_key fst snd rbind].
    destruct (json_dump hd v) as [e|j] eqn:Hj; cbn [rbind]; [done|].
    destruct (json_dump_members hd _) as [e|ms'] eqn:Hms; cbn [rbind]; [done|].
    intros [= <-]. destruct (IH ms' eq_refl) as [Hkeys Hall]. split.
    + change (k :: ms'.*1 = k :: l.*1). by f_equal.
    + intros k' v' [[= -> ->]|Hin]%elem_of_cons.
      * exists j. split; [done|left].
      * destruct (Hall _ _ Hin) as (j' & ? & ?). exists j'. split; [done|by right].
Qed.


(** What [json.load] reads from the document of the attribute map [a]:
    under each attribute name, what the encoding of its value reads back
    as, and nothing under any other name. *)
Lemma simple_document_load (a : gmap string pyval) js :
  json_dump true (attrs_dict a) = inr js →
  ∃ ms dl, js = JObj ms ∧ json_load js = VDict dl ∧
    (∀ k v, a !! k = Some v →
       ∃ j, json_dump true v = inr j ∧ dict_get k ms = Some j
            ∧ dict_get (VStr k) dl = Some (json_load j)) ∧
    (∀ q, q ∈ dl.*1 → ∃ k, q = VStr k ∧ is_Some (a !! k)).
Proof.
  unfold attrs_dict. rewrite json_dump_dict.
  destruct (json_dump_members true _) as [e|ms] eqn:Hms; simpl; [done|].
  intros [= <-]. apply json_dump_members_attrs in Hms as [Hkeys Hall].
  assert (NoDup ms.*1) as Hnd by (rewrite Hkeys; apply NoDup_fst_map_to_list).
  exists ms, (json_load_members ms []). split_and!; [done|done| |].
  - intros k v Hk. destruct (Hall k v) as (j & Hj & Hin); [by apply elem_of_map_to_list|].
    exists j. split_and!; [done|by apply dict_get_NoDup|].
    rewrite json_load_members_get by done. by rewrite (dict_get_NoDup k j ms).
  - intros q [Hq|(k & -> & Hk)]%json_load_members_keys; [by apply elem_of_nil in Hq|].
    exists k. split; [done|]. rewrite Hkeys in Hk. by apply keys_are_attributes.
Qed.

(** ** Paths *)

Lemma string_app_inj (a x y : string) : a ++ x = a ++ y → x = y.
Proof. induction a as [|c a IH]; simpl; [done|]. intros [=]. by apply IH. Qed.

Lemma os_path_join_inj d b1 b2 :
  startswith_sep b1 = false → startswith_sep b2 = false →
  os_path_join d b1 = os_path_join d b2 → b1 = b2.
Proof.
  unfold os_path_join. intros -> ->.
  destruct (bool_decide (d = "") || endswith_sep d).
  - apply string_app_inj.
  - intros Heq%string_app_inj. by injection Heq.
Qed.

Lemma manifest_paths_differ d :
  os_path_join d "complex_attributes.json" ≠ os_path_join d "simple_attributes.json".
Proof. by intros ?%os_path_join_inj. Qed.

(** The default archive name is the name of neither manifest. *)
Lemma default_tar_not_manifest d b :
  b = "complex_attributes.json" ∨ b = "simple_attributes.json" →
  default_dest_tar d None ≠ os_path_join d b.
Proof.
  unfold default_dest_tar, os_path_join.
  intros [-> | ->]; simpl; destruct (bool_decide (d = "") || endswith_sep d);
    by intros ?%string_app_inj.
Qed.

(** ** Classification at save time *)

Section classification.
Context `{PyRuntime}.

Lemma entry_of_complex d k v : is_Some (entry_of d k v) ↔ is_complex v = true.
Proof. destruct v; simpl; split; by (intros [??] || eauto). Qed.

Lemma json_dump_complex v : is_complex v = true → json_dump true v = inr JNull.
Proof. by destruct v. Qed.

Lemma saved_attrs_entry d a k :
  saved_attrs d a !! k ≫= entry_of d k = reset_manifests a !! k ≫= entry_of d k.
Proof.
  unfold saved_attrs. destruct (decide (k = "_complex_attributes")) as [->|Hne].
  - rewrite lookup_insert_eq. unfold reset_manifests.
    rewrite lookup_insert_ne by done. by rewrite lookup_insert_eq.
  - by rewrite lookup_insert_ne.
Qed.

(** The files [_save] leaves at the two manifest paths. *)
Lemma save_manifest_files s dest dest_tar s' d :
  resolve_dest s dest = Some d →
  default_dest_tar d dest_tar ≠ os_path_join d "complex_attributes.json" →
  default_dest_tar d dest_tar ≠ os_path_join d "simple_attributes.json" →
  _save dest dest_tar s = (inr tt, s') →
  ∃ jc js,
    attrs s' = saved_attrs d (attrs s) ∧
    json_dump false (VDict (complex_manifest d (attrs s))) = inr jc ∧
    json_load jc = VDict (complex_manifest d (attrs s)) ∧
    json_dump true (attrs_dict (saved_attrs d (attrs s))) = inr js ∧
    files s' !! os_path_join d "complex_attributes.json" = Some (FJson jc) ∧
    files s' !! os_path_join d "simple_attributes.json" = Some (FJson js).
Proof.
  intros Hd Htc Hts. destruct (complex_manifest_document d (attrs s)) as (jc & Hjc & Hload).
  rewrite (run_save _ _ _ _ jc Hd (Hjc false)). cbv zeta.
  destruct (json_dump true _) as [e|js] eqn:Hjs; [done|].
  intros [= <-]. exists jc, js. cbn [attrs files]. split_and!; try done.
  - rewrite !lookup_insert_ne by done. unfold manifests_written.
    rewrite lookup_insert_ne by (apply not_eq_sym, manifest_paths_differ).
    apply lookup_insert_eq.
  - rewrite !lookup_insert_ne by done. apply lookup_insert_eq.
Qed.

(** C7: after a [_save] that returns, every attribute of the host is
    classified in exactly one way: it is an ndarray or a DataFrame and
    the complex manifest has its entry while the simple manifest holds a
    null under its name, or it is neither and only the simple manifest
    has it.  So no name has an entry in the complex manifest and a value
    other than null in the simple manifest. *)
Theorem save_classifies_once s dest dest_tar s' d :
  resolve_dest s dest = Some d →
  default_dest_tar d dest_tar ≠ os_path_join d "complex_attributes.json" →
  default_dest_tar d dest_tar ≠ os_path_join d "simple_attributes.json" →
  _save dest dest_tar s = (inr tt, s') →
  ∃ jc js c m,
    files s' !! os_path_join d "complex_attributes.json" = Some (FJson jc) ∧
    files s' !! os_path_join d "simple_attributes.json" = Some (FJson js) ∧
    json_load jc = VDict c ∧ json_load js = VDict m ∧
    (∀ k v, attrs s' !! k = Some v →
       (is_complex v = true ∧ dict_get (VStr k) c = entry_of d k v
        ∧ dict_get (VStr k) m = Some VNone)
       ∨ (is_complex v = false ∧ dict_get (VStr k) c = None
          ∧ ∃ j, json_dump true v = inr j ∧ dict_get (VStr k) m = Some (json_load j))) ∧
    (∀ q, is_Some (dict_get q c) → dict_get q m = Some VNone).
Proof.
  intros Hd Htc Hts Hsave.
  destruct (save_manifest_files _ _ _ _ _ Hd Htc Hts Hsave)
    as (jc & js & Ha & Hjc & Hloadc & Hjs & Hfc & Hfs).
  destruct (simple_document_load _ _ Hjs) as (ms & m & -> & Hloads & Hm & _).
  exists jc, (JObj ms), (complex_manifest d (attrs s)), m.
  assert (∀ k v, attrs s' !! k = Some v →
            dict_get (VStr k) (complex_manifest d (attrs s)) = entry_of d k v) as Hentry.
  { intros k v Hk. rewrite complex_manifest_get, <-saved_attrs_entry, <-Ha. by rewrite Hk. }
  split_and!; try done.
  - intros k v Hk. specialize (Hentry k v Hk). rewrite Ha in Hk.
    destruct (Hm k v Hk) as (j & Hj & _ & Hget).
    destruct (is_complex v) eqn:Hv.
    + left. split_and!; [done|done|]. rewrite json_dump_complex in Hj by done.
      by injection Hj as <-.
    + right. split_and!; [done| |by eauto].
      rewrite Hentry. destruct (entry_of d k v) eqn:He; [|done].
      assert (is_complex v = true) by (apply (entry_of_complex d k); eauto). congruence.
  - intros q [e Hq]. assert (q ∈ (complex_manifest d (attrs s)).*1) as Hin.
    { apply dict_get_Some_elem in Hq. apply list_elem_of_fmap. by exists (q, e). }
    apply complex_manifest_keys in Hin as [k ->].
    rewrite complex_manifest_get, <-saved_attrs_entry in Hq.
    destruct (saved_attrs d (attrs s) !! k) as [v|] eqn:Hk; [|done]. simpl in Hq.
    destruct (Hm k v Hk) as (j & Hj & _ & Hget).
    rewrite json_dump_complex in Hj by (apply (entry_of_complex d k); eauto).
    by injection Hj as <-.
Qed.
End classification.

(** ** Encoding the simple manifest *)






(** The encoder does raise for the whole document when a dict among the
    values has a key that is not a str, int, float, bool or None: the
    [default] is not asked about keys. *)
Lemma simple_manifest_raises_on_tuple_key :
  let s := host [("a", VDict [(VTuple [VInt 1; VInt 2], VInt 3)])] in
  (_save_simple_attributes "d" s).1 = inl TypeError.
Proof. reflexivity. Qed.

(** ** Effects on the attributes, method by method *)

Section keeps.
Context (R : relation (gmap string pyval)) `{!Reflexive R, !Transitive R}.

Lemma keeps_pure {A} (m : M A) : (∀ s, attrs (m s).2 = attrs s) → keeps R m.
Proof. intros Hm s. by rewrite Hm. Qed.

Lemma keeps_ret {A} (x : A) : keeps R (mret x).
Proof. by apply keeps_pure. Qed.

Lemma keeps_raise {A} e : keeps R (raise e : M A).
Proof. by apply keeps_pure. Qed.

Lemma keeps_lift {A} (r : result A) : keeps R (lift r).
Proof. by apply keeps_pure. Qed.

Lemma keeps_getattr k : keeps R (getattr_ k).
Proof. apply keeps_pure. intros s. unfold getattr_. by destruct (attrs s !! k). Qed.

Lemma keeps_warn msg : keeps R (warn msg).
Proof. by apply keeps_pure. Qed.

Lemma keeps_write_file f c : keeps R (write_file f c).
Proof. by apply keeps_pure. Qed.

Lemma keeps_bind {A B} (m : M A) (f : A → M B) :
  keeps R m → (∀ x, keeps R (f x)) → keeps R (m ≫= f).
Proof.
  intros Hm Hf s. rewrite run_bind. specialize (Hm s).
  destruct (m s) as [[e|x] s1]; [done|]. simpl in Hm.
  etrans; [exact Hm|apply Hf].
Qed.

Lemma keeps_try {A} (m h : M A) : keeps R m → keeps R h → keeps R (try_except_KeyError m h).
Proof.
  intros Hm Hh s. unfold try_except_KeyError. specialize (Hm s).
  destruct (m s) as [[e|x] s1]; [|done]. simpl in Hm.
  destruct e; try done. etrans; [exact Hm|apply Hh].
Qed.

Lemma keeps_for_each {A} (l : list A) (body : A → M unit) :
  (∀ x, keeps R (body x)) → keeps R (for_each l body).
Proof.
  intros Hb. induction l as [|x l IH]; simpl; [apply keeps_ret|].
  apply keeps_bind; [apply Hb|done].
Qed.
End keeps.

#[global] Instance grows_refl : Reflexive grows.
Proof. by intros a k. Qed.
#[global] Instance grows_trans : Transitive grows.
Proof. intros a b c Hab Hbc k Hk. by apply Hbc, Hab. Qed.
#[global] Instance only_assigns_refl names : Reflexive (only_assigns names).
Proof. by intros a k. Qed.
#[global] Instance only_assigns_trans names : Transitive (only_assigns names).
Proof. intros a b c Hab Hbc k Hk. by rewrite Hbc, Hab. Qed.

Lemma grows_set_attr k v : keeps grows (set_attr k v).
Proof.
  intros s k' Hk'. simpl. rewrite lookup_insert. by case_decide.
Qed.

Lemma grows_setattr k v : keeps grows (setattr_ k v).
Proof. destruct k; try apply (keeps_raise _); apply grows_set_attr. Qed.

Lemma only_assigns_set_attr names k v : k ∈ names → keeps (only_assigns names) (set_attr k v).
Proof. intros Hk s k' Hk'. simpl. rewrite lookup_insert_ne; [done|]. by intros ->. Qed.

Section reload_grows.
Context `{PyRuntime}.

Lemma grows_reload_complex k : keeps grows (_reload_complex k).
Proof.
  unfold _reload_complex.
  apply (keeps_bind _); [apply (keeps_getattr _)|intros m].
  do 4 (apply (keeps_bind _); [apply (keeps_lift _)|intros ?]).
  apply (keeps_try _); [|apply (keeps_warn _)].
  apply (keeps_bind _); [apply (keeps_lift _)|intros func].
  apply (keeps_bind _); [by apply (keeps_pure _)|intros y]. apply grows_setattr.
Qed.

Lemma grows_reload : keeps grows _reload.
Proof.
  unfold _reload. apply (keeps_bind _); [|intros _].
  - unfold _reload_simple_all.
    apply (keeps_bind _); [apply (keeps_getattr _)|intros m].
    apply (keeps_bind _); [apply (keeps_lift _)|intros kvs].
    apply (keeps_for_each _). intros [k v]. unfold simple_step.
    repeat case_bool_decide; try apply (keeps_ret _). apply grows_setattr.
  - unfold _reload_complex_all.
    apply (keeps_bind _); [apply (keeps_getattr _)|intros m].
    apply (keeps_bind _); [apply (keeps_lift _)|intros ks].
    apply (keeps_for_each _), grows_reload_complex.
Qed.

Lemma keeps_extract R `{!Reflexive R} t : keeps R (_extract_tarfile t).
Proof.
  apply (keeps_pure _). intros s. unfold _extract_tarfile.
  destruct (files s !! t) as [[]|]; done.
Qed.

Lemma keeps_load_definitions R `{!Reflexive R} p : keeps R (load_definitions p).
Proof.
  apply (keeps_pure _). intros s. unfold load_definitions. by destruct (files s !! p).
Qed.

(** Unpacking and loading the manifests assign the two manifests only. *)
Lemma build_loads_keep R `{!Reflexive R, !Transitive R} t d (rest : M unit) :
  (∀ v, keeps R (set_attr "_complex_attributes" v)) →
  (∀ v, keeps R (set_attr "_simple_attributes" v)) →
  keeps R rest →
  keeps R (_extract_tarfile t;;
           _get_complex_attribute_definitions d;;
           _get_simple_attribute_definitions d;;
           rest).
Proof.
  intros Hc Hs Hrest.
  apply (keeps_bind _); [apply (keeps_extract _)|intros _].
  apply (keeps_bind _); [|intros _].
  - apply (keeps_bind _); [apply (keeps_load_definitions _)|done].
  - apply (keeps_bind _); [|done].
    apply (keeps_bind _); [apply (keeps_load_definitions _)|done].
Qed.

(** C10: [_build] assigns [dest] and [dest_tar] on the host, as resolved,
    in the state in which the archive is then unpacked; both are still
    attributes of the host when [_build] is over, returned or raised (with
    the values assigned, unless a reload then overwrote them), and the
    simple manifest of a [_save] that follows has a member for each, the
    encoding of its value. *)
Theorem build_records_destination s dest dest_tar reload d :
  resolve_dest s dest = Some d →
  let t := default_dest_tar d dest_tar in
  let s1 := (_build dest dest_tar reload s).2 in
  attrs (build_start s d t) !! "dest" = Some (VStr d) ∧
  attrs (build_start s d t) !! "dest_tar" = Some (VStr t) ∧
  _build dest dest_tar reload s
  = (_extract_tarfile t;;
     _get_complex_attribute_definitions d;;
     _get_simple_attribute_definitions d;;
     if reload then _reload else mret tt) (build_start s d t) ∧
  ∃ v1 v2,
    attrs s1 !! "dest" = Some v1 ∧ attrs s1 !! "dest_tar" = Some v2 ∧
    (reload = false → v1 = VStr d ∧ v2 = VStr t) ∧
    ∀ dest' dest_tar' d' s2,
      resolve_dest s1 dest' = Some d' →
      default_dest_tar d' dest_tar' ≠ os_path_join d' "complex_attributes.json" →
      default_dest_tar d' dest_tar' ≠ os_path_join d' "simple_attributes.json" →
      _save dest' dest_tar' s1 = (inr tt, s2) →
      ∃ ms j1 j2,
        files s2 !! os_path_join d' "simple_attributes.json" = Some (FJson (JObj ms)) ∧
        dict_get "dest" ms = Some j1 ∧ json_dump true v1 = inr j1 ∧
        dict_get "dest_tar" ms = Some j2 ∧ json_dump true v2 = inr j2.
Proof.
  intros Hd t s1.
  assert (attrs (build_start s d t) !! "dest" = Some (VStr d)) as Hdest.
  { unfold build_start. rewrite attrs_with_attrs, lookup_insert_ne by done.
    apply lookup_insert_eq. }
  assert (attrs (build_start s d t) !! "dest_tar" = Some (VStr t)) as Htar.
  { unfold build_start. rewrite attrs_with_attrs. apply lookup_insert_eq. }
  pose proof (build_unfold s dest dest_tar reload d Hd) as Hb. cbv zeta in Hb. fold t in Hb.
  split_and!; [done..|].
  assert (keeps grows (_extract_tarfile t;;
                       _get_complex_attribute_definitions d;;
                       _get_simple_attribute_definitions d;;
                       if reload then _reload else mret tt)) as Hgrows.
  { apply (build_loads_keep _); try (intros v; apply grows_set_attr).
    destruct reload; [apply grows_reload|apply (keeps_ret _)]. }
  specialize (Hgrows (build_start s d t)). rewrite <-Hb in Hgrows. fold s1 in Hgrows.
  destruct (Hgrows "dest") as [v1 Hv1]; [by eauto|].
  destruct (Hgrows "dest_tar") as [v2 Hv2]; [by eauto|].
  exists v1, v2. split_and!; [done|done| |].
  - intros ->.
    assert (keeps (only_assigns ["_complex_attributes"; "_simple_attributes"])
              (_extract_tarfile t;;
               _get_complex_attribute_definitions d;;
               _get_simple_attribute_definitions d;;
               mret tt)) as Honly.
    { apply (build_loads_keep _); [| |apply (keeps_ret _)];
        intros v; apply only_assigns_set_attr; set_solver. }
    specialize (Honly (build_start s d t)). rewrite <-Hb in Honly. fold s1 in Honly.
    rewrite (Honly "dest"), Hdest in Hv1 by (by apply (bool_decide_unpack _)).
    rewrite (Honly "dest_tar"), Htar in Hv2 by (by apply (bool_decide_unpack _)).
    split; congruence.
  - intros dest' dest_tar' d' s2 Hd' Htc Hts Hsave.
    destruct (save_manifest_files _ _ _ _ _ Hd' Htc Hts Hsave)
      as (jc & js & Ha & _ & _ & Hjs & _ & Hfs).
    destruct (simple_document_load _ _ Hjs) as (ms & m & -> & _ & Hm & _).
    destruct (Hm "dest" v1) as (j1 & Hj1 & Hg1 & _).
    { by rewrite saved_attrs_other. }
    destruct (Hm "dest_tar" v2) as (j2 & Hj2 & Hg2 & _).
    { by rewrite saved_attrs_other. }
    by exists ms, j1, j2.
Qed.
End reload_grows.

(** ** Reloading the complex attributes *)

Section reload_complex.
Context `{PyRuntime}.

Lemma entry_fields_getitem e fn tag ff :
  entry_fields e = Some (fn, tag, ff) →
  getitem e (VStr "filename") = inr fn ∧
  getitem e (VStr "filetype") = inr (VStr tag) ∧
  getitem e (VStr "fileformat") = inr ff.
Proof.
  destruct e as [| | | | | | |f| | |]; try done. unfold entry_fields, getitem.
  cbn [hashable].
  destruct (dict_get (VStr "filename") f) as [fn'|]; [|done].
  destruct (dict_get (VStr "filetype") f) as [[| | | |tag'| | | | | |]|]; try done.
  destruct (dict_get (VStr "fileformat") f) as [ff'|]; [|done].
  by intros [= -> -> ->].
Qed.

Lemma decoder_recognized tag :
  recognized tag = true → decoder (VStr tag) = inr (decode tag).
Proof.
  unfold recognized, decoder, decode. cbn [hashable].
  destruct (decide (tag = "np.ndarray")) as [->|Hnp].
  - intros _. by rewrite !bool_decide_eq_true_2.
  - rewrite (bool_decide_eq_false_2 (tag = _)) by done. cbn [orb].
    intros Hpd%bool_decide_eq_true. subst tag.
    rewrite bool_decide_eq_false_2 by done. by rewrite bool_decide_eq_true_2.
Qed.

Lemma decoder_unrecognized tag : recognized tag = false → decoder (VStr tag) = inl KeyError.
Proof.
  unfold recognized, decoder. cbn [hashable].
  intros [Hnp%bool_decide_eq_false Hpd%bool_decide_eq_false]%orb_false_elim.
  rewrite !bool_decide_eq_false_2; [done| |]; congruence.
Qed.

(** One entry with a tag no decoder is registered for: a warning, no
    exception, and the attributes as they were. *)
Lemma reload_complex_unrecognized s c name e fn tag ff :
  attrs s !! "_complex_attributes" = Some (VDict c) →
  dict_get (VStr name) c = Some e →
  entry_fields e = Some (fn, tag, ff) →
  recognized tag = false →
  _reload_complex (VStr name) s
  = (inr tt, State (attrs s) (files s) (dirs s)
               (warnings s ++ [unrecognized_warning (VStr name) fn (VStr tag)])).
Proof.
  intros Hm He Hf Htag. unfold _reload_complex.
  rewrite run_bind, (run_getattr _ _ _ Hm). rewrite run_bind.
  unfold lift at 1, getitem at 1. cbn [hashable]. rewrite He.
  destruct (entry_fields_getitem _ _ _ _ Hf) as (-> & -> & ->).
  rewrite run_bind. cbn [lift]. rewrite run_bind. cbn [lift]. rewrite run_bind. cbn [lift].
  unfold try_except_KeyError. rewrite run_bind. unfold lift.
  by rewrite decoder_unrecognized.
Qed.

(** One entry with a recognised tag whose file the decoder reads. *)
Lemma reload_complex_recognized s c name e fn tag ff x :
  attrs s !! "_complex_attributes" = Some (VDict c) →
  dict_get (VStr name) c = Some e →
  entry_fields e = Some (fn, tag, ff) →
  recognized tag = true →
  decode tag fn (files s) = inr x →
  _reload_complex (VStr name) s = (inr tt, with_attrs (insert name x) s).
Proof.
  intros Hm He Hf Htag Hx. unfold _reload_complex.
  rewrite run_bind, (run_getattr _ _ _ Hm). rewrite run_bind.
  unfold lift at 1, getitem at 1. cbn [hashable]. rewrite He.
  destruct (entry_fields_getitem _ _ _ _ Hf) as (-> & -> & ->).
  rewrite run_bind. cbn [lift]. rewrite run_bind. cbn [lift]. rewrite run_bind. cbn [lift].
  unfold try_except_KeyError. rewrite run_bind. unfold lift.
  rewrite decoder_recognized by done. rewrite run_bind, Hx. done.
Qed.

Lemma reload_complex_loop c l : ∀ s,
  attrs s !! "_complex_attributes" = Some (VDict c) →
  NoDup c.*1 → NoDup l.*1 → l ⊆ c →
  Forall (entry_ok (files s)) l →
  ∃ s',
    for_each l.*1 _reload_complex s = (inr tt, s') ∧
    files s' = files s ∧ dirs s' = dirs s ∧
    (∀ name, VStr name ∉ l.*1 → attrs s' !! name = attrs s !! name) ∧
    (∀ w, w ∈ warnings s → w ∈ warnings s') ∧
    (∀ name e fn tag ff, (VStr name, e) ∈ l → entry_fields e = Some (fn, tag, ff) →
       if recognized tag
       then ∃ x, decode tag fn (files s) = inr x ∧ attrs s' !! name = Some x
       else attrs s' !! name = attrs s !! name
            ∧ unrecognized_warning (VStr name) fn (VStr tag) ∈ warnings s').
Proof.
  induction l as [|[k e] l IH]; intros s Hm Hc Hl Hsub Hok.
  - exists s. split_and!; try done. by intros ????? ?%elem_of_nil.
  - apply NoDup_cons in Hl as [Hk Hl]. apply Forall_cons in Hok as [Hke Hok].
    destruct Hke as (name & fn & tag & ff & Hname & Hne & Hf & Hdec).
    cbn [fst snd] in *. subst k.
    assert (dict_get (VStr name) c = Some e) as He.
    { apply dict_get_NoDup; [done|]. apply Hsub. left. }
    assert (l ⊆ c) as Hsub' by (intros ??; apply Hsub; by right).
    cbn [fmap list_fmap fst for_each]. rewrite run_bind.
    destruct (recognized tag) eqn:Htag.
    + destruct (Hdec eq_refl) as [x Hx].
      rewrite (reload_complex_recognized s c name e fn tag ff x) by done.
      destruct (IH (with_attrs (insert name x) s))
        as (s' & Hrun & Hfs & Hds & Hframe & Hw & Hall); try done.
      { rewrite attrs_with_attrs, lookup_insert_ne; done. }
      exists s'. split_and!; try done.
      * intros name' [Hne' Hnin]%not_elem_of_cons. rewrite Hframe by done.
        rewrite attrs_with_attrs, lookup_insert_ne; [done|congruence].
      * intros name' e' fn' tag' ff' [[= -> ->]|Hin]%elem_of_cons Hf'.
        -- rewrite Hf in Hf'. injection Hf' as <- <- <-. rewrite Htag.
           exists x. split; [done|]. rewrite Hframe by done.
           rewrite attrs_with_attrs. apply lookup_insert_eq.
        -- specialize (Hall name' e' fn' tag' ff' Hin Hf').
           assert (name' ≠ name) as Hne'.
           { intros ->. apply Hk. apply list_elem_of_fmap. by exists (VStr name, e'). }
           destruct (recognized tag'); [done|]. destruct Hall as [Ha Hwarn].
           split; [|done]. rewrite Ha, attrs_with_attrs, lookup_insert_ne; done.
    + rewrite (reload_complex_unrecognized s c name e fn tag ff) by done.
      set (s1 := State _ _ _ _).
      destruct (IH s1) as (s' & Hrun & Hfs & Hds & Hframe & Hw & Hall); try done.
      exists s'. split_and!; try done.
      * intros name' [Hne' Hnin]%not_elem_of_cons. by rewrite Hframe.
      * intros w Hin. apply Hw. simpl. apply elem_of_app. by left.
      * intros name' e' fn' tag' ff' [[= -> ->]|Hin]%elem_of_cons Hf'.
        -- rewrite Hf in Hf'. injection Hf' as <- <- <-. rewrite Htag.
           split; [by rewrite Hframe|]. apply Hw. simpl.
           apply elem_of_app. right. apply list_elem_of_singleton. done.
        -- by apply (Hall name' e' fn' tag' ff').
Qed.

(** C4: for a loaded complex manifest whose entries follow the data
    model, [_reload_complex_all] returns; an entry whose type tag has no
    decoder is passed over with a warning and the attribute of its name is
    what it was, while every entry with a recognised tag is decoded and
    assigned. *)
Theorem reload_skips_unknown_type s c name e fn tag ff :
  attrs s !! "_complex_attributes" = Some (VDict c) →
  NoDup c.*1 →
  Forall (entry_ok (files s)) c →
  (VStr name, e) ∈ c →
  entry_fields e = Some (fn, tag, ff) →
  recognized tag = false →
  ∃ s',
    _reload_complex_all s = (inr tt, s') ∧
    attrs s' !! name = attrs s !! name ∧
    unrecognized_warning (VStr name) fn (VStr tag) ∈ warnings s' ∧
    ∀ name' e' fn' tag' ff',
      (VStr name', e') ∈ c → entry_fields e' = Some (fn', tag', ff') →
      recognized tag' = true →
      ∃ x, decode tag' fn' (files s) = inr x ∧ attrs s' !! name' = Some x.
Proof.
  intros Hm Hc Hok Hin Hf Htag.
  destruct (reload_complex_loop c c s Hm Hc Hc) as (s' & Hrun & _ & _ & _ & _ & Hall);
    [done|done|].
  exists s'. unfold _reload_complex_all.
  rewrite run_bind, (run_getattr _ _ _ Hm), run_bind. cbn [lift keys].
  split; [done|]. pose proof (Hall name e fn tag ff Hin Hf) as Hskip.
  rewrite Htag in Hskip. destruct Hskip as [Ha Hw]. split_and!; [done|done|].
  intros name' e' fn' tag' ff' Hin' Hf' Htag'.
  pose proof (Hall name' e' fn' tag' ff' Hin' Hf') as Hdec. by rewrite Htag' in Hdec.
Qed.
End reload_complex.

(** ** Reloading twice *)

Lemma same_inputs_refl s : same_inputs s s.
Proof. by split_and!. Qed.

Lemma assign_nil s : assign [] [] s = s.
Proof. destruct s. unfold assign. simpl. by rewrite app_nil_r. Qed.

Lemma assign_assign l1 w1 l2 w2 s :
  assign l2 w2 (assign l1 w1 s) = assign (l1 ++ l2) (w1 ++ w2) s.
Proof. unfold assign. simpl. by rewrite foldl_app, app_assoc. Qed.

Lemma foldl_insert_lookup (l : list (string * pyval)) : ∀ (a : gmap string pyval) k,
  foldl (λ a kv, <[kv.1 := kv.2]> a) a l !! k
  = match dict_get k (reverse l) with
    | Some v => Some v
    | None => a !! k
    end.
Proof.
  induction l as [|[k' v'] l IH]; intros a k; [done|].
  cbn [foldl fst snd]. rewrite IH, reverse_cons.
  assert (∀ l', dict_get k (l' ++ [(k', v')])
                = match dict_get k l' with
                  | Some v => Some v
                  | None => if decide (k' = k) then Some v' else None
                  end) as ->.
  { induction l' as [|[k0 v0] l' IHl]; cbn [app dict_get]; [done|].
    by destruct (decide (k0 = k)). }
  destruct (dict_get k (reverse l)); [done|]. rewrite lookup_insert.
  by case_decide.
Qed.

(** Making the same assignments a second time changes nothing. *)
Lemma assign_twice l w1 w2 s : attrs (assign l w2 (assign l w1 s)) = attrs (assign l w1 s).
Proof.
  unfold assign. cbn [attrs]. apply map_eq. intros k.
  rewrite !foldl_insert_lookup. by destruct (dict_get k (reverse l)).
Qed.

Lemma same_inputs_assign l w s s' :
  same_inputs s s' → same_inputs (assign l w s) (assign l w s').
Proof.
  intros (Hf & Hs & Hc). unfold same_inputs, assign. cbn [attrs files].
  rewrite !foldl_insert_lookup, Hs, Hc. done.
Qed.

Section reads_inputs_only.
Context `{PyRuntime}.

Lemma rio_const {A} (m : M A) (f : option pyval → option pyval → gmap string file → result A) :
  (∀ s, m s = (f (attrs s !! "_simple_attributes") (attrs s !! "_complex_attributes")
                 (files s), s)) →
  reads_inputs_only m.
Proof.
  intros Hm s.
  exists (f (attrs s !! "_simple_attributes") (attrs s !! "_complex_attributes") (files s)),
    [], [].
  intros s' (Hf & Hs & Hc). by rewrite Hm, Hf, Hs, Hc, assign_nil.
Qed.

Lemma rio_ret {A} (x : A) : reads_inputs_only (mret x).
Proof. by apply (rio_const _ (λ _ _ _, inr x)). Qed.

Lemma rio_raise {A} e : reads_inputs_only (raise e : M A).
Proof. by apply (rio_const _ (λ _ _ _, inl e)). Qed.

Lemma rio_lift {A} (r : result A) : reads_inputs_only (lift r).
Proof. by apply (rio_const _ (λ _ _ _, r)). Qed.

Lemma rio_simple_manifest : reads_inputs_only (getattr_ "_simple_attributes").
Proof.
  apply (rio_const _ (λ o _ _, match o with Some v => inr v | None => inl AttributeError end)).
  intros s. unfold getattr_. by destruct (attrs s !! _).
Qed.

Lemma rio_complex_manifest : reads_inputs_only (getattr_ "_complex_attributes").
Proof.
  apply (rio_const _ (λ _ o _, match o with Some v => inr v | None => inl AttributeError end)).
  intros s. unfold getattr_. by destruct (attrs s !! _).
Qed.

Lemma rio_files {A} (f : gmap string file → result A) :
  reads_inputs_only (λ s, (f (files s), s)).
Proof. by apply (rio_const _ (λ _ _ fs, f fs)). Qed.

Lemma rio_set_attr k v : reads_inputs_only (set_attr k v).
Proof.
  intros s. exists (inr tt), [(k, v)], []. intros s' _.
  unfold set_attr, assign, with_attrs. simpl. by rewrite app_nil_r.
Qed.

Lemma rio_setattr k v : reads_inputs_only (setattr_ k v).
Proof. destruct k; try apply rio_raise. apply rio_set_attr. Qed.

Lemma rio_warn msg : reads_inputs_only (warn msg).
Proof. intros s. exists (inr tt), [], [msg]. by intros s' _. Qed.

Lemma rio_bind {A B} (m : M A) (f : A → M B) :
  reads_inputs_only m → (∀ x, reads_inputs_only (f x)) → reads_inputs_only (m ≫= f).
Proof.
  intros Hm Hf s. destruct (Hm s) as (r & l & w & Hrun).
  destruct r as [e|x].
  - exists (inl e), l, w. intros s' Hs'. by rewrite run_bind, Hrun.
  - destruct (Hf x (assign l w s)) as (r2 & l2 & w2 & Hrun2).
    exists r2, (l ++ l2)%list, (w ++ w2)%list. intros s' Hs'.
    rewrite run_bind, Hrun by done. rewrite Hrun2 by by apply same_inputs_assign.
    by rewrite assign_assign.
Qed.

Lemma rio_try {A} (m h : M A) :
  reads_inputs_only m → reads_inputs_only h → reads_inputs_only (try_except_KeyError m h).
Proof.
  intros Hm Hh s. destruct (Hm s) as (r & l & w & Hrun).
  destruct r as [e|x].
  - destruct (decide (e = KeyError)) as [->|Hne].
    + destruct (Hh (assign l w s)) as (r2 & l2 & w2 & Hrun2).
      exists r2, (l ++ l2)%list, (w ++ w2)%list. intros s' Hs'.
      unfold try_except_KeyError. rewrite Hrun by done.
      rewrite Hrun2 by by apply same_inputs_assign. by rewrite assign_assign.
    + exists (inl e), l, w. intros s' Hs'.
      unfold try_except_KeyError. rewrite Hrun by done. by destruct e.
  - exists (inr x), l, w. intros s' Hs'.
    unfold try_except_KeyError. by rewrite Hrun.
Qed.

Lemma rio_for_each {A} (l : list A) (body : A → M unit) :
  (∀ x, reads_inputs_only (body x)) → reads_inputs_only (for_each l body).
Proof.
  intros Hb. induction l as [|x l IH]; simpl; [apply rio_ret|].
  apply rio_bind; [apply Hb|done].
Qed.

Lemma rio_reload_complex k : reads_inputs_only (_reload_complex k).
Proof.
  unfold _reload_complex.
  apply rio_bind; [apply rio_complex_manifest|intros m].
  do 4 (apply rio_bind; [apply rio_lift|intros ?]).
  apply rio_try; [|apply rio_warn].
  apply rio_bind; [apply rio_lift|intros func].
  apply rio_bind; [apply (rio_files (func _))|intros y]. apply rio_setattr.
Qed.

Lemma rio_reload : reads_inputs_only _reload.
Proof.
  unfold _reload. apply rio_bind; [|intros _].
  - unfold _reload_simple_all.
    apply rio_bind; [apply rio_simple_manifest|intros m].
    apply rio_bind; [apply rio_lift|intros kvs].
    apply rio_for_each. intros [k v]. unfold simple_step.
    repeat case_bool_decide; try apply rio_ret. apply rio_setattr.
  - unfold _reload_complex_all.
    apply rio_bind; [apply rio_complex_manifest|intros m].
    apply rio_bind; [apply rio_lift|intros ks].
    apply rio_for_each, rio_reload_complex.
Qed.

(** C8: when a reload has left the two loaded manifests as they were,
    a second reload ends as the first did and leaves the attributes, the
    files and the directories as the first left them. *)
Theorem reload_idempotent s r s1 :
  _reload s = (r, s1) →
  attrs s1 !! "_simple_attributes" = attrs s !! "_simple_attributes" →
  attrs s1 !! "_complex_attributes" = attrs s !! "_complex_attributes" →
  ∃ s2, _reload s1 = (r, s2) ∧
        attrs s2 = attrs s1 ∧ files s2 = files s1 ∧ dirs s2 = dirs s1.
Proof.
  intros Hrun Hs Hc. destruct (rio_reload s) as (r' & l & w & Huni).
  rewrite (Huni s (same_inputs_refl s)) in Hrun. injection Hrun as -> <-.
  exists (assign l w (assign l w s)). split_and!; [|apply assign_twice|done|done].
  apply Huni. by split_and!.
Qed.
End reads_inputs_only.

(** ** Directories and archives *)

Lemma strip_prefix_app a b : strip_prefix a (a ++ b) = Some b.
Proof. induction a as [|c a IH]; simpl; [done|]. by rewrite decide_True. Qed.

Lemma strip_prefix_Some a p r : strip_prefix a p = Some r → p = a ++ r.
Proof.
  revert p. induction a as [|c a IH]; intros p; simpl; [by intros [= ->]|].
  destruct p as [|c' p]; [done|]. case_decide; [|done]. subst c'.
  intros Hr. by rewrite (IH _ Hr).
Qed.

Lemma string_app_assoc (a b c : string) : (a ++ b) ++ c = a ++ (b ++ c).
Proof.
  induction a as [|x a IH]; [done|].
  change (String x ((a ++ b) ++ c) = String x (a ++ (b ++ c))). by f_equal.
Qed.

(** A path in the directory [d] is [d] joined with its relative path. *)
Lemma relative_to_join d p rel : relative_to d p = Some rel → os_path_join d rel = p.
Proof.
  unfold relative_to, os_path_join.
  destruct (strip_prefix _ p) as [r|] eqn:Hr; [|done].
  destruct (bool_decide (r = "") || startswith_sep r) eqn:Hrel; [done|].
  intros [= <-]. apply orb_false_elim in Hrel as [_ ->].
  apply strip_prefix_Some in Hr.
  destruct (bool_decide (d = "") || endswith_sep d); [done|].
  by rewrite Hr, string_app_assoc.
Qed.

Lemma join_relative_to d b :
  b ≠ "" → startswith_sep b = false → relative_to d (os_path_join d b) = Some b.
Proof.
  intros Hb Hsep. unfold relative_to, os_path_join. rewrite Hsep.
  destruct (bool_decide (d = "") || endswith_sep d).
  - rewrite strip_prefix_app, Hsep. by rewrite bool_decide_eq_false_2.
  - replace (d ++ String sep b) with ((d ++ String sep "") ++ b)
      by by rewrite string_app_assoc.
    rewrite strip_prefix_app, Hsep. by rewrite bool_decide_eq_false_2.
Qed.

Lemma elem_of_tar_file_members d arc t (fs : gmap string file) q c :
  (q, c) ∈ tar_file_members d arc t fs ↔
  ∃ p rel, fs !! p = Some c ∧ relative_to d p = Some rel ∧ p ≠ t ∧ q = os_path_join arc rel.
Proof.
  unfold tar_file_members. rewrite list_elem_of_omap. split.
  - intros ([p c'] & Hin%elem_of_map_to_list & Hsel). cbn [fst snd] in Hsel.
    destruct (relative_to d p) as [rel|] eqn:Hrel; [|done].
    case_bool_decide; [done|]. injection Hsel as <- <-. by exists p, rel.
  - intros (p & rel & Hp & Hrel & Hne & ->). exists (p, c).
    split; [by apply elem_of_map_to_list|]. cbn [fst snd]. rewrite Hrel.
    by rewrite bool_decide_eq_false_2.
Qed.

(** Unpacking files that are already there as they are changes nothing. *)
Lemma extract_same (l : list (string * file)) : ∀ fs : gmap string file,
  (∀ p c, (p, c) ∈ l → fs !! p = Some c) →
  foldl (λ fs pc, <[pc.1 := pc.2]> fs) fs l = fs.
Proof.
  induction l as [|[p c] l IH]; intros fs Hl; [done|].
  cbn [foldl fst snd]. rewrite insert_id by (apply Hl; left).
  apply IH. intros ???. apply Hl. by right.
Qed.

(** When [d] is a single path component, the archive [_save] made of it
    unpacks onto the very files it was made from. *)
Lemma extract_archive_of d t ds (fs : gmap string file) tdirs tfiles :
  os_path_basename d = d →
  archive_of d t ds fs = FTar tdirs tfiles →
  foldl (λ fs pc, <[pc.1 := pc.2]> fs) (<[t := FTar tdirs tfiles]> (<[t := FTruncated]> fs))
        tfiles
  = <[t := FTar tdirs tfiles]> (<[t := FTruncated]> fs).
Proof.
  intros Hbase [= <- <-]. apply extract_same. intros q c.
  rewrite elem_of_tar_file_members. intros (p & rel & Hp & Hrel & Hne & ->).
  rewrite Hbase, (relative_to_join _ _ _ Hrel).
  rewrite lookup_insert_ne by done. done.
Qed.

(** ** Save, then build *)

Lemma json_load_members_NoDup ms : ∀ acc,
  NoDup acc.*1 → NoDup (json_load_members ms acc).*1.
Proof.
  induction ms as [|[k x] ms IH]; intros acc Hacc; [done|].
  cbn [json_load_members]. by apply IH, dict_set_NoDup.
Qed.

Lemma json_load_obj_NoDup ms dl : json_load (JObj ms) = VDict dl → NoDup dl.*1.
Proof.
  rewrite json_load_obj. intros [= <-]. apply json_load_members_NoDup. constructor.
Qed.

(** The loop of [_reload_simple_all] over a loaded manifest: each name
    that is not reserved and has a value other than null is assigned. *)
Lemma reload_simple_loop kvs : ∀ s,
  NoDup kvs.*1 →
  (∀ q, q ∈ kvs.*1 → ∃ k, q = VStr k) →
  ∃ s',
    for_each kvs simple_step s = (inr tt, s') ∧
    files s' = files s ∧ dirs s' = dirs s ∧ warnings s' = warnings s ∧
    ∀ k, attrs s' !! k
         = match dict_get (VStr k) kvs with
           | Some v =>
               if bool_decide (VStr k ∈ reserved) || bool_decide (v = VNone)
               then attrs s !! k else Some v
           | None => attrs s !! k
           end.
Proof.
  induction kvs as [|[q v] kvs IH]; intros s Hnd Hstr.
  - by exists s.
  - apply NoDup_cons in Hnd as [Hq Hnd].
    destruct (Hstr q) as [k0 ->]; [left|].
    assert (∀ q, q ∈ kvs.*1 → ∃ k, q = VStr k) as Hstr' by (intros ??; apply Hstr; by right).
    cbn [for_each]. rewrite run_bind. cbn [dict_get].
    assert (dict_get (VStr k0) kvs = None) as Hnone by by apply dict_get_None.
    unfold simple_step at 1.
    destruct (bool_decide (VStr k0 ∈ reserved) || bool_decide (v = VNone)) eqn:Hskip.
    + assert ((if bool_decide (VStr k0 ∈ reserved) then mret tt
               else if bool_decide (v = VNone) then mret tt else setattr_ (VStr k0) v) s
              = (inr tt, s)) as ->.
      { by destruct (bool_decide (VStr k0 ∈ reserved)), (bool_decide (v = VNone)). }
      destruct (IH s Hnd Hstr') as (s' & Hrun & Hf & Hd & Hw & Ha).
      exists s'. split_and!; try done. intros k. rewrite Ha.
      destruct (decide (VStr k0 = VStr k)) as [[= ->]|Hne]; [|done].
      by rewrite Hnone, Hskip.
    + apply orb_false_elim in Hskip as [Hres Hv]. rewrite Hres, Hv.
      cbn [setattr_ set_attr].
      destruct (IH (with_attrs (insert k0 v) s) Hnd Hstr') as (s' & Hrun & Hf & Hd & Hw & Ha).
      exists s'. split_and!; try done. intros k. rewrite Ha, attrs_with_attrs.
      destruct (decide (VStr k0 = VStr k)) as [[= ->]|Hne].
      * by rewrite Hnone, Hres, Hv, lookup_insert_eq.
      * rewrite lookup_insert_ne by congruence. done.
Qed.


Section round_trip.
Context `{PyRuntime}.

Lemma reserved_names k :
  VStr k ∈ reserved ↔ k = "_complex_attributes" ∨ k = "_simple_attributes".
Proof.
  unfold reserved. rewrite !elem_of_cons, elem_of_nil. split.
  - intros [[= ->]|[[= ->]|[]]]; by eauto.
  - intros [-> | ->]; by eauto.
Qed.


End round_trip.

(** ** Saving twice into the same directory *)

Lemma np_write_grows d a ks : ∀ (fs : gmap string file) p,
  is_Some (fs !! p) → is_Some (foldl (np_write d a) fs ks !! p).
Proof.
  induction ks as [|k ks IH]; intros fs p Hp; [done|]. cbn [foldl]. apply IH.
  unfold np_write. destruct (a !! k) as [[]|]; try done.
  rewrite lookup_insert. by case_decide.
Qed.

Lemma pd_write_grows d a ks : ∀ (fs : gmap string file) p,
  is_Some (fs !! p) → is_Some (foldl (pd_write d a) fs ks !! p).
Proof.
  induction ks as [|k ks IH]; intros fs p Hp; [done|]. cbn [foldl]. apply IH.
  unfold pd_write. destruct (a !! k) as [[]|]; try done.
  rewrite lookup_insert. by case_decide.
Qed.

(** [_save] removes no file: what was on disk is still there when the
    archive is made. *)
Lemma manifests_written_grows d a jc js (fs : gmap string file) p :
  is_Some (fs !! p) → is_Some (manifests_written d jc js (encoded_files d a fs) !! p).
Proof.
  intros Hp. unfold manifests_written, encoded_files. cbv zeta.
  rewrite !lookup_insert. repeat case_decide; try done.
  by apply pd_write_grows, np_write_grows.
Qed.

Section save_twice.
Context `{PyRuntime}.

(** C2, as the code has it: after a second [_save] into the same
    directory, whatever the first one did and however the attributes
    changed in between, the complex manifest on disk and in the second
    archive has an entry for exactly the attributes that are now an
    ndarray or a DataFrame.  No file is removed from the directory: every
    file the first [_save] left in it is a member of the second archive. *)
Theorem second_save_manifest s1 dest dest_tar r1 s2 a' d s3 :
  _save dest dest_tar s1 = (r1, s2) →
  resolve_dest (State a' (files s2) (dirs s2) (warnings s2)) dest = Some d →
  default_dest_tar d dest_tar ≠ os_path_join d "complex_attributes.json" →
  default_dest_tar d dest_tar ≠ os_path_join d "simple_attributes.json" →
  _save dest dest_tar (State a' (files s2) (dirs s2) (warnings s2)) = (inr tt, s3) →
  ∃ jc c tdirs tfiles,
    files s3 !! os_path_join d "complex_attributes.json" = Some (FJson jc) ∧
    files s3 !! default_dest_tar d dest_tar = Some (FTar tdirs tfiles) ∧
    (os_path_join (os_path_basename d) "complex_attributes.json", FJson jc) ∈ tfiles ∧
    json_load jc = VDict c ∧
    (∀ k, dict_get (VStr k) c = attrs s3 !! k ≫= entry_of d k) ∧
    (∀ q, q ∈ c.*1 → ∃ k, q = VStr k) ∧
    (∀ p c0 rel,
       files s2 !! p = Some c0 → relative_to d p = Some rel →
       p ≠ default_dest_tar d dest_tar →
       ∃ c', (os_path_join (os_path_basename d) rel, c') ∈ tfiles).
Proof.
  intros _ Hd Htc Hts Hsave.
  set (t := default_dest_tar d dest_tar) in *.
  set (s2' := State a' (files s2) (dirs s2) (warnings s2)) in *.
  destruct (complex_manifest_document d a') as (jc & Hjc & Hload).
  pose proof (run_save s2' dest dest_tar d jc Hd (Hjc false)) as Hrun.
  cbv zeta in Hrun. fold t in Hrun. rewrite Hsave in Hrun.
  destruct (json_dump true _) as [e|js] eqn:Hjs; [done|].
  injection Hrun as ->. cbn [attrs files s2'].
  set (fs := manifests_written d jc js (encoded_files d a' (files s2))).
  assert (fs !! os_path_join d "complex_attributes.json" = Some (FJson jc)) as Hpc.
  { unfold fs, manifests_written.
    rewrite lookup_insert_ne by (apply not_eq_sym, manifest_paths_differ).
    apply lookup_insert_eq. }
  eexists jc, (complex_manifest d a'), _, _. split_and!.
  - by rewrite !lookup_insert_ne.
  - unfold archive_of. apply lookup_insert_eq.
  - apply elem_of_tar_file_members.
    exists (os_path_join d "complex_attributes.json"), "complex_attributes.json".
    split_and!; [by rewrite lookup_insert_ne|by apply join_relative_to|done|done].
  - done.
  - intros k. by rewrite complex_manifest_get, saved_attrs_entry.
  - apply complex_manifest_keys.
  - intros p c0 rel Hp Hrel Hne.
    destruct (manifests_written_grows d a' jc js (files s2) p) as [c' Hc']; [by eauto|].
    exists c'. apply elem_of_tar_file_members. exists p, rel.
    split_and!; [by rewrite lookup_insert_ne|done..].
Qed.
End save_twice.

(** C2 as stated fails: once [bart] is deleted and the host saved again,
    the manifest no longer lists it, but its encoded file is still in the
    directory and is a member of the second archive. *)
Lemma second_save_keeps_stale_file :
  let s1 := host [("name", VStr "Simpsons"); ("bart", zeros)] in
  let s2 := (@_save example_runtime None None s1).2 in
  let s3 := (@_save example_runtime None None (with_attrs (delete "bart") s2)).2 in
  (@_save example_runtime None None s1).1 = inr tt ∧
  (@_save example_runtime None None (with_attrs (delete "bart") s2)).1 = inr tt ∧
  attrs s3 !! "bart" = None ∧
  attrs s3 !! "_complex_attributes" = Some (VDict []) ∧
  archive_member (files s3) "Simpsons.tar.gz" "Simpsons/complex_attributes.json"
  = Some (FJson (JObj [])) ∧
  archive_member (files s3) "Simpsons.tar.gz" "Simpsons/bart.cs"
  = Some (FNumpy (Ndarray [2] ["0.0"; "0.0"])).
Proof. vm_compute. by split_and!. Qed.


(** * Worked examples *)

Lemma run_pair {A} (p : result A * state) x : p.1 = inr x → p = (inr x, p.2).
Proof. destruct p as [r s]. simpl. by intros ->. Qed.

Lemma reload_complex_missing_raises_witness :
  (attrs year_engine !! "_complex_attributes" = Some (VDict []) ∧
   hashable (VStr "ghost") = true ∧
   dict_get (VStr "ghost") (@nil (pyval * pyval)) = None) ∧
  @_reload_complex example_runtime (VStr "ghost") year_engine = (inl KeyError, year_engine).
Proof.
  split; [by split_and!|].
  by apply (@reload_complex_missing_raises example_runtime year_engine []).
Defined.

(** The sibling [_reload_simple] on the same engine and name: a warning. *)
Example reload_simple_missing_ex :
  @_reload_simple example_runtime (VStr "ghost") year_engine
  = (inr tt, State (attrs year_engine) (files year_engine) (dirs year_engine)
               ["Could not reload simple attribute ghost"]).
Proof. by apply (@reload_simple_missing example_runtime year_engine [(VStr "year", VNone)]). Qed.

Lemma reload_simple_writes_none_witness :
  (attrs year_engine !! "_simple_attributes" = Some (VDict [(VStr "year", VNone)]) ∧
   dict_get (VStr "year") [(VStr "year", VNone)] = Some VNone) ∧
  @_reload_simple example_runtime (VStr "year") year_engine
  = (inr tt, with_attrs (insert "year" VNone) year_engine).
Proof.
  split; [by split_and!|].
  by apply (@reload_simple_writes_none example_runtime year_engine [(VStr "year", VNone)]).
Defined.

(** The host had [year = 2020]; the single reload makes it [None], where
    the full reload leaves it. *)
Example reload_simple_clobbers_year :
  attrs year_engine !! "year" = Some (VInt 2020) ∧
  attrs (@_reload_simple example_runtime (VStr "year") year_engine).2 !! "year" = Some VNone ∧
  attrs (@_reload example_runtime year_engine).2 !! "year" = Some (VInt 2020).
Proof. vm_compute. by split_and!. Qed.

Lemma build_missing_manifest_witness :
  (@resolve_dest example_runtime half_archive None = Some "Simpsons" ∧
   (nowhere half_archive (default_dest_tar "Simpsons" None)
      (os_path_join "Simpsons" "complex_attributes.json")
    ∨ nowhere half_archive (default_dest_tar "Simpsons" None)
        (os_path_join "Simpsons" "simple_attributes.json"))) ∧
  ∃ e s', @_build example_runtime None None true half_archive = (inl e, s')
          ∧ frame half_archive s'.
Proof.
  assert (nowhere half_archive (default_dest_tar "Simpsons" None)
            (os_path_join "Simpsons" "complex_attributes.json")) as Hno.
  { split; [reflexivity|]. intros tdirs tfiles [= <- <-].
    apply (bool_decide_unpack _). vm_compute. exact I. }
  split; [split; [reflexivity|by left]|].
  apply (@build_missing_manifest example_runtime half_archive None None true "Simpsons");
    [reflexivity|by left].
Defined.

(** The exception is the failed assertion. *)
Example build_missing_manifest_ex :
  (@_build example_runtime None None true half_archive).1 = inl AssertionError.
Proof. reflexivity. Qed.

Lemma save_classifies_once_witness :
  (@resolve_dest example_runtime simpsons_bart None = Some "Simpsons" ∧
   default_dest_tar "Simpsons" None ≠ os_path_join "Simpsons" "complex_attributes.json" ∧
   default_dest_tar "Simpsons" None ≠ os_path_join "Simpsons" "simple_attributes.json" ∧
   @_save example_runtime None None simpsons_bart
   = (inr tt, (@_save example_runtime None None simpsons_bart).2)) ∧
  ∃ jc js c m,
    files (@_save example_runtime None None simpsons_bart).2
      !! os_path_join "Simpsons" "complex_attributes.json" = Some (FJson jc) ∧
    files (@_save example_runtime None None simpsons_bart).2
      !! os_path_join "Simpsons" "simple_attributes.json" = Some (FJson js) ∧
    json_load jc = VDict c ∧ json_load js = VDict m ∧
    (∀ k v, attrs (@_save example_runtime None None simpsons_bart).2 !! k = Some v →
       (is_complex v = true ∧ dict_get (VStr k) c = entry_of "Simpsons" k v
        ∧ dict_get (VStr k) m = Some VNone)
       ∨ (is_complex v = false ∧ dict_get (VStr k) c = None
          ∧ ∃ j, json_dump true v = inr j ∧ dict_get (VStr k) m = Some (json_load j))) ∧
    (∀ q, is_Some (dict_get q c) → dict_get q m = Some VNone).
Proof.
  assert (@_save example_runtime None None simpsons_bart
          = (inr tt, (@_save example_runtime None None simpsons_bart).2)) as Hrun.
  { apply run_pair. vm_compute. reflexivity. }
  assert (default_dest_tar "Simpsons" None
          ≠ os_path_join "Simpsons" "complex_attributes.json") as Htc by discriminate.
  assert (default_dest_tar "Simpsons" None
          ≠ os_path_join "Simpsons" "simple_attributes.json") as Hts by discriminate.
  split; [by split_and!|].
  by apply (@save_classifies_once example_runtime simpsons_bart None None _ "Simpsons").
Defined.


(** The array is written as null under its name. *)
Example simple_manifest_ex :
  files (_save_simple_attributes "Simpsons" simpsons_bart).2
    !! "Simpsons/simple_attributes.json"
  = Some (FJson (JObj [("name", JStr "Simpsons"); ("bart", JNull)])).
Proof. reflexivity. Qed.

Lemma build_records_destination_witness :
  @resolve_dest example_runtime
    (fresh_on (@_save example_runtime None None simpsons).2) None = Some "Simpsons" ∧
  attrs (@_build example_runtime None None true
           (fresh_on (@_save example_runtime None None simpsons).2)).2 !! "dest"
  = Some (VStr "Simpsons") ∧
  attrs (@_build example_runtime None None true
           (fresh_on (@_save example_runtime None None simpsons).2)).2 !! "dest_tar"
  = Some (VStr "Simpsons.tar.gz") ∧
  ∃ v1 v2,
    attrs (@_build example_runtime None None true
             (fresh_on (@_save example_runtime None None simpsons).2)).2 !! "dest" = Some v1 ∧
    attrs (@_build example_runtime None None true
             (fresh_on (@_save example_runtime None None simpsons).2)).2 !! "dest_tar" = Some v2 ∧
    ∀ dest' dest_tar' d' s2,
      @resolve_dest example_runtime
        (@_build example_runtime None None true
           (fresh_on (@_save example_runtime None None simpsons).2)).2 dest' = Some d' →
      default_dest_tar d' dest_tar' ≠ os_path_join d' "complex_attributes.json" →
      default_dest_tar d' dest_tar' ≠ os_path_join d' "simple_attributes.json" →
      @_save example_runtime dest' dest_tar'
        (@_build example_runtime None None true
           (fresh_on (@_save example_runtime None None simpsons).2)).2 = (inr tt, s2) →
      ∃ ms j1 j2,
        files s2 !! os_path_join d' "simple_attributes.json" = Some (FJson (JObj ms)) ∧
        dict_get "dest" ms = Some j1 ∧ json_dump true v1 = inr j1 ∧
        dict_get "dest_tar" ms = Some j2 ∧ json_dump true v2 = inr j2.
Proof.
  assert (@resolve_dest example_runtime
            (fresh_on (@_save example_runtime None None simpsons).2) None
          = Some "Simpsons") as Hd by (vm_compute; reflexivity).
  split; [exact Hd|]. split; [vm_compute; reflexivity|]. split; [vm_compute; reflexivity|].
  destruct (@build_records_destination example_runtime
              (fresh_on (@_save example_runtime None None simpsons).2)
              None None true "Simpsons" Hd)
    as (_ & _ & _ & v1 & v2 & H1 & H2 & _ & Hsave).
  exists v1, v2. split; [exact H1|]. split; [exact H2|exact Hsave].
Defined.

(** The save that follows does record them. *)
Example build_then_save_ex :
  files (@_save example_runtime None None
           (@_build example_runtime None None true
              (fresh_on (@_save example_runtime None None simpsons).2)).2).2
    !! "Simpsons/simple_attributes.json"
  ≫= (λ f, match f with FJson (JObj ms) => Some (dict_get "dest" ms, dict_get "dest_tar" ms)
                    | _ => None end)
  = Some (Some (JStr "Simpsons"), Some (JStr "Simpsons.tar.gz")).
Proof. vm_compute. reflexivity. Qed.

Lemma reload_skips_unknown_type_witness :
  (attrs mixed_engine !! "_complex_attributes" = Some (VDict mixed_manifest) ∧
   NoDup mixed_manifest.*1 ∧
   Forall (@entry_ok example_runtime (files mixed_engine)) mixed_manifest ∧
   (VStr "odd", sparse_entry) ∈ mixed_manifest ∧
   entry_fields sparse_entry = Some (VStr "d/odd.npz", "scipy.sparse", VStr "npz") ∧
   recognized "scipy.sparse" = false) ∧
  ∃ s',
    @_reload_complex_all example_runtime mixed_engine = (inr tt, s') ∧
    attrs s' !! "odd" = attrs mixed_engine !! "odd" ∧
    @unrecognized_warning example_runtime (VStr "odd") (VStr "d/odd.npz") (VStr "scipy.sparse")
      ∈ warnings s' ∧
    ∀ name' e' fn' tag' ff',
      (VStr name', e') ∈ mixed_manifest → entry_fields e' = Some (fn', tag', ff') →
      recognized tag' = true →
      ∃ x, @decode example_runtime tag' fn' (files mixed_engine) = inr x
           ∧ attrs s' !! name' = Some x.
Proof.
  assert (NoDup mixed_manifest.*1) as Hnd.
  { apply (bool_decide_unpack _). vm_compute. exact I. }
  assert (Forall (@entry_ok example_runtime (files mixed_engine)) mixed_manifest) as Hok.
  { repeat constructor.
    - exists "odd", (VStr "d/odd.npz"), "scipy.sparse", (VStr "npz").
      split_and!; [reflexivity|discriminate|reflexivity|discriminate].
    - exists "bart", (VStr "d/bart.cs"), "np.ndarray", (VStr "csv").
      split_and!; [reflexivity|discriminate|reflexivity|].
      intros _. eexists. vm_compute. reflexivity. }
  assert ((VStr "odd", sparse_entry) ∈ mixed_manifest) as Hin by left.
  split; [by split_and!|].
  by apply (@reload_skips_unknown_type example_runtime mixed_engine mixed_manifest
              "odd" sparse_entry (VStr "d/odd.npz") "scipy.sparse" (VStr "npz")).
Defined.

(** The array is decoded, the other entry is left with a warning. *)
Example reload_skips_unknown_type_ex :
  (@_reload_complex_all example_runtime mixed_engine).1 = inr tt ∧
  attrs (@_reload_complex_all example_runtime mixed_engine).2 !! "odd" = None ∧
  attrs (@_reload_complex_all example_runtime mixed_engine).2 !! "bart" = Some zeros ∧
  warnings (@_reload_complex_all example_runtime mixed_engine).2
  = ["Could not reload odd, d/odd.npz had unrecognized scipy.sparse"].
Proof. vm_compute. by split_and!. Qed.

Lemma reload_idempotent_witness :
  (@_reload example_runtime built_engine
   = ((@_reload example_runtime built_engine).1, (@_reload example_runtime built_engine).2) ∧
   attrs (@_reload example_runtime built_engine).2 !! "_simple_attributes"
   = attrs built_engine !! "_simple_attributes" ∧
   attrs (@_reload example_runtime built_engine).2 !! "_complex_attributes"
   = attrs built_engine !! "_complex_attributes") ∧
  ∃ s2, @_reload example_runtime (@_reload example_runtime built_engine).2
        = ((@_reload example_runtime built_engine).1, s2) ∧
        attrs s2 = attrs (@_reload example_runtime built_engine).2 ∧
        files s2 = files (@_reload example_runtime built_engine).2 ∧
        dirs s2 = dirs (@_reload example_runtime built_engine).2.
Proof.
  assert (@_reload example_runtime built_engine
          = ((@_reload example_runtime built_engine).1,
             (@_reload example_runtime built_engine).2)) as Hrun
    by (by destruct (@_reload example_runtime built_engine)).
  assert (attrs (@_reload example_runtime built_engine).2 !! "_simple_attributes"
          = attrs built_engine !! "_simple_attributes") as Hs by (vm_compute; reflexivity).
  assert (attrs (@_reload example_runtime built_engine).2 !! "_complex_attributes"
          = attrs built_engine !! "_complex_attributes") as Hc by (vm_compute; reflexivity).
  split; [by split_and!|].
  by apply (@reload_idempotent example_runtime built_engine).
Defined.

(** Both reloads return, and the array is there after each. *)
Example reload_twice_ex :
  (@_reload example_runtime built_engine).1 = inr tt ∧
  (@_reload example_runtime (@_reload example_runtime built_engine).2).1 = inr tt ∧
  attrs (@_reload example_runtime built_engine).2 !! "bart" = Some zeros ∧
  attrs (@_reload example_runtime (@_reload example_runtime built_engine).2).2 !! "bart"
  = Some zeros.
Proof. vm_compute. by split_and!. Qed.


(** On a fresh instance: [years] is back, [year] is not an attribute. *)
Example save_build_ex :
  attrs (@_build example_runtime None None true
           (fresh_on (@_save example_runtime None None simpsons).2)).2 !! "years"
  = Some (VList [VInt 2020; VInt 2019]) ∧
  attrs (@_build example_runtime None None true
           (fresh_on (@_save example_runtime None None simpsons).2)).2 !! "year" = None.
Proof. vm_compute. by split_and!. Qed.

Lemma second_save_manifest_witness :
  (@_save example_runtime None None simpsons_bart
   = ((@_save example_runtime None None simpsons_bart).1,
      (@_save example_runtime None None simpsons_bart).2) ∧
   @resolve_dest example_runtime
     (State (delete "bart" (attrs (@_save example_runtime None None simpsons_bart).2))
        (files (@_save example_runtime None None simpsons_bart).2)
        (dirs (@_save example_runtime None None simpsons_bart).2)
        (warnings (@_save example_runtime None None simpsons_bart).2)) None
   = Some "Simpsons" ∧
   default_dest_tar "Simpsons" None ≠ os_path_join "Simpsons" "complex_attributes.json" ∧
   default_dest_tar "Simpsons" None ≠ os_path_join "Simpsons" "simple_attributes.json") ∧
  ∃ s3 jc c tdirs tfiles,
    @_save example_runtime None None
      (State (delete "bart" (attrs (@_save example_runtime None None simpsons_bart).2))
         (files (@_save example_runtime None None simpsons_bart).2)
         (dirs (@_save example_runtime None None simpsons_bart).2)
         (warnings (@_save example_runtime None None simpsons_bart).2)) = (inr tt, s3) ∧
    files s3 !! os_path_join "Simpsons" "complex_attributes.json" = Some (FJson jc) ∧
    files s3 !! default_dest_tar "Simpsons" None = Some (FTar tdirs tfiles) ∧
    (os_path_join (os_path_basename "Simpsons") "complex_attributes.json", FJson jc) ∈ tfiles ∧
    json_load jc = VDict c ∧
    (∀ k, dict_get (VStr k) c = attrs s3 !! k ≫= entry_of "Simpsons" k) ∧
    (∀ p c0 rel,
       files (@_save example_runtime None None simpsons_bart).2 !! p = Some c0 →
       relative_to "Simpsons" p = Some rel →
       p ≠ default_dest_tar "Simpsons" None →
       ∃ c', (os_path_join (os_path_basename "Simpsons") rel, c') ∈ tfiles).
Proof.
  assert (@_save example_runtime None None simpsons_bart
          = ((@_save example_runtime None None simpsons_bart).1,
             (@_save example_runtime None None simpsons_bart).2)) as H1
    by (by destruct (@_save example_runtime None None simpsons_bart)).
  set (s2' := State (delete "bart" (attrs (@_save example_runtime None None simpsons_bart).2))
                (files (@_save example_runtime None None simpsons_bart).2)
                (dirs (@_save example_runtime None None simpsons_bart).2)
                (warnings (@_save example_runtime None None simpsons_bart).2)).
  assert (@resolve_dest example_runtime s2' None = Some "Simpsons") as Hd
    by (vm_compute; reflexivity).
  assert (default_dest_tar "Simpsons" None
          ≠ os_path_join "Simpsons" "complex_attributes.json") as Htc by discriminate.
  assert (default_dest_tar "Simpsons" None
          ≠ os_path_join "Simpsons" "simple_attributes.json") as Hts by discriminate.
  assert (@_save example_runtime None None s2'
          = (inr tt, (@_save example_runtime None None s2').2)) as H2.
  { apply run_pair. vm_compute. reflexivity. }
  split; [by split_and!|].
  destruct (@second_save_manifest example_runtime simpsons_bart None None _ _
              (delete "bart" (attrs (@_save example_runtime None None simpsons_bart).2))
              "Simpsons" _ H1 Hd Htc Hts H2)
    as (jc & c & tdirs & tfiles & Hc & Ht & Hin & Hload & Hget & _ & Hold).
  exists (@_save example_runtime None None s2').2, jc, c, tdirs, tfiles.
  split; [exact H2|]. split; [exact Hc|]. split; [exact Ht|]. split; [exact Hin|].
  split; [exact Hload|]. split; [exact Hget|exact Hold].
Defined.

(** * Further properties of the class *)

(** ** The monad, once more *)

Lemma bind_assoc {A B C} (m : M A) (f : A → M B) (g : B → M C) s :
  ((m ≫= f) ≫= g) s = (m ≫= (λ x, f x ≫= g)) s.
Proof.
  rewrite (run_bind (m ≫= f)), !run_bind.
  destruct (m s) as [[e|x] s1]; [done|]. by rewrite run_bind.
Qed.

Lemma bind_ext {A B} (m : M A) (f g : A → M B) s :
  (∀ x s', f x s' = g x s') → (m ≫= f) s = (m ≫= g) s.
Proof. intros Hfg. rewrite !run_bind. destruct (m s) as [[e|x] s1]; [done|apply Hfg]. Qed.

Lemma for_each_app {A} (l1 l2 : list A) (body : A → M unit) s :
  for_each (l1 ++ l2) body s = (for_each l1 body;; for_each l2 body) s.
Proof.
  revert s. induction l1 as [|x l1 IH]; intros s; [done|].
  cbn [app for_each]. rewrite bind_assoc. apply bind_ext. intros [] s'. apply IH.
Qed.

#[global] Instance leaves_refl names : Reflexive (leaves names).
Proof. by intros a k. Qed.
#[global] Instance leaves_trans names : Transitive (leaves names).
Proof. intros a b c Hab Hbc k Hk. by rewrite Hbc, Hab. Qed.

Lemma leaves_set_attr names k v : k ∉ names → keeps (leaves names) (set_attr k v).
Proof. intros Hk s k' Hk'. simpl. rewrite lookup_insert_ne; [done|]. by intros ->. Qed.

(** ** What [_save] does to the host *)

Section save_effects.
Context `{PyRuntime}.

Lemma keeps_default_dest R `{!Reflexive R, !Transitive R} dest : keeps R (default_dest dest).
Proof.
  destruct dest; [apply (keeps_ret _)|].
  apply (keeps_bind _); [apply (keeps_getattr _)|intros n; apply (keeps_ret _)].
Qed.

Lemma keeps_dump_to R `{!Reflexive R, !Transitive R} f hd v : keeps R (dump_to f hd v).
Proof.
  unfold dump_to. destruct (json_dump hd v); [|apply (keeps_write_file _)].
  apply (keeps_bind _); [apply (keeps_write_file _)|intros _; apply (keeps_raise _)].
Qed.

Lemma keeps_record_complex R `{!Reflexive R, !Transitive R} k e :
  (∀ v, keeps R (set_attr "_complex_attributes" v)) → keeps R (record_complex k e).
Proof.
  intros Hset. unfold record_complex.
  apply (keeps_bind _); [apply (keeps_getattr _)|intros c].
  apply (keeps_bind _); [apply (keeps_lift _)|done].
Qed.

Lemma keeps_save R `{!Reflexive R, !Transitive R} dest dest_tar :
  (∀ v, keeps R (set_attr "_complex_attributes" v)) →
  (∀ v, keeps R (set_attr "_simple_attributes" v)) →
  keeps R (_save dest dest_tar).
Proof.
  intros Hc Hs. unfold _save.
  apply (keeps_bind _); [apply (keeps_default_dest _)|intros d].
  apply (keeps_bind _); [done|intros _]. apply (keeps_bind _); [done|intros _].
  apply (keeps_bind _); [|intros _].
  { apply (keeps_pure _). intros s. unfold _make_dest_directory. by case_bool_decide. }
  apply (keeps_bind _); [|intros _].
  { unfold _save_numpy_attributes.
    apply (keeps_bind _); [by apply (keeps_pure _)|intros _].
    apply (keeps_bind _); [by apply (keeps_pure _)|intros ks].
    apply (keeps_for_each _). intros k.
    apply (keeps_bind _); [apply (keeps_getattr _)|intros v].
    destruct v; try apply (keeps_ret _).
    apply (keeps_bind _); [apply (keeps_write_file _)|intros _].
    by apply (keeps_record_complex _). }
  apply (keeps_bind _); [|intros _].
  { unfold _save_pandas_attributes.
    apply (keeps_bind _); [by apply (keeps_pure _)|intros ks].
    apply (keeps_for_each _). intros k.
    apply (keeps_bind _); [apply (keeps_getattr _)|intros v].
    destruct v; try apply (keeps_ret _).
    apply (keeps_bind _); [apply (keeps_write_file _)|intros _].
    by apply (keeps_record_complex _). }
  apply (keeps_bind _); [|intros _].
  { unfold _save_complex_attributes.
    apply (keeps_bind _); [apply (keeps_write_file _)|intros _].
    apply (keeps_bind _); [apply (keeps_getattr _)|intros c]. apply (keeps_dump_to _). }
  apply (keeps_bind _); [|intros _].
  { unfold _save_simple_attributes.
    apply (keeps_bind _); [by apply (keeps_pure _)|intros c]. apply (keeps_dump_to _). }
  unfold _save_as_tar_gz.
  apply (keeps_bind _); [apply (keeps_write_file _)|intros _].
  apply (keeps_bind _); [by apply (keeps_pure _)|intros s'].
  case_bool_decide; [apply (keeps_write_file _)|].
  destruct (files s' !! _); [|apply (keeps_raise _)].
  case_bool_decide; apply (keeps_write_file _).
Qed.

(** X1: whether it returns or raises, [_save] assigns no attribute of the
    host other than its two manifest fields, and removes none. *)
Theorem save_assigns_manifests_only dest dest_tar s k :
  k ∉ manifest_fields →
  attrs (_save dest dest_tar s).2 !! k = attrs s !! k.
Proof.
  intros Hk.
  apply (keeps_save (only_assigns manifest_fields) dest dest_tar); [| |done];
    intros v; apply only_assigns_set_attr; unfold manifest_fields;
    rewrite !elem_of_cons; by eauto.
Qed.

(** X2: without a [dest] and without a [name] on the host, [_save] raises
    [AttributeError] at once: no attribute, file or directory changes. *)
Theorem save_without_name dest_tar s :
  attrs s !! "name" = None →
  _save None dest_tar s = (inl AttributeError, s).
Proof.
  intros Hn. unfold _save. rewrite run_bind. unfold default_dest.
  rewrite run_bind. unfold getattr_. by rewrite Hn.
Qed.

(** X3: in the same situation [_build] raises [AttributeError] too, but
    only after it has emptied the two manifests: what a previous build had
    loaded is lost. *)
Theorem build_without_name dest_tar reload s :
  attrs s !! "name" = None →
  _build None dest_tar reload s
  = (inl AttributeError, with_attrs reset_manifests s).
Proof.
  intros Hn. unfold _build. rewrite run_bind. cbn [set_attr].
  rewrite run_bind. cbn [set_attr]. rewrite run_bind. unfold default_dest.
  rewrite run_bind. unfold getattr_. cbn [attrs with_attrs].
  rewrite !lookup_insert_ne by done. by rewrite Hn.
Qed.


(** X5: a [_build] with [reload = False] restores nothing: returned or
    raised, it leaves every attribute other than [_complex_attributes],
    [_simple_attributes], [dest] and [dest_tar] as it was. *)
Theorem build_without_reload_restores_nothing dest dest_tar s k :
  k ∉ bookkeeping →
  attrs (_build dest dest_tar false s).2 !! k = attrs s !! k.
Proof.
  intros Hk.
  assert (∀ n v, n ∈ bookkeeping → keeps (only_assigns bookkeeping) (set_attr n v)) as Hset.
  { intros n v Hn. by apply only_assigns_set_attr. }
  assert (keeps (only_assigns bookkeeping) (_build dest dest_tar false)) as Hkeeps.
  { unfold _build.
    apply (keeps_bind _); [apply Hset; set_solver|intros _].
    apply (keeps_bind _); [apply Hset; set_solver|intros _].
    apply (keeps_bind _); [apply (keeps_default_dest _)|intros d].
    apply (keeps_bind _); [apply Hset; set_solver|intros _].
    apply (keeps_bind _); [apply Hset; set_solver|intros _].
    apply (build_loads_keep _); [| |apply (keeps_ret _)]; intros v; apply Hset; set_solver. }
  by apply Hkeeps.
Qed.

(** X6: building with a reload is building without one and then calling
    [_reload]: the same result and the same final state. *)
Theorem build_then_reload dest dest_tar s :
  _build dest dest_tar true s = (_build dest dest_tar false;; _reload) s.
Proof.
  unfold _build.
  repeat (rewrite bind_assoc; apply bind_ext; intros ? ?). reflexivity.
Qed.
End save_effects.

(** ** Reloading: what is kept, what is swallowed, what aborts *)

Section reload_effects.
Context `{PyRuntime}.

(** X7: [_reload_simple_all] never assigns one of the two manifest
    fields, although the document it walks has members of these names:
    returned or raised, it leaves both manifests as they were. *)
Theorem reload_simple_all_keeps_manifests s k :
  k ∈ manifest_fields →
  attrs (_reload_simple_all s).2 !! k = attrs s !! k.
Proof.
  intros Hk.
  assert (keeps (leaves manifest_fields) _reload_simple_all) as Hkeeps.
  { unfold _reload_simple_all.
    apply (keeps_bind _); [apply (keeps_getattr _)|intros m].
    apply (keeps_bind _); [apply (keeps_lift _)|intros kvs].
    apply (keeps_for_each _). intros [q v]. unfold simple_step.
    case_bool_decide as Hres; [apply (keeps_ret _)|].
    case_bool_decide; [apply (keeps_ret _)|].
    destruct q; try apply (keeps_raise _). apply leaves_set_attr.
    intros Hin. apply Hres. unfold reserved, manifest_fields in *.
    rewrite !elem_of_cons in Hin. rewrite !elem_of_cons.
    destruct Hin as [->|[->|Hin]]; [by eauto|by eauto|by apply elem_of_nil in Hin]. }
  by apply Hkeeps.
Qed.

(** X8: a [KeyError] raised by the decoder of a recognised type is caught
    by the same handler as an unknown type: [_reload_complex] returns, the
    attribute is not assigned, and the warning says the type is
    unrecognized. *)
Theorem reload_complex_swallows_decoder_keyerror s c name e fn tag ff :
  attrs s !! "_complex_attributes" = Some (VDict c) →
  dict_get (VStr name) c = Some e →
  entry_fields e = Some (fn, tag, ff) →
  recognized tag = true →
  decode tag fn (files s) = inl KeyError →
  _reload_complex (VStr name) s
  = (inr tt, State (attrs s) (files s) (dirs s)
               (warnings s ++ [unrecognized_warning (VStr name) fn (VStr tag)])).
Proof.
  intros Hm He Hf Htag Hx. unfold _reload_complex.
  rewrite run_bind, (run_getattr _ _ _ Hm). rewrite run_bind.
  unfold lift at 1, getitem at 1. cbn [hashable]. rewrite He.
  destruct (entry_fields_getitem _ _ _ _ Hf) as (-> & -> & ->).
  rewrite run_bind. cbn [lift]. rewrite run_bind. cbn [lift]. rewrite run_bind. cbn [lift].
  unfold try_except_KeyError. rewrite run_bind. unfold lift.
  rewrite decoder_recognized by done. rewrite run_bind, Hx. done.
Qed.

(** Any other exception of the decoder leaves [_reload_complex]. *)
Lemma reload_complex_decoder_error s c name e fn tag ff err :
  attrs s !! "_complex_attributes" = Some (VDict c) →
  dict_get (VStr name) c = Some e →
  entry_fields e = Some (fn, tag, ff) →
  recognized tag = true →
  decode tag fn (files s) = inl err → err ≠ KeyError →
  _reload_complex (VStr name) s = (inl err, s).
Proof.
  intros Hm He Hf Htag Hx Herr. unfold _reload_complex.
  rewrite run_bind, (run_getattr _ _ _ Hm). rewrite run_bind.
  unfold lift at 1, getitem at 1. cbn [hashable]. rewrite He.
  destruct (entry_fields_getitem _ _ _ _ Hf) as (-> & -> & ->).
  rewrite run_bind. cbn [lift]. rewrite run_bind. cbn [lift]. rewrite run_bind. cbn [lift].
  unfold try_except_KeyError. rewrite run_bind. unfold lift.
  rewrite decoder_recognized by done. rewrite run_bind, Hx. by destruct err.
Qed.

(** X9: the full reload of the complex attributes stops at the first
    recognised entry whose decoder raises anything but [KeyError] (a
    missing data file, say): the exception reaches the caller, and neither
    that entry nor any entry after it is assigned. *)
Theorem reload_aborts_on_decoder_error s l1 name e l2 fn tag ff err :
  attrs s !! "_complex_attributes" = Some (VDict (l1 ++ (VStr name, e) :: l2)%list) →
  NoDup ((l1 ++ (VStr name, e) :: l2)%list).*1 →
  Forall (entry_ok (files s)) l1 →
  entry_fields e = Some (fn, tag, ff) →
  recognized tag = true →
  decode tag fn (files s) = inl err → err ≠ KeyError →
  ∃ s',
    _reload_complex_all s = (inl err, s') ∧
    attrs s' !! name = attrs s !! name ∧
    ∀ n, VStr n ∈ l2.*1 → attrs s' !! n = attrs s !! n.
Proof.
  intros Hm Hnd Hok Hf Htag Hx Herr.
  set (c := (l1 ++ (VStr name, e) :: l2)%list) in *.
  assert (NoDup l1.*1 ∧ (VStr name ∉ l1.*1) ∧ (∀ q, q ∈ l2.*1 → q ∉ l1.*1))
    as (Hnd1 & Hn1 & H21).
  { unfold c in Hnd. rewrite fmap_app in Hnd. apply NoDup_app in Hnd as (Hnd1 & Hdis & _).
    split_and!; [done| |].
    - intros Hin. apply (Hdis _ Hin). left.
    - intros q Hq Hin. apply (Hdis _ Hin). by right. }
  assert (VStr "_complex_attributes" ∉ l1.*1) as Hc1.
  { intros [[q e'] [Hq Hin]]%list_elem_of_fmap. rewrite Forall_forall in Hok.
    destruct (Hok _ Hin) as (n & _ & _ & _ & Hn & Hne & _). simpl in *. congruence. }
  destruct (reload_complex_loop c l1 s Hm Hnd Hnd1)
    as (s1 & Hrun & Hfs & _ & Hframe & _ & _); [|done|].
  { intros x Hx1. unfold c. apply elem_of_app. by left. }
  exists s1. split_and!.
  - unfold _reload_complex_all.
    rewrite run_bind, (run_getattr _ _ _ Hm), run_bind. cbn [lift keys].
    unfold c at 1. rewrite fmap_app, for_each_app, run_bind, Hrun.
    cbn [fmap list_fmap fst for_each]. rewrite run_bind.
    rewrite (reload_complex_decoder_error s1 c name e fn tag ff err); try done.
    + by rewrite Hframe.
    + apply dict_get_NoDup; [done|]. unfold c. apply elem_of_app. right. left.
    + by rewrite Hfs.
  - by apply Hframe.
  - intros n Hn. by apply Hframe, H21.
Qed.
End reload_effects.

(** ** Manifests written and read back *)

Section manifest_files.
Context `{PyRuntime}.


(** X11: the simple manifest of a [_save] that returns holds the two
    manifest fields themselves: an empty object under
    [_simple_attributes] and, under [_complex_attributes], the very
    document written to [complex_attributes.json]. *)
Theorem simple_manifest_holds_manifests s dest dest_tar s' d :
  resolve_dest s dest = Some d →
  default_dest_tar d dest_tar ≠ os_path_join d "complex_attributes.json" →
  default_dest_tar d dest_tar ≠ os_path_join d "simple_attributes.json" →
  _save dest dest_tar s = (inr tt, s') →
  ∃ ms jc,
    files s' !! os_path_join d "simple_attributes.json" = Some (FJson (JObj ms)) ∧
    files s' !! os_path_join d "complex_attributes.json" = Some (FJson jc) ∧
    dict_get "_simple_attributes" ms = Some (JObj []) ∧
    dict_get "_complex_attributes" ms = Some jc.
Proof.
  intros Hd Htc Hts Hsave.
  destruct (save_manifest_files _ _ _ _ _ Hd Htc Hts Hsave)
    as (jc & js & Ha & Hjc & _ & Hjs & Hfc & Hfs).
  destruct (simple_document_load _ _ Hjs) as (ms & m & -> & _ & Hm & _).
  exists ms, jc. split_and!; [done|done| |].
  - destruct (Hm "_simple_attributes" (VDict [])) as (j & Hj & Hget & _);
      [apply saved_attrs_simple|]. by injection Hj as <-.
  - destruct (Hm "_complex_attributes" (VDict (complex_manifest d (attrs s))))
      as (j & Hj & Hget & _); [apply saved_attrs_complex|].
    destruct (complex_manifest_document d (attrs s)) as (jc' & Hjc' & _).
    rewrite Hjc' in Hjc, Hj. congruence.
Qed.

Lemma reset_saved d a : reset_manifests (saved_attrs d a) = reset_manifests a.
Proof.
  apply map_eq. intros k. unfold saved_attrs, reset_manifests.
  rewrite !lookup_insert. by repeat case_decide.
Qed.

Lemma saved_attrs_twice d a : saved_attrs d (saved_attrs d a) = saved_attrs d a.
Proof.
  unfold saved_attrs at 1. unfold complex_manifest. rewrite reset_saved. reflexivity.
Qed.

(** X12: a [_save] that returns can be repeated at once: the second call
    returns too and leaves the host with the same attributes. *)
Theorem save_twice_same_attributes s dest dest_tar s1 :
  _save dest dest_tar s = (inr tt, s1) →
  ∃ s2, _save dest dest_tar s1 = (inr tt, s2) ∧ attrs s2 = attrs s1.
Proof.
  intros Hsave. destruct (save_resolves _ _ _ _ Hsave) as [d Hd].
  destruct (complex_manifest_document d (attrs s)) as (jc & Hjc & _).
  pose proof (run_save s dest dest_tar d jc Hd (Hjc false)) as Hrun. cbv zeta in Hrun.
  rewrite Hsave in Hrun.
  destruct (json_dump true (attrs_dict (saved_attrs d (attrs s)))) as [e|js] eqn:Hjs;
    [done|].
  injection Hrun as ->.
  set (s1 := State (saved_attrs d (attrs s)) _ _ _) in *.
  assert (resolve_dest s1 dest = Some d) as Hd1.
  { unfold resolve_dest in *. destruct dest; [done|]. cbn [attrs s1].
    by rewrite saved_attrs_other. }
  destruct (complex_manifest_document d (attrs s1)) as (jc1 & Hjc1 & _).
  pose proof (run_save s1 dest dest_tar d jc1 Hd1 (Hjc1 false)) as Hrun1.
  cbv zeta in Hrun1. cbn [attrs s1] in Hrun1. rewrite saved_attrs_twice, Hjs in Hrun1.
  eexists. split; [exact Hrun1|done].
Qed.
End manifest_files.

(** ** Packing and unpacking *)







(** ** The data files of a save *)

Lemma string_app_nonempty a b : b ≠ "" → a ++ b ≠ "".
Proof. intros Hb. destruct a; [done|]. by intros [=]. Qed.

Lemma string_last_app a b : b ≠ "" → string_last (a ++ b) = string_last b.
Proof.
  intros Hb. induction a as [|c a IH]; [done|].
  change (string_last (String c (a ++ b)) = string_last b).
  cbn [string_last]. destruct (a ++ b) eqn:Hab.
  - by destruct (string_app_nonempty a b Hb).
  - exact IH.
Qed.

Lemma os_path_join_last d b : b ≠ "" → string_last (os_path_join d b) = string_last b.
Proof.
  intros Hb. unfold os_path_join. destruct (startswith_sep b); [done|].
  destruct (bool_decide (d = "") || endswith_sep d); [by apply string_last_app|].
  rewrite string_last_app by done. cbn [string_last]. by destruct b.
Qed.

Lemma string_length_app a b : String.length (a ++ b) = String.length a + String.length b.
Proof.
  induction a as [|c a IH]; [done|].
  change (S (String.length (a ++ b)) = S (String.length a + String.length b)). by rewrite IH.
Qed.

Lemma string_app_inj_r a1 a2 b : a1 ++ b = a2 ++ b → a1 = a2.
Proof.
  revert a2. induction a1 as [|c a1 IH]; intros [|c2 a2] Heq; [done| | |].
  - apply (f_equal String.length) in Heq. simpl in Heq.
    change (String.length b = S (String.length (a2 ++ b))) in Heq.
    rewrite string_length_app in Heq. lia.
  - apply (f_equal String.length) in Heq.
    change (S (String.length (a1 ++ b)) = String.length b) in Heq.
    rewrite string_length_app in Heq. lia.
  - change (String c (a1 ++ b) = String c2 (a2 ++ b)) in Heq.
    injection Heq as -> Heq. by rewrite (IH a2 Heq).
Qed.

Lemma startswith_sep_app k ext :
  startswith_sep k = false → startswith_sep ext = false → startswith_sep (k ++ ext) = false.
Proof. by destruct k. Qed.

(** Two attributes whose names do not begin with a separator are written
    to different files. *)
Lemma data_path_inj d k1 k2 ext :
  startswith_sep k1 = false → startswith_sep k2 = false → startswith_sep ext = false →
  os_path_join d (k1 ++ ext) = os_path_join d (k2 ++ ext) → k1 = k2.
Proof.
  intros H1 H2 He Heq. apply os_path_join_inj in Heq; [|by apply startswith_sep_app..].
  by apply string_app_inj_r in Heq.
Qed.

Lemma foldl_write_other (sel : string → option (string * file)) P ks :
  ∀ fs : gmap string file,
  (∀ k' P' c', k' ∈ ks → sel k' = Some (P', c') → P' ≠ P) →
  foldl (λ fs k, match sel k with Some pc => <[pc.1 := pc.2]> fs | None => fs end) fs ks !! P
  = fs !! P.
Proof.
  induction ks as [|k' ks IH]; intros fs Hne; [done|]. cbn [foldl].
  rewrite IH by (intros ??? Hin; apply Hne; by right).
  destruct (sel k') as [[P' c']|] eqn:Hsel; [|done]. cbn [fst snd].
  rewrite lookup_insert_ne; [done|]. eapply Hne; [left|done].
Qed.

Lemma foldl_write_lookup (sel : string → option (string * file)) k P c ks :
  sel k = Some (P, c) →
  (∀ k' c', k' ∈ ks → sel k' = Some (P, c') → k' = k) →
  ∀ fs : gmap string file,
  k ∈ ks ∨ fs !! P = Some c →
  foldl (λ fs k, match sel k with Some pc => <[pc.1 := pc.2]> fs | None => fs end) fs ks !! P
  = Some c.
Proof.
  intros Hk. induction ks as [|k' ks IH]; intros Hinj fs Hin.
  - destruct Hin as [Hin|Hin]; [by apply elem_of_nil in Hin|done].
  - cbn [foldl]. apply IH; [intros ?? Hin'; apply Hinj; by right|].
    destruct (decide (k' = k)) as [->|Hne].
    + right. rewrite Hk. cbn [fst snd]. apply lookup_insert_eq.
    + destruct Hin as [[?|Hin]%elem_of_cons|Hin]; [done|by left|right].
      destruct (sel k') as [[P' c']|] eqn:Hsel; [|done]. cbn [fst snd].
      rewrite lookup_insert_ne; [done|]. intros ->. apply Hne.
      eapply Hinj; [left|done].
Qed.

Lemma np_write_sel d a (fs : gmap string file) ks :
  foldl (np_write d a) fs ks
  = foldl (λ fs k,
             match (match a !! k with
                    | Some (VNdarray x) => Some (os_path_join d (k ++ ".cs"), FNumpy x)
                    | _ => None
                    end) with
             | Some pc => <[pc.1 := pc.2]> fs
             | None => fs
             end) fs ks.
Proof.
  apply foldl_pointwise. intros fs' k. unfold np_write. by destruct (a !! k) as [[]|].
Qed.

Lemma pd_write_sel d a (fs : gmap string file) ks :
  foldl (pd_write d a) fs ks
  = foldl (λ fs k,
             match (match a !! k with
                    | Some (VDataFrame x) => Some (os_path_join d (k ++ ".csv"), FPandas x)
                    | _ => None
                    end) with
             | Some pc => <[pc.1 := pc.2]> fs
             | None => fs
             end) fs ks.
Proof.
  apply foldl_pointwise. intros fs' k. unfold pd_write. by destruct (a !! k) as [[]|].
Qed.

Lemma lookup_complex_insert (m : gmap string pyval) X Y k v :
  is_complex v = true →
  m !! "_complex_attributes" = Some (VDict Y) →
  <["_complex_attributes" := VDict X]> m !! k = Some v ↔ m !! k = Some v.
Proof.
  intros Hv Hm. rewrite lookup_insert. case_decide as Hk; [|done]. subst k. rewrite Hm.
  split; intros [= <-]; done.
Qed.

Lemma last_of_cs d k : string_last (os_path_join d (k ++ ".cs")) = Some "s"%char.
Proof.
  rewrite os_path_join_last by by apply string_app_nonempty.
  by rewrite string_last_app.
Qed.

Lemma last_of_csv d k : string_last (os_path_join d (k ++ ".csv")) = Some "v"%char.
Proof.
  rewrite os_path_join_last by by apply string_app_nonempty.
  by rewrite string_last_app.
Qed.

Lemma last_of_manifest d b :
  b = "complex_attributes.json" ∨ b = "simple_attributes.json" →
  string_last (os_path_join d b) = Some "n"%char.
Proof. intros [-> | ->]; by rewrite os_path_join_last. Qed.

Lemma data_file_last d k v p c :
  data_file d k v = Some (p, c) →
  is_complex v = true ∧ (string_last p = Some "s"%char ∨ string_last p = Some "v"%char).
Proof.
  destruct v; try done; intros [= <- <-]; (split; [done|]).
  - left. apply last_of_cs.
  - right. apply last_of_csv.
Qed.

(** Once both loops of [_save] have run, the file of each ndarray and of
    each DataFrame holds its encoding, provided no name of such an
    attribute begins with a separator. *)
Lemma encoded_files_data d a (fs : gmap string file) k v p c :
  (∀ k' v', reset_manifests a !! k' = Some v' → is_complex v' = true →
            startswith_sep k' = false) →
  reset_manifests a !! k = Some v →
  data_file d k v = Some (p, c) →
  encoded_files d a fs !! p = Some c.
Proof.
  intros Hnames Hk Hdata. unfold encoded_files.
  set (a0 := reset_manifests a) in *.
  set (c1 := foldl (np_record d a0) [] (map_to_list a0).*1).
  set (a1 := <["_complex_attributes" := VDict c1]> a0).
  assert (a0 !! "_complex_attributes" = Some (VDict [])) as Hc0.
  { unfold a0, reset_manifests. rewrite lookup_insert_ne by done. apply lookup_insert_eq. }
  assert (∀ k' v', is_complex v' = true → a1 !! k' = Some v' ↔ a0 !! k' = Some v') as H10.
  { intros k' v' Hv'. by apply (lookup_complex_insert a0 c1 []). }
  rewrite pd_write_sel, np_write_sel.
  destruct v as [| | | | | | | |x|x|]; try done; injection Hdata as <- <-.
  - rewrite foldl_write_other.
    + apply foldl_write_lookup with (k := k); [by rewrite Hk| |left; by eapply elem_of_keys].
      intros k' c' _ Hsel. destruct (a0 !! k') as [[| | | | | | | |x'| |]|] eqn:Hk'; try done.
      injection Hsel as Hp _. apply (data_path_inj d k' k ".cs"); try done.
      * by apply (Hnames k' (VNdarray x')).
      * by apply (Hnames k (VNdarray x)).
    + intros k' P' c' _ Hsel.
      destruct (a1 !! k') as [[| | | | | | | | |x'|]|]; try done.
      injection Hsel as <- _. intros Heq. apply (f_equal string_last) in Heq.
      by rewrite last_of_cs, last_of_csv in Heq.
  - apply foldl_write_lookup with (k := k).
    + assert (a1 !! k = Some (VDataFrame x)) as -> by by apply H10. done.
    + intros k' c' _ Hsel. destruct (a1 !! k') as [[| | | | | | | | |x'|]|] eqn:Hk'; try done.
      injection Hsel as Hp _. apply (data_path_inj d k' k ".csv"); try done.
      * apply (Hnames k' (VDataFrame x')); [by apply H10|done].
      * by apply (Hnames k (VDataFrame x)).
    + left. apply (elem_of_keys a1 k (VDataFrame x)). by apply H10.
Qed.

Section data_files.
Context `{PyRuntime}.

(** X14: manifest and data agree after a [_save] that returns.  When no
    ndarray or DataFrame attribute has a name beginning with a separator,
    every such attribute has an entry of a recognised type in the complex
    manifest, and the file the entry names is on disk and holds the
    encoding of the attribute's value. *)
Theorem save_entries_name_their_files s dest dest_tar s' d k v p c :
  resolve_dest s dest = Some d →
  _save dest dest_tar s = (inr tt, s') →
  (∀ k' v', attrs s' !! k' = Some v' → is_complex v' = true → startswith_sep k' = false) →
  attrs s' !! k = Some v →
  data_file d k v = Some (p, c) →
  default_dest_tar d dest_tar ≠ p →
  files s' !! p = Some c ∧
  ∃ cm e tag ff,
    attrs s' !! "_complex_attributes" = Some (VDict cm) ∧
    dict_get (VStr k) cm = Some e ∧
    entry_fields e = Some (VStr p, tag, ff) ∧
    recognized tag = true.
Proof.
  intros Hd Hsave Hnames Hk Hdata Ht.
  destruct (complex_manifest_document d (attrs s)) as (jc & Hjc & _).
  pose proof (run_save s dest dest_tar d jc Hd (Hjc false)) as Hrun. cbv zeta in Hrun.
  rewrite Hsave in Hrun.
  destruct (json_dump true (attrs_dict (saved_attrs d (attrs s)))) as [e|js]; [done|].
  injection Hrun as ->. cbn [attrs files] in *.
  destruct (data_file_last _ _ _ _ _ Hdata) as [Hv Hlast].
  assert (∀ k' v', is_complex v' = true →
            saved_attrs d (attrs s) !! k' = Some v' ↔ reset_manifests (attrs s) !! k' = Some v')
    as Hsaved.
  { intros k' v' Hv'. unfold saved_attrs.
    apply (lookup_complex_insert _ _ []); [done|].
    unfold reset_manifests. rewrite lookup_insert_ne by done. apply lookup_insert_eq. }
  split.
  - rewrite !lookup_insert_ne by done. unfold manifests_written.
    rewrite !lookup_insert_ne.
    + apply (encoded_files_data d (attrs s) (files s) k v); [|by apply Hsaved|done].
      intros k' v' Hk' Hv'. apply (Hnames k' v'); [by apply Hsaved|done].
    + intros Heq. apply (f_equal string_last) in Heq.
      rewrite last_of_manifest in Heq by eauto. destruct Hlast as [Hl|Hl]; congruence.
    + intros Heq. apply (f_equal string_last) in Heq.
      rewrite last_of_manifest in Heq by eauto. destruct Hlast as [Hl|Hl]; congruence.
  - exists (complex_manifest d (attrs s)).
    pose proof (complex_manifest_get d (attrs s) k) as Hget.
    assert (reset_manifests (attrs s) !! k = Some v) as Hk0 by by apply Hsaved.
    rewrite Hk0 in Hget. cbn [mbind option_bind] in Hget.
    destruct v as [| | | | | | | |x|x|]; try done; injection Hdata as <- <-;
      cbn [entry_of] in Hget.
    + exists (numpy_entry (os_path_join d (k ++ ".cs"))), "np.ndarray", (VStr "csv").
      split_and!; [apply saved_attrs_complex|done..].
    + exists (pandas_entry (os_path_join d (k ++ ".csv"))), "pd.DataFrame", (VStr "csv").
      split_and!; [apply saved_attrs_complex|done..].
Qed.
End data_files.

(** ** Save, then build, with arrays and tables *)

Section round_trip_complex.
Context `{PyRuntime}.

(** On the disk [_save] left, [_build] with a reload gets as far as
    [_reload_complex_all], with both manifests loaded and the files as
    they were. *)
Lemma build_reaches_complex_reload d t jc js cm m tdirs tfiles
    (fs : gmap string file) ds ay wy dest dest_tar :
  os_path_basename d = d →
  t = default_dest_tar d dest_tar →
  t ≠ os_path_join d "complex_attributes.json" →
  t ≠ os_path_join d "simple_attributes.json" →
  archive_of d t ds (manifests_written d jc js fs) = FTar tdirs tfiles →
  json_load jc = VDict cm →
  json_load js = VDict m →
  NoDup m.*1 →
  (∀ q, q ∈ m.*1 → ∃ k, q = VStr k) →
  resolve_dest
    (State ay (<[t := FTar tdirs tfiles]>
                 (<[t := FTruncated]> (manifests_written d jc js fs))) ds wy) dest
  = Some d →
  ∃ s1,
    _build dest dest_tar true
      (State ay (<[t := FTar tdirs tfiles]>
                   (<[t := FTruncated]> (manifests_written d jc js fs))) ds wy)
    = _reload_complex_all s1 ∧
    files s1 = <[t := FTar tdirs tfiles]>
                 (<[t := FTruncated]> (manifests_written d jc js fs)) ∧
    attrs s1 !! "_complex_attributes" = Some (VDict cm).
Proof.
  intros Hbase Ht Htc Hts Harch Hjc Hjs Hnd Hstr Hd.
  set (disk := <[t := FTar tdirs tfiles]>
                 (<[t := FTruncated]> (manifests_written d jc js fs))) in *.
  set (sy := State ay disk ds wy) in *.
  rewrite (build_unfold sy dest dest_tar true d Hd). cbv zeta. rewrite <-Ht.
  rewrite run_bind.
  assert (_extract_tarfile t (build_start sy d t)
          = (inr tt, State (attrs (build_start sy d t)) disk (list_to_set tdirs ∪ ds) wy))
    as ->.
  { unfold _extract_tarfile. cbn [files build_start with_attrs sy]. unfold disk at 1.
    rewrite lookup_insert_eq. unfold extractall.
    change (files (build_start sy d t)) with disk.
    change (dirs (build_start sy d t)) with ds.
    change (warnings (build_start sy d t)) with wy.
    unfold disk. by rewrite (extract_archive_of d t ds _ tdirs tfiles Hbase Harch). }
  rewrite run_bind. unfold _get_complex_attribute_definitions at 1. rewrite run_bind.
  unfold load_definitions at 1. cbn [files].
  assert (disk !! os_path_join d "complex_attributes.json" = Some (FJson jc)) as ->.
  { unfold disk, manifests_written. rewrite !lookup_insert_ne by done.
    rewrite lookup_insert_ne by (apply not_eq_sym, manifest_paths_differ).
    apply lookup_insert_eq. }
  cbn [json_load_file]. rewrite Hjc. cbn [set_attr].
  rewrite run_bind. unfold _get_simple_attribute_definitions at 1. rewrite run_bind.
  unfold load_definitions at 1. cbn [files with_attrs].
  assert (disk !! os_path_join d "simple_attributes.json" = Some (FJson js)) as ->.
  { unfold disk, manifests_written. rewrite !lookup_insert_ne by done.
    apply lookup_insert_eq. }
  cbn [json_load_file]. rewrite Hjs. cbn [set_attr].
  set (s0 := with_attrs (insert "_simple_attributes" (VDict m)) _).
  unfold _reload. rewrite run_bind. unfold _reload_simple_all. rewrite run_bind.
  unfold getattr_ at 1.
  assert (attrs s0 !! "_simple_attributes" = Some (VDict m)) as -> by apply lookup_insert_eq.
  rewrite run_bind. cbn [lift items].
  destruct (reload_simple_loop m s0 Hnd Hstr) as (s' & -> & Hfs & _ & _ & Ha).
  exists s'. split_and!; [done|done|].
  rewrite Ha.
  assert (attrs s0 !! "_complex_attributes" = Some (VDict cm)) as Hc0.
  { unfold s0. rewrite attrs_with_attrs, lookup_insert_ne by done. apply lookup_insert_eq. }
  destruct (dict_get (VStr "_complex_attributes") m); [|done].
  rewrite bool_decide_eq_true_2; [done|]. apply reserved_names. by left.
Qed.

(** X15: the round trip with arrays and tables.  After a [_save] that
    returns into a directory named by a single path component, a [_build]
    with a reload on the same disk returns, provided the decoders read the
    data files, and gives the rebuilt host, for each attribute that was an
    ndarray or a DataFrame, what the decoder of its type reads from the
    file written for it. *)
Theorem save_build_decodes sx dest dest_tar d sx' :
  resolve_dest sx dest = Some d →
  os_path_basename d = d →
  default_dest_tar d dest_tar ≠ os_path_join d "complex_attributes.json" →
  default_dest_tar d dest_tar ≠ os_path_join d "simple_attributes.json" →
  _save dest dest_tar sx = (inr tt, sx') →
  (∀ k v p c, attrs sx' !! k = Some v → data_file d k v = Some (p, c) →
     ∃ x, decode (tag_of v) (VStr p) (files sx') = inr x) →
  ∀ ay wy,
    resolve_dest (State ay (files sx') (dirs sx') wy) dest = Some d →
    ∃ sy',
      _build dest dest_tar true (State ay (files sx') (dirs sx') wy) = (inr tt, sy') ∧
      ∀ k v p c, attrs sx' !! k = Some v → data_file d k v = Some (p, c) →
        ∃ x, decode (tag_of v) (VStr p) (files sx') = inr x ∧ attrs sy' !! k = Some x.
Proof.
  intros Hd Hbase Htc Hts Hsave Hdec ay wy Hdy.
  destruct (complex_manifest_document d (attrs sx)) as (jc & Hjc & Hloadc).
  pose proof (run_save sx dest dest_tar d jc Hd (Hjc false)) as Hrun. cbv zeta in Hrun.
  rewrite Hsave in Hrun.
  destruct (json_dump true (attrs_dict (saved_attrs d (attrs sx)))) as [e|js] eqn:Hjs;
    [done|].
  injection Hrun as ->. cbn [attrs files dirs] in *.
  set (t := default_dest_tar d dest_tar) in *.
  set (cm := complex_manifest d (attrs sx)) in *.
  destruct (simple_document_load _ _ Hjs) as (ms & m & -> & Hloads & _ & Hkeys).
  destruct (build_reaches_complex_reload d t jc (JObj ms) cm m
              (tar_dir_members d (os_path_basename d) (save_dirs d (dirs sx)))
              (tar_file_members d (os_path_basename d) t
                 (<[t := FTruncated]>
                    (manifests_written d jc (JObj ms)
                       (encoded_files d (attrs sx) (files sx)))))
              (encoded_files d (attrs sx) (files sx)) (save_dirs d (dirs sx))
              ay wy dest dest_tar) as (s1 & Hbuild & Hfs1 & Hc1); try done.
  { by eapply json_load_obj_NoDup. }
  { intros q Hq. destruct (Hkeys q Hq) as (k & -> & _). by exists k. }
  fold (archive_of d t (save_dirs d (dirs sx))
          (manifests_written d jc (JObj ms) (encoded_files d (attrs sx) (files sx))))
    in Hbuild, Hfs1.
  set (disk := <[t := archive_of _ _ _ _]> _) in *.
  destruct (manifest_wf_complex d (attrs sx)) as [Hwf Hndc]. fold cm in Hwf, Hndc.
  (* each entry of the manifest is the entry of a complex attribute *)
  assert (∀ name e, (VStr name, e) ∈ cm →
            ∃ v, saved_attrs d (attrs sx) !! name = Some v ∧ entry_of d name v = Some e)
    as Hentries.
  { intros name e Hin. pose proof (complex_manifest_get d (attrs sx) name) as Hget.
    fold cm in Hget. rewrite (dict_get_NoDup (VStr name) e cm Hndc Hin) in Hget.
    rewrite <-saved_attrs_entry in Hget.
    destruct (saved_attrs d (attrs sx) !! name) as [v|]; [|done]. by exists v. }
  assert (∀ name e v, entry_of d name v = Some e →
            ∃ p c, data_file d name v = Some (p, c) ∧
                   entry_fields e = Some (VStr p, tag_of v, VStr "csv") ∧
                   recognized (tag_of v) = true) as Hfields.
  { intros name e v He. destruct v; try done; injection He as <-; by eexists _, _. }
  assert (Forall (entry_ok (files s1)) cm) as Hok.
  { apply Forall_forall. intros [q e] Hin.
    destruct (complex_manifest_keys d (attrs sx) q) as [name ->].
    { apply list_elem_of_fmap. by exists (q, e). }
    destruct (Hentries name e Hin) as (v & Hv & He).
    destruct (Hfields name e v He) as (p & c & Hdata & Hf & Htag).
    exists name, (VStr p), (tag_of v), (VStr "csv"). split_and!; [done| |done|].
    - intros ->. rewrite saved_attrs_complex in Hv. injection Hv as <-. done.
    - intros _. rewrite Hfs1. by apply (Hdec name v p c). }
  destruct (reload_complex_loop cm cm s1 Hc1 Hndc Hndc) as (sy' & Hloop & _ & _ & _ & _ & Hall);
    [done|done|].
  exists sy'. split.
  - rewrite Hbuild. unfold _reload_complex_all.
    rewrite run_bind, (run_getattr _ _ _ Hc1), run_bind. done.
  - intros k v p c Hk Hdata.
    assert (is_Some (entry_of d k v)) as [e He] by (destruct v; by eauto).
    assert ((VStr k, e) ∈ cm) as Hin.
    { apply dict_get_Some_elem. unfold cm.
      rewrite complex_manifest_get, <-saved_attrs_entry, Hk. done. }
    destruct (Hfields k e v He) as (p' & c' & Hdata' & Hf & Htag).
    rewrite Hdata in Hdata'. injection Hdata' as <- <-.
    pose proof (Hall k e (VStr p) (tag_of v) (VStr "csv") Hin Hf) as Hx.
    rewrite Htag, Hfs1 in Hx. exact Hx.
Qed.
End round_trip_complex.

(** ** Build without a reload, then one attribute at a time *)

Section lazy_restore.
Context `{PyRuntime}.

Lemma build_loads_manifests d t jc js cm m tdirs tfiles
    (fs : gmap string file) ds ay wy dest dest_tar :
  os_path_basename d = d →
  t = default_dest_tar d dest_tar →
  t ≠ os_path_join d "complex_attributes.json" →
  t ≠ os_path_join d "simple_attributes.json" →
  archive_of d t ds (manifests_written d jc js fs) = FTar tdirs tfiles →
  json_load jc = VDict cm →
  json_load js = VDict m →
  resolve_dest
    (State ay (<[t := FTar tdirs tfiles]>
                 (<[t := FTruncated]> (manifests_written d jc js fs))) ds wy) dest
  = Some d →
  ∃ s0,
    _build dest dest_tar false
      (State ay (<[t := FTar tdirs tfiles]>
                   (<[t := FTruncated]> (manifests_written d jc js fs))) ds wy)
    = (inr tt, s0) ∧
    files s0 = <[t := FTar tdirs tfiles]>
                 (<[t := FTruncated]> (manifests_written d jc js fs)) ∧
    attrs s0 !! "_complex_attributes" = Some (VDict cm) ∧
    attrs s0 !! "_simple_attributes" = Some (VDict m).
Proof.
  intros Hbase Ht Htc Hts Harch Hjc Hjs Hd.
  set (disk := <[t := FTar tdirs tfiles]>
                 (<[t := FTruncated]> (manifests_written d jc js fs))) in *.
  set (sy := State ay disk ds wy) in *.
  rewrite (build_unfold sy dest dest_tar false d Hd). cbv zeta. rewrite <-Ht.
  rewrite run_bind.
  assert (_extract_tarfile t (build_start sy d t)
          = (inr tt, State (attrs (build_start sy d t)) disk (list_to_set tdirs ∪ ds) wy))
    as ->.
  { unfold _extract_tarfile. cbn [files build_start with_attrs sy]. unfold disk at 1.
    rewrite lookup_insert_eq. unfold extractall.
    change (files (build_start sy d t)) with disk.
    change (dirs (build_start sy d t)) with ds.
    change (warnings (build_start sy d t)) with wy.
    unfold disk. by rewrite (extract_archive_of d t ds _ tdirs tfiles Hbase Harch). }
  rewrite run_bind. unfold _get_complex_attribute_definitions at 1. rewrite run_bind.
  unfold load_definitions at 1. cbn [files].
  assert (disk !! os_path_join d "complex_attributes.json" = Some (FJson jc)) as ->.
  { unfold disk, manifests_written. rewrite !lookup_insert_ne by done.
    rewrite lookup_insert_ne by (apply not_eq_sym, manifest_paths_differ).
    apply lookup_insert_eq. }
  cbn [json_load_file]. rewrite Hjc. cbn [set_attr].
  rewrite run_bind. unfold _get_simple_attribute_definitions at 1. rewrite run_bind.
  unfold load_definitions at 1. cbn [files with_attrs].
  assert (disk !! os_path_join d "simple_attributes.json" = Some (FJson js)) as ->.
  { unfold disk, manifests_written. rewrite !lookup_insert_ne by done.
    apply lookup_insert_eq. }
  cbn [json_load_file]. rewrite Hjs. cbn [set_attr].
  eexists. split; [reflexivity|]. cbn [attrs files with_attrs]. split_and!; [done| |].
  - rewrite lookup_insert_ne by done. apply lookup_insert_eq.
  - apply lookup_insert_eq.
Qed.

(** X16: restoring one attribute at a time.  On the disk a [_save] left,
    [_build] with [reload = False] returns with both manifests loaded;
    from there [_reload_simple] on the name of an attribute that JSON
    carries unchanged assigns that attribute its saved value, and
    [_reload_complex] on the name of an ndarray or DataFrame assigns what
    the decoder reads from its file; each call assigns that one attribute
    and changes nothing else. *)
Theorem build_then_reload_one sx dest dest_tar d sx' :
  resolve_dest sx dest = Some d →
  os_path_basename d = d →
  default_dest_tar d dest_tar ≠ os_path_join d "complex_attributes.json" →
  default_dest_tar d dest_tar ≠ os_path_join d "simple_attributes.json" →
  _save dest dest_tar sx = (inr tt, sx') →
  ∀ ay wy,
    resolve_dest (State ay (files sx') (dirs sx') wy) dest = Some d →
    ∃ s0,
      _build dest dest_tar false (State ay (files sx') (dirs sx') wy) = (inr tt, s0) ∧
      (∀ k v, attrs sx' !! k = Some v → json_plain v = true →
         _reload_simple (VStr k) s0 = (inr tt, with_attrs (insert k v) s0)) ∧
      (∀ k v p c x, attrs sx' !! k = Some v → data_file d k v = Some (p, c) →
         decode (tag_of v) (VStr p) (files sx') = inr x →
         _reload_complex (VStr k) s0 = (inr tt, with_attrs (insert k x) s0)).
Proof.
  intros Hd Hbase Htc Hts Hsave ay wy Hdy.
  destruct (complex_manifest_document d (attrs sx)) as (jc & Hjc & Hloadc).
  pose proof (run_save sx dest dest_tar d jc Hd (Hjc false)) as Hrun. cbv zeta in Hrun.
  rewrite Hsave in Hrun.
  destruct (json_dump true (attrs_dict (saved_attrs d (attrs sx)))) as [e|js] eqn:Hjs;
    [done|].
  injection Hrun as ->. cbn [attrs files dirs] in *.
  set (t := default_dest_tar d dest_tar) in *.
  set (cm := complex_manifest d (attrs sx)) in *.
  destruct (simple_document_load _ _ Hjs) as (ms & m & -> & Hloads & Hm & _).
  destruct (build_loads_manifests d t jc (JObj ms) cm m
              (tar_dir_members d (os_path_basename d) (save_dirs d (dirs sx)))
              (tar_file_members d (os_path_basename d) t
                 (<[t := FTruncated]>
                    (manifests_written d jc (JObj ms)
                       (encoded_files d (attrs sx) (files sx)))))
              (encoded_files d (attrs sx) (files sx)) (save_dirs d (dirs sx))
              ay wy dest dest_tar) as (s0 & Hbuild & Hfs0 & Hc0 & Hs0); try done.
  exists s0. split; [exact Hbuild|]. split.
  - intros k v Hk Hplain. destruct (Hm k v Hk) as (j & Hj & _ & Hget).
    destruct (json_round_trip v Hplain) as (j' & Hj' & Hload).
    rewrite Hj' in Hj. injection Hj as <-. rewrite Hload in Hget.
    unfold _reload_simple, try_except_KeyError.
    rewrite run_bind, (run_getattr _ _ _ Hs0), run_bind.
    unfold lift, getitem. cbn [hashable]. by rewrite Hget.
  - intros k v p c x Hk Hdata Hx.
    assert (dict_get (VStr k) cm = entry_of d k v) as Hget.
    { unfold cm. by rewrite complex_manifest_get, <-saved_attrs_entry, Hk. }
    destruct v; try done; injection Hdata as <- <-; cbn [entry_of tag_of] in *.
    + eapply reload_complex_recognized; [exact Hc0|exact Hget|reflexivity|reflexivity|].
      by rewrite Hfs0.
    + eapply reload_complex_recognized; [exact Hc0|exact Hget|reflexivity|reflexivity|].
      by rewrite Hfs0.
Qed.
End lazy_restore.

(** ** Worked examples, continued *)

Lemma save_assigns_manifests_only_witness :
  ("name" ∉ manifest_fields) ∧
  attrs (@_save example_runtime None None simpsons_bart).2 !! "name"
  = attrs simpsons_bart !! "name".
Proof.
  assert ("name" ∉ manifest_fields) as Hk.
  { apply (bool_decide_unpack _). vm_compute. exact I. }
  split; [exact Hk|].
  exact (@save_assigns_manifests_only example_runtime None None simpsons_bart "name" Hk).
Defined.

Lemma save_without_name_witness :
  attrs nameless !! "name" = None ∧
  @_save example_runtime None None nameless = (inl AttributeError, nameless).
Proof.
  assert (attrs nameless !! "name" = None) as Hn by reflexivity.
  split; [exact Hn|]. exact (@save_without_name example_runtime None nameless Hn).
Defined.

Lemma build_without_name_witness :
  attrs nameless !! "name" = None ∧
  @_build example_runtime None None true nameless
  = (inl AttributeError, with_attrs reset_manifests nameless).
Proof.
  assert (attrs nameless !! "name" = None) as Hn by reflexivity.
  split; [exact Hn|]. exact (@build_without_name example_runtime None true nameless Hn).
Defined.

(** The manifest a previous build had loaded is gone. *)
Example build_without_name_ex :
  attrs nameless !! "_simple_attributes" = Some (VDict [(VStr "year", VInt 2020)]) ∧
  attrs (@_build example_runtime None None true nameless).2 !! "_simple_attributes"
  = Some (VDict []).
Proof. vm_compute. by split. Qed.


Lemma build_without_reload_restores_nothing_witness :
  ("name" ∉ bookkeeping) ∧
  attrs (@_build example_runtime None None false (fresh_on saved_bart)).2 !! "name"
  = attrs (fresh_on saved_bart) !! "name".
Proof.
  assert ("name" ∉ bookkeeping) as Hk.
  { apply (bool_decide_unpack _). vm_compute. exact I. }
  split; [exact Hk|].
  exact (@build_without_reload_restores_nothing example_runtime None None
           (fresh_on saved_bart) "name" Hk).
Defined.

(** Nothing but the four names: the array is not there yet. *)
Example build_without_reload_ex :
  (@_build example_runtime None None false (fresh_on saved_bart)).1 = inr tt ∧
  attrs (@_build example_runtime None None false (fresh_on saved_bart)).2 !! "bart" = None ∧
  attrs (@_build example_runtime None None true (fresh_on saved_bart)).2 !! "bart"
  = Some zeros.
Proof. vm_compute. by split_and!. Qed.

Lemma reload_simple_all_keeps_manifests_witness :
  ("_simple_attributes" ∈ manifest_fields) ∧
  attrs (@_reload_simple_all example_runtime built_engine).2 !! "_simple_attributes"
  = attrs built_engine !! "_simple_attributes".
Proof.
  assert ("_simple_attributes" ∈ manifest_fields) as Hk.
  { apply (bool_decide_unpack _). vm_compute. exact I. }
  split; [exact Hk|].
  exact (@reload_simple_all_keeps_manifests example_runtime built_engine
           "_simple_attributes" Hk).
Defined.

Lemma reload_complex_swallows_decoder_keyerror_witness :
  (attrs lisa_missing !! "_complex_attributes" = Some (VDict table_then_array) ∧
   dict_get (VStr "lisa") table_then_array = Some (pandas_entry "d/lisa.csv") ∧
   entry_fields (pandas_entry "d/lisa.csv")
   = Some (VStr "d/lisa.csv", "pd.DataFrame", VStr "csv") ∧
   recognized "pd.DataFrame" = true ∧
   @decode keyerror_runtime "pd.DataFrame" (VStr "d/lisa.csv") (files lisa_missing)
   = inl KeyError) ∧
  @_reload_complex keyerror_runtime (VStr "lisa") lisa_missing
  = (inr tt, State (attrs lisa_missing) (files lisa_missing) (dirs lisa_missing)
               (warnings lisa_missing
                ++ [@unrecognized_warning keyerror_runtime (VStr "lisa")
                      (VStr "d/lisa.csv") (VStr "pd.DataFrame")])).
Proof.
  assert (attrs lisa_missing !! "_complex_attributes" = Some (VDict table_then_array))
    as Hm by reflexivity.
  assert (dict_get (VStr "lisa") table_then_array = Some (pandas_entry "d/lisa.csv"))
    as He by reflexivity.
  assert (entry_fields (pandas_entry "d/lisa.csv")
          = Some (VStr "d/lisa.csv", "pd.DataFrame", VStr "csv")) as Hf by reflexivity.
  assert (recognized "pd.DataFrame" = true) as Htag by reflexivity.
  assert (@decode keyerror_runtime "pd.DataFrame" (VStr "d/lisa.csv") (files lisa_missing)
          = inl KeyError) as Hx by reflexivity.
  split; [split_and!; assumption|].
  exact (@reload_complex_swallows_decoder_keyerror keyerror_runtime lisa_missing
           table_then_array "lisa" _ _ _ _ Hm He Hf Htag Hx).
Defined.

Lemma reload_aborts_on_decoder_error_witness :
  (attrs lisa_missing !! "_complex_attributes"
   = Some (VDict ([(VStr "bart", numpy_entry "d/bart.cs")]
                  ++ (VStr "lisa", pandas_entry "d/lisa.csv")
                     :: [(VStr "maggie", numpy_entry "d/maggie.cs")])%list) ∧
   NoDup (([(VStr "bart", numpy_entry "d/bart.cs")]
           ++ (VStr "lisa", pandas_entry "d/lisa.csv")
              :: [(VStr "maggie", numpy_entry "d/maggie.cs")])%list).*1 ∧
   Forall (@entry_ok example_runtime (files lisa_missing))
     [(VStr "bart", numpy_entry "d/bart.cs")] ∧
   entry_fields (pandas_entry "d/lisa.csv")
   = Some (VStr "d/lisa.csv", "pd.DataFrame", VStr "csv") ∧
   recognized "pd.DataFrame" = true ∧
   @decode example_runtime "pd.DataFrame" (VStr "d/lisa.csv") (files lisa_missing)
   = inl OSError ∧
   OSError ≠ KeyError) ∧
  ∃ s',
    @_reload_complex_all example_runtime lisa_missing = (inl OSError, s') ∧
    attrs s' !! "lisa" = attrs lisa_missing !! "lisa" ∧
    ∀ n, VStr n ∈ [(VStr "maggie", numpy_entry "d/maggie.cs")].*1 →
         attrs s' !! n = attrs lisa_missing !! n.
Proof.
  assert (attrs lisa_missing !! "_complex_attributes"
          = Some (VDict ([(VStr "bart", numpy_entry "d/bart.cs")]
                         ++ (VStr "lisa", pandas_entry "d/lisa.csv")
                            :: [(VStr "maggie", numpy_entry "d/maggie.cs")])%list))
    as Hm by reflexivity.
  assert (NoDup (([(VStr "bart", numpy_entry "d/bart.cs")]
                  ++ (VStr "lisa", pandas_entry "d/lisa.csv")
                     :: [(VStr "maggie", numpy_entry "d/maggie.cs")])%list).*1) as Hnd.
  { apply (bool_decide_unpack _). vm_compute. exact I. }
  assert (Forall (@entry_ok example_runtime (files lisa_missing))
            [(VStr "bart", numpy_entry "d/bart.cs")]) as Hok.
  { repeat constructor.
    exists "bart", (VStr "d/bart.cs"), "np.ndarray", (VStr "csv").
    split_and!; [reflexivity|discriminate|reflexivity|].
    intros _. eexists. vm_compute. reflexivity. }
  assert (entry_fields (pandas_entry "d/lisa.csv")
          = Some (VStr "d/lisa.csv", "pd.DataFrame", VStr "csv")) as Hf by reflexivity.
  assert (recognized "pd.DataFrame" = true) as Htag by reflexivity.
  assert (@decode example_runtime "pd.DataFrame" (VStr "d/lisa.csv") (files lisa_missing)
          = inl OSError) as Hx by reflexivity.
  assert (OSError ≠ KeyError) as Herr by discriminate.
  split; [split_and!; assumption|].
  exact (@reload_aborts_on_decoder_error example_runtime lisa_missing _ "lisa" _ _ _ _ _ _
           Hm Hnd Hok Hf Htag Hx Herr).
Defined.

(** The array before the table is restored, the one after it is not. *)
Example reload_aborts_ex :
  attrs (@_reload_complex_all example_runtime lisa_missing).2 !! "bart" = Some zeros ∧
  attrs (@_reload_complex_all example_runtime lisa_missing).2 !! "maggie" = None.
Proof. vm_compute. by split. Qed.


Lemma saved_bart_run :
  @_save example_runtime None None simpsons_bart = (inr tt, saved_bart).
Proof. apply run_pair. vm_compute. reflexivity. Qed.

Lemma simple_manifest_holds_manifests_witness :
  (@resolve_dest example_runtime simpsons_bart None = Some "Simpsons" ∧
   default_dest_tar "Simpsons" None ≠ os_path_join "Simpsons" "complex_attributes.json" ∧
   default_dest_tar "Simpsons" None ≠ os_path_join "Simpsons" "simple_attributes.json" ∧
   @_save example_runtime None None simpsons_bart = (inr tt, saved_bart)) ∧
  ∃ ms jc,
    files saved_bart !! os_path_join "Simpsons" "simple_attributes.json"
    = Some (FJson (JObj ms)) ∧
    files saved_bart !! os_path_join "Simpsons" "complex_attributes.json"
    = Some (FJson jc) ∧
    dict_get "_simple_attributes" ms = Some (JObj []) ∧
    dict_get "_complex_attributes" ms = Some jc.
Proof.
  assert (@resolve_dest example_runtime simpsons_bart None = Some "Simpsons") as Hd
    by reflexivity.
  assert (default_dest_tar "Simpsons" None
          ≠ os_path_join "Simpsons" "complex_attributes.json") as Htc by discriminate.
  assert (default_dest_tar "Simpsons" None
          ≠ os_path_join "Simpsons" "simple_attributes.json") as Hts by discriminate.
  split; [split_and!; [exact Hd|exact Htc|exact Hts|exact saved_bart_run]|].
  exact (@simple_manifest_holds_manifests example_runtime simpsons_bart None None
           saved_bart "Simpsons" Hd Htc Hts saved_bart_run).
Defined.

Lemma save_twice_same_attributes_witness :
  @_save example_runtime None None simpsons_bart = (inr tt, saved_bart) ∧
  ∃ s2, @_save example_runtime None None saved_bart = (inr tt, s2)
        ∧ attrs s2 = attrs saved_bart.
Proof.
  split; [exact saved_bart_run|].
  exact (@save_twice_same_attributes example_runtime simpsons_bart None None
           saved_bart saved_bart_run).
Defined.


(** On the disk that has the archive only, the array's file is back. *)
Example unpack_ex :
  files shipped !! "Simpsons/bart.cs" = None ∧
  files (_extract_tarfile "Simpsons.tar.gz" shipped).2 !! "Simpsons/bart.cs"
  = Some (FNumpy (Ndarray [2] ["0.0"; "0.0"])).
Proof. vm_compute. by split. Qed.

Lemma saved_bart_names k' v' :
  attrs saved_bart !! k' = Some v' → is_complex v' = true → startswith_sep k' = false.
Proof.
  revert k' v'.
  apply (bool_decide_unpack
           (map_Forall (λ (k : string) v, is_complex v = true → startswith_sep k = false)
              (attrs saved_bart))).
  vm_compute. exact I.
Qed.

Lemma save_entries_name_their_files_witness :
  (@resolve_dest example_runtime simpsons_bart None = Some "Simpsons" ∧
   @_save example_runtime None None simpsons_bart = (inr tt, saved_bart) ∧
   (∀ k' v', attrs saved_bart !! k' = Some v' → is_complex v' = true →
             startswith_sep k' = false) ∧
   attrs saved_bart !! "bart" = Some zeros ∧
   data_file "Simpsons" "bart" zeros
   = Some ("Simpsons/bart.cs", FNumpy (Ndarray [2] ["0.0"; "0.0"])) ∧
   default_dest_tar "Simpsons" None ≠ "Simpsons/bart.cs") ∧
  files saved_bart !! "Simpsons/bart.cs" = Some (FNumpy (Ndarray [2] ["0.0"; "0.0"])) ∧
  ∃ cm e tag ff,
    attrs saved_bart !! "_complex_attributes" = Some (VDict cm) ∧
    dict_get (VStr "bart") cm = Some e ∧
    entry_fields e = Some (VStr "Simpsons/bart.cs", tag, ff) ∧
    recognized tag = true.
Proof.
  assert (@resolve_dest example_runtime simpsons_bart None = Some "Simpsons") as Hd
    by reflexivity.
  assert (attrs saved_bart !! "bart" = Some zeros) as Hk by (vm_compute; reflexivity).
  assert (data_file "Simpsons" "bart" zeros
          = Some ("Simpsons/bart.cs", FNumpy (Ndarray [2] ["0.0"; "0.0"]))) as Hdata
    by reflexivity.
  assert (default_dest_tar "Simpsons" None ≠ "Simpsons/bart.cs") as Ht by discriminate.
  split; [split_and!;
          [exact Hd|exact saved_bart_run|exact saved_bart_names|exact Hk|exact Hdata|exact Ht]|].
  exact (@save_entries_name_their_files example_runtime simpsons_bart None None saved_bart
           "Simpsons" "bart" zeros _ _ Hd saved_bart_run saved_bart_names Hk Hdata Ht).
Defined.

Lemma saved_bart_decodes k v p c :
  attrs saved_bart !! k = Some v → data_file "Simpsons" k v = Some (p, c) →
  ∃ x, @decode example_runtime (tag_of v) (VStr p) (files saved_bart) = inr x.
Proof.
  intros Hk Hdata.
  assert (∀ k v, attrs saved_bart !! k = Some v →
            @decodes_on example_runtime "Simpsons" (files saved_bart) k v = true) as Hall.
  { apply (bool_decide_unpack
             (map_Forall (λ (k : string) v,
                            @decodes_on example_runtime "Simpsons" (files saved_bart) k v
                            = true) (attrs saved_bart))).
    vm_compute. exact I. }
  pose proof (Hall k v Hk) as Hdec.
  unfold decodes_on in Hdec. rewrite Hdata in Hdec.
  destruct (@decode example_runtime (tag_of v) (VStr p) (files saved_bart)) as [|x];
    [discriminate|]. by exists x.
Qed.

Lemma save_build_decodes_witness :
  (@resolve_dest example_runtime simpsons_bart None = Some "Simpsons" ∧
   os_path_basename "Simpsons" = "Simpsons" ∧
   default_dest_tar "Simpsons" None ≠ os_path_join "Simpsons" "complex_attributes.json" ∧
   default_dest_tar "Simpsons" None ≠ os_path_join "Simpsons" "simple_attributes.json" ∧
   @_save example_runtime None None simpsons_bart = (inr tt, saved_bart) ∧
   (∀ k v p c, attrs saved_bart !! k = Some v → data_file "Simpsons" k v = Some (p, c) →
      ∃ x, @decode example_runtime (tag_of v) (VStr p) (files saved_bart) = inr x) ∧
   @resolve_dest example_runtime (fresh_on saved_bart) None = Some "Simpsons") ∧
  ∃ sy',
    @_build example_runtime None None true (fresh_on saved_bart) = (inr tt, sy') ∧
    ∀ k v p c, attrs saved_bart !! k = Some v → data_file "Simpsons" k v = Some (p, c) →
      ∃ x, @decode example_runtime (tag_of v) (VStr p) (files saved_bart) = inr x
           ∧ attrs sy' !! k = Some x.
Proof.
  assert (@resolve_dest example_runtime simpsons_bart None = Some "Simpsons") as Hd
    by reflexivity.
  assert (os_path_basename "Simpsons" = "Simpsons") as Hbase by reflexivity.
  assert (default_dest_tar "Simpsons" None
          ≠ os_path_join "Simpsons" "complex_attributes.json") as Htc by discriminate.
  assert (default_dest_tar "Simpsons" None
          ≠ os_path_join "Simpsons" "simple_attributes.json") as Hts by discriminate.
  assert (@resolve_dest example_runtime (fresh_on saved_bart) None = Some "Simpsons") as Hdy
    by reflexivity.
  split; [split_and!; [exact Hd|exact Hbase|exact Htc|exact Hts|exact saved_bart_run
                      |exact saved_bart_decodes|exact Hdy]|].
  exact (@save_build_decodes example_runtime simpsons_bart None None "Simpsons" saved_bart
           Hd Hbase Htc Hts saved_bart_run saved_bart_decodes
           (init (VStr "Simpsons")) [] Hdy).
Defined.

Lemma build_then_reload_one_witness :
  (@resolve_dest example_runtime simpsons_bart None = Some "Simpsons" ∧
   os_path_basename "Simpsons" = "Simpsons" ∧
   default_dest_tar "Simpsons" None ≠ os_path_join "Simpsons" "complex_attributes.json" ∧
   default_dest_tar "Simpsons" None ≠ os_path_join "Simpsons" "simple_attributes.json" ∧
   @_save example_runtime None None simpsons_bart = (inr tt, saved_bart) ∧
   @resolve_dest example_runtime (fresh_on saved_bart) None = Some "Simpsons") ∧
  ∃ s0,
    @_build example_runtime None None false (fresh_on saved_bart) = (inr tt, s0) ∧
    (∀ k v, attrs saved_bart !! k = Some v → json_plain v = true →
       @_reload_simple example_runtime (VStr k) s0 = (inr tt, with_attrs (insert k v) s0)) ∧
    (∀ k v p c x, attrs saved_bart !! k = Some v → data_file "Simpsons" k v = Some (p, c) →
       @decode example_runtime (tag_of v) (VStr p) (files saved_bart) = inr x →
       @_reload_complex example_runtime (VStr k) s0 = (inr tt, with_attrs (insert k x) s0)).
Proof.
  assert (@resolve_dest example_runtime simpsons_bart None = Some "Simpsons") as Hd
    by reflexivity.
  assert (os_path_basename "Simpsons" = "Simpsons") as Hbase by reflexivity.
  assert (default_dest_tar "Simpsons" None
          ≠ os_path_join "Simpsons" "complex_attributes.json") as Htc by discriminate.
  assert (default_dest_tar "Simpsons" None
          ≠ os_path_join "Simpsons" "simple_attributes.json") as Hts by discriminate.
  assert (@resolve_dest example_runtime (fresh_on saved_bart) None = Some "Simpsons") as Hdy
    by reflexivity.
  split; [split_and!; [exact Hd|exact Hbase|exact Htc|exact Hts|exact saved_bart_run
                      |exact Hdy]|].
  exact (@build_then_reload_one example_runtime simpsons_bart None None "Simpsons"
           saved_bart Hd Hbase Htc Hts saved_bart_run (init (VStr "Simpsons")) [] Hdy).
Defined.

(** One array, on request. *)
Example reload_one_ex :
  attrs (@_reload_complex example_runtime (VStr "bart") built_engine).2 !! "bart"
  = Some zeros ∧
  attrs (@_reload_simple example_runtime (VStr "name") built_engine).2 !! "name"
  = Some (VStr "Simpsons").
Proof. vm_compute. by split. Qed.

Lemma reload_simple_all_no_none_witness :
  (@_reload_simple_all example_runtime year_unset
   = ((@_reload_simple_all example_runtime year_unset).1,
      (@_reload_simple_all example_runtime year_unset).2) ∧
   attrs (@_reload_simple_all example_runtime year_unset).2 !! "year" = Some VNone) ∧
  attrs year_unset !! "year" = Some VNone.
Proof.
  assert (@_reload_simple_all example_runtime year_unset
          = ((@_reload_simple_all example_runtime year_unset).1,
             (@_reload_simple_all example_runtime year_unset).2)) as Hrun
    by (by destruct (@_reload_simple_all example_runtime year_unset)).
  assert (attrs (@_reload_simple_all example_runtime year_unset).2 !! "year" = Some VNone)
    as Hk by (vm_compute; reflexivity).
  split; [split; [exact Hrun|exact Hk]|].
  exact (@reload_simple_all_no_none example_runtime year_unset _ _ "year" Hrun Hk).
Defined.
